(** * Document theme chatbot: ingestion, chunk store, query and theme engines

    A shallow embedding of [document_processor.py], [vector_db.py],
    [query_processor.py], [theme_processor.py] and [app.py], the properties
    of the system specification checked against it, and further properties
    of the code.

    Conventions of the embedding.
    - A Python [str] is a [list ascii]; a character is read as the code point
      U+0000..U+00FF it denotes, so the whitespace and digit classes below are
      the ones Python uses on that range.
    - A call that may raise returns an [outcome]; [try]/[except Exception] is
      [try_except].  [Raise] stands for the subclasses of [Exception], the
      ones these handlers catch; [KeyboardInterrupt] and [SystemExit] are
      outside the model.  [print] is not modelled (it has no effect on
      results).
    - External collaborators (document loaders, text splitter, FAISS, the
      chat model, the clock, the JSON codec on foreign files) are the fields
      of one record [Env]; nothing is assumed about what they return, except
      that a collaborator asked the same thing twice answers the same.
    - The [processed/] directory is a finite map from paths to files together
      with the set of paths that cannot be opened for writing.  A path is
      the text the program builds; two spellings of one file ([a/./b] and
      [a/b]) are two keys of the map, so the statements that tell the files
      of one document from those of another take document ids and file
      names without a slash ([plain_name]).
    - A JSON file holds one of the two values this program dumps, the list
      of chunk records or the metadata summary; a file that holds another
      JSON value (an empty object, a number) is not represented, and the
      statements about a sidecar file say which of the two it holds or that
      reading it raises.
    - The module-level state of the application (the two dictionaries and
      the queue) is a record that the views and the worker pass on; each of
      them is described as run from start to end, without another thread
      in between. *)

From Stdlib Require Import Ascii String List Arith ZArith QArith Lia DecimalString DecimalNat.
From Equations Require Import Equations.
From Equations.Prop Require Import Logic.
From stdpp Require Import gmap strings list fin_maps.

Local Open Scope Z_scope.
Local Open Scope nat_scope.

(* ===================================================================== *)
(** * Python strings                                                      *)
(* ===================================================================== *)

Module PyStr.

Abbreviation str := (list ascii) (only parsing).

(** A string literal of the source. *)
Definition py (s : string) : str := list_ascii_of_string s.

Definition LF : ascii := ascii_of_nat 10.
Definition CR : ascii := ascii_of_nat 13.

(** [str.isspace] on one character, which is also the class [\s] of [re] on
    [str] patterns: TAB..CR, FS..US, SPACE, NEL and NBSP. *)
Definition is_space (c : ascii) : bool :=
  let n := nat_of_ascii c in
  ((9 <=? n) && (n <=? 13)) || ((28 <=? n) && (n <=? 32)) || (n =? 133) || (n =? 160).

(** The class [\d] of [re]: the decimal digits. *)
Definition is_digit (c : ascii) : bool :=
  let n := nat_of_ascii c in (48 <=? n) && (n <=? 57).

Fixpoint drop_while (p : ascii -> bool) (s : str) : str :=
  match s with
  | [] => []
  | c :: r => if p c then drop_while p r else s
  end.

Fixpoint take_while (p : ascii -> bool) (s : str) : str :=
  match s with
  | [] => []
  | c :: r => if p c then c :: take_while p r else []
  end.

(** [s.lstrip()], [s.rstrip()], [s.strip()]. *)
Definition lstrip (s : str) : str := drop_while is_space s.
Definition rstrip (s : str) : str := rev (drop_while is_space (rev s)).
Definition strip (s : str) : str := rstrip (lstrip s).

(** [sep.join(l)]. *)
Fixpoint join (sep : str) (l : list str) : str :=
  match l with
  | [] => []
  | [x] => x
  | x :: l' => x ++ sep ++ join sep l'
  end.

(** [str(n)] for an [int]. *)
Definition str_of_nat (n : nat) : str :=
  list_ascii_of_string (NilEmpty.string_of_uint (Nat.to_uint n)).
Definition str_of_Z (z : Z) : str :=
  list_ascii_of_string (NilZero.string_of_int (Z.to_int z)).

(** [s.startswith(p)], giving what follows the prefix. *)
Fixpoint strip_prefix (p s : str) : option str :=
  match p, s with
  | [], _ => Some s
  | a :: p', b :: s' => if Ascii.eqb a b then strip_prefix p' s' else None
  | _ :: _, [] => None
  end.

(** [s.lower()]: A..Z and the Latin-1 capitals U+00C0..U+00DE (U+00D7, the
    multiplication sign, apart). *)
Definition lower_char (c : ascii) : ascii :=
  let n := nat_of_ascii c in
  if ((65 <=? n) && (n <=? 90)) || ((192 <=? n) && (n <=? 222) && negb (n =? 215))
  then ascii_of_nat (n + 32) else c.
Definition lower (s : str) : str := map lower_char s.

(** What reading a file in text mode does to line ends (universal newlines):
    CR LF and a lone CR both become LF. *)
Fixpoint universal_newlines (s : str) : str :=
  match s with
  | [] => []
  | c :: r =>
      if Ascii.eqb c CR then
        match r with
        | c' :: r' => if Ascii.eqb c' LF then LF :: universal_newlines r'
                      else LF :: universal_newlines r
        | [] => [LF]
        end
      else c :: universal_newlines r
  end.

(** [os.path.join(a, b)] on POSIX, for a non-empty [a] without a final slash. *)
Definition path_join (a b : str) : str :=
  match b with
  | c :: _ => if Ascii.eqb c "/" then b else a ++ py "/" ++ b
  | [] => a ++ py "/"
  end.

(** [os.path.basename(p)]: what follows the last slash. *)
Definition basename (p : str) : str :=
  rev (take_while (fun c => negb (Ascii.eqb c "/")) (rev p)).

(** [os.path.splitext(p)[1]]: from the last dot of the base name on, unless
    only dots stand before it. *)
Definition splitext_ext (p : str) : str :=
  let b := rev (basename p) in
  let suffix := take_while (fun c => negb (Ascii.eqb c ".")) b in
  match drop_while (fun c => negb (Ascii.eqb c ".")) b with
  | [] => []
  | _dot :: before =>
      if forallb (fun c => Ascii.eqb c ".") before then []
      else py "." ++ rev suffix
  end.

End PyStr.
Import PyStr.

(* ===================================================================== *)
(** * The two regular expressions of the source                           *)
(* ===================================================================== *)

Module Regex.

(** [\n---\s*Document Chunk \d+\s*---\n] matched at the start of [s]; the
    result is what follows the match.  The greedy classes are followed by a
    character outside them, so the first attempt of the engine is the only
    possible match and no backtracking is involved. *)
Definition match_marker (s : str) : option str :=
  match strip_prefix (LF :: py "---") s with
  | None => None
  | Some r1 =>
      match strip_prefix (py "Document Chunk ") (drop_while is_space r1) with
      | None => None
      | Some r3 =>
          match take_while is_digit r3 with
          | [] => None
          | _ :: _ =>
              strip_prefix (py "---" ++ [LF])
                (drop_while is_space (drop_while is_digit r3))
          end
      end
  end.

Lemma strip_prefix_length p s r :
  strip_prefix p s = Some r -> length s = length p + length r.
Proof.
  revert s; induction p as [|a p IH]; intros s; simpl.
  - intros [= <-]. reflexivity.
  - destruct s as [|b s]; [congruence|].
    destruct (Ascii.eqb a b); [|congruence]. intros H. simpl. rewrite (IH _ H). reflexivity.
Qed.

Lemma drop_while_length p s : length (drop_while p s) <= length s.
Proof. induction s as [|c s IH]; simpl; [lia|]. destruct (p c); simpl; lia. Qed.

Lemma match_marker_shorter s r : match_marker s = Some r -> length r < length s.
Proof.
  unfold match_marker. intros H.
  destruct (strip_prefix (LF :: py "---") s) as [r1|] eqn:E1; [|congruence].
  destruct (strip_prefix (py "Document Chunk ") (drop_while is_space r1)) as [r3|] eqn:E3;
    [|congruence].
  destruct (take_while is_digit r3); [congruence|].
  apply strip_prefix_length in E1, E3, H.
  pose proof (drop_while_length is_space r1).
  pose proof (drop_while_length is_space (drop_while is_digit r3)).
  pose proof (drop_while_length is_digit r3).
  simpl in E1, E3, H. lia.
Qed.

(** [re.split(marker, s)]: the pieces of [s] between the successive leftmost
    matches, scanning left to right; [cur] holds, reversed, the characters
    of the piece being read. *)
Equations? re_split_from (cur : str) (s : str) : list str by wf (length s) lt :=
  re_split_from cur [] := [rev cur];
  re_split_from cur (c :: r) with inspect (match_marker (c :: r)) := {
    | exist _ (Some rest) E := rev cur :: re_split_from [] rest;
    | exist _ None E := re_split_from (c :: cur) r }.
Proof.
  - apply match_marker_shorter in E. simpl in E. exact E.
  - simpl. lia.
Qed.

Definition re_split (s : str) : list str := re_split_from [] s.

Definition is_terminator (c : ascii) : bool :=
  Ascii.eqb c "." || Ascii.eqb c "!" || Ascii.eqb c "?".

(** [(.*?[.!?])] matched at the start of [s]: the lazy star stops at the
    first terminator, and [.] refuses a line feed. *)
Fixpoint match_sentence (s : str) : option str :=
  match s with
  | [] => None
  | c :: r =>
      if is_terminator c then Some [c]
      else if Ascii.eqb c LF then None
      else (c ::.) <$> match_sentence r
  end.

(** [re.search(r'(.*?[.!?])', s)], group 1: the match at the leftmost
    position that has one. *)
Fixpoint search_sentence (s : str) : option str :=
  match match_sentence s with
  | Some m => Some m
  | None => match s with
            | [] => None
            | _ :: r => search_sentence r
            end
  end.

End Regex.
Import Regex.

(* ===================================================================== *)
(** * Run-time values, exceptions, files and external collaborators       *)
(* ===================================================================== *)

Module Py.

(** The result of a call: a value, or an exception [e] given by [str(e)]. *)
Inductive outcome (A : Type) : Type :=
| Return (a : A)
| Raise (e : str).
Arguments Return {A} a.
Arguments Raise {A} e.

Definition bind {A B} (m : outcome A) (k : A -> outcome B) : outcome B :=
  match m with
  | Return a => k a
  | Raise e => Raise e
  end.

(** [try: body  except Exception as e: handler(e)]. *)
Definition try_except {A} (body : outcome A) (handler : str -> outcome A) : outcome A :=
  match body with
  | Return a => Return a
  | Raise e => handler e
  end.

(** The values metadata dictionaries hold: [int] and [str]. *)
Inductive pyval : Type :=
| VInt (n : Z)
| VStr (s : str).

#[export] Instance pyval_eq_dec : EqDecision pyval.
Proof. solve_decision. Defined.

#[export] Instance pyval_countable : Countable pyval.
Proof.
  refine (inj_countable'
            (fun v => match v with VInt n => inl n | VStr s => inr s end)
            (fun x => match x with inl n => VInt n | inr s => VStr s end) _).
  intros []; reflexivity.
Defined.

(** [str(v)], as an f-string renders it. *)
Definition str_of_val (v : pyval) : str :=
  match v with
  | VInt n => str_of_Z n
  | VStr s => s
  end.

(** Truth value of [v] in an [if]. *)
Definition truthy (v : pyval) : bool :=
  match v with
  | VInt n => negb (n =? 0)%Z
  | VStr s => negb (bool_decide (s = []))
  end.

(** A metadata dictionary; its keys are the literals of the source. *)
Abbreviation dict := (gmap string pyval) (only parsing).

(** langchain's [Document]. *)
Record Document : Type := mkDocument {
  page_content : str;
  metadata : gmap string pyval
}.

#[export] Instance Document_eq_dec : EqDecision Document.
Proof. solve_decision. Defined.

(** The metadata summary written per document. *)
Record Summary : Type := mkSummary {
  sum_doc_id : str;
  sum_original_file : str;
  sum_file_type : str;
  sum_processing_time : str;
  sum_chunks_count : nat;
  sum_ocr_used : bool
}.

(** What [json.dump] is given in this program, and so what [json.load]
    gives back from a file it wrote.  Other JSON values have no
    constructor here. *)
Inductive json : Type :=
| JChunks (l : list (gmap string pyval))
| JSummary (m : Summary).

Inductive file : Type :=
| FText (s : str)
| FJson (j : json).

(** The file store: the files by path, and the paths [open(path, 'w')]
    refuses. *)
Record FS : Type := mkFS {
  files : gmap (list ascii) file;
  unwritable : gset (list ascii)
}.

(** What the language service answers to the synthesis chain: a mapping
    (with or without a ['text'] entry) or any other object, each with its
    [str()]. *)
Inductive synth_response : Type :=
| RespDict (text : option str) (repr : str)
| RespOther (repr : str).

(** The external collaborators. *)
Record Env : Type := mkEnv {
  PyPDFLoader_load : str -> outcome (list Document);
  UnstructuredPDFLoader_load : str -> outcome (list Document);
  UnstructuredImageLoader_load : str -> outcome (list Document);
  (** [RecursiveCharacterTextSplitter(1000, 200, ...).split_documents] *)
  split_documents : list Document -> outcome (list Document);
  (** [time.strftime('%Y-%m-%d %H:%M:%S')] *)
  strftime : str;
  (** the text of a JSON artefact when it is read as text *)
  json_dumps : json -> str;
  (** [json.load] on a file that was written as text *)
  json_loads : str -> outcome json;
  (** [FAISS.from_documents(docs, embeddings)]; the index is represented by
      the documents it holds *)
  FAISS_from_documents : list Document -> outcome unit;
  (** [index.similarity_search(query, k)] *)
  similarity_search : list Document -> str -> nat -> outcome (list Document);
  (** building the chat client, the prompt and the chain *)
  ChatOpenAI : outcome unit;
  (** [chain.invoke(query)] of the answering chain, with its context *)
  chain_invoke : str -> str -> outcome str;
  (** [synthesis_chain.invoke({query, themes_text})] of [LLMChain] *)
  synthesis_invoke : str -> str -> outcome synth_response;
  (** the same call on the piped chain of [ModernThemeProcessor] *)
  modern_synthesis_invoke : str -> str -> outcome str
}.

(** [open(path, 'r', encoding='utf-8').read()] *)
Definition read_text (env : Env) (fs : FS) (path : str) : outcome str :=
  match files fs !! path with
  | None => Raise (py "No such file or directory")
  | Some (FText s) => Return (universal_newlines s)
  | Some (FJson j) => Return (universal_newlines (json_dumps env j))
  end.

(** [json.load(open(path, 'r', encoding='utf-8'))] *)
Definition json_load (env : Env) (fs : FS) (path : str) : outcome json :=
  match files fs !! path with
  | None => Raise (py "No such file or directory")
  | Some (FJson j) => Return j
  | Some (FText s) => json_loads env (universal_newlines s)
  end.

(** [os.path.exists(path)] *)
Definition path_exists (fs : FS) (path : str) : bool :=
  bool_decide (is_Some (files fs !! path)).

(** Code that writes files: the store is threaded through, and an exception
    leaves the store as it was when it was raised. *)
Definition io (A : Type) : Type := FS -> FS * outcome A.

Definition io_ret {A} (a : A) : io A := fun fs => (fs, Return a).
Definition io_bind {A B} (m : io A) (k : A -> io B) : io B :=
  fun fs => match m fs with
            | (fs', Return a) => k a fs'
            | (fs', Raise e) => (fs', Raise e)
            end.
Definition io_lift {A} (m : outcome A) : io A := fun fs => (fs, m).

(** [with open(path, 'w', encoding='utf-8') as f: <write content>]; on a
    POSIX system, where line feeds are written as they are.  The write
    raises when the path cannot be opened and then leaves the store as it
    is. *)
Definition write_file (path : str) (content : file) : io unit :=
  fun fs =>
    if bool_decide (path ∈ unwritable fs)
    then (fs, Raise (py "Permission denied"))
    else (mkFS (<[path := content]> (files fs)) (unwritable fs), Return tt).

End Py.
Import Py.

Declare Scope py_scope.
Delimit Scope py_scope with py.
Notation "x <- m ;; k" := (bind m (fun x => k))
  (at level 100, m at next level, right associativity) : py_scope.
Notation "x <<- m ;; k" := (io_bind m (fun x => k))
  (at level 100, m at next level, right associativity) : py_scope.
Notation "m ;;; k" := (io_bind m (fun _ => k))
  (at level 100, right associativity) : py_scope.
Local Open Scope py_scope.

(* ===================================================================== *)
(** * vector_db.py                                                        *)
(* ===================================================================== *)

Module VectorDb.

(** The lookup table [chunks_metadata] built from the sidecar records: a
    record is entered under its ['chunk_id'] when that is present and
    truthy, a later record replacing an earlier one with the same id. *)
Fixpoint build_lookup (chunks_info : list (gmap string pyval))
    (chunks_metadata : gmap pyval (gmap string pyval)) : gmap pyval (gmap string pyval) :=
  match chunks_info with
  | [] => chunks_metadata
  | chunk :: rest =>
      build_lookup rest
        match chunk !! "chunk_id" with
        | Some chunk_id =>
            if truthy chunk_id then <[chunk_id := chunk]> chunks_metadata
            else chunks_metadata
        | None => chunks_metadata
        end
  end.

(** The default location label. *)
Definition Unknown : pyval := VStr (py "Unknown").

(** The body of the loop over the text chunks: chunk number [i] (from 0). *)
Definition make_chunk (chunks_metadata : gmap pyval (gmap string pyval))
    (doc_id : str) (i : nat) (text_chunk : str) : Document :=
  let chunk_id := i + 1 in
  let metadata := default ∅ (chunks_metadata !! VInt (Z.of_nat chunk_id)) in
  let metadata : gmap string pyval :=
    if bool_decide (metadata = ∅) then
      <["page" := Unknown]>
        (<["doc_id" := VStr doc_id]>
           (<["chunk_id" := VInt (Z.of_nat chunk_id)]> ∅))
    else metadata in
  let citation :=
    py "Page " ++ str_of_val (default Unknown (metadata !! "page"))
       ++ py ", Chunk " ++ str_of_nat chunk_id in
  let metadata := <["citation" := VStr citation]> metadata in
  mkDocument (strip text_chunk) metadata.

(** The [try] block of [get_document_chunks]. *)
Definition get_document_chunks_body (env : Env) (fs : FS)
    (content_path doc_id : str) (chunks_path : option str) : outcome (list Document) :=
  content <- read_text env fs content_path;;
  let chunks_path :=
    match chunks_path with
    | Some (c :: p) => c :: p
    | _ => path_join (py "processed") (doc_id ++ py "_chunks.json")
    end in
  chunks_metadata <-
    (if path_exists fs chunks_path then
       chunks_info <- json_load env fs chunks_path;;
       match chunks_info with
       | JChunks l => Return (build_lookup l ∅)
       | JSummary _ => Raise (py "'str' object has no attribute 'get'")
       end
     else Return ∅);;
  let chunks := re_split content in
  let chunks := filter (fun chunk => strip chunk ≠ []) chunks in
  Return (imap (make_chunk chunks_metadata doc_id) chunks).

(** [get_document_chunks(content_path, doc_id, chunks_path=None)] *)
Definition get_document_chunks (env : Env) (fs : FS)
    (content_path doc_id : str) (chunks_path : option str) : outcome (list Document) :=
  try_except (get_document_chunks_body env fs content_path doc_id chunks_path)
    (fun _ => Return []).

(** [create_document_vector_db(doc_id)]; the index, or Python's [None]. *)
Definition create_document_vector_db (env : Env) (fs : FS) (doc_id : str)
    : outcome (option (list Document)) :=
  try_except
    (let content_path := path_join (py "processed") (doc_id ++ py "_content.txt") in
     let chunks_path := path_join (py "processed") (doc_id ++ py "_chunks.json") in
     docs <- get_document_chunks env fs content_path doc_id (Some chunks_path);;
     match docs with
     | [] => Return None
     | _ :: _ =>
         _ <- FAISS_from_documents env docs;;
         Return (Some docs)
     end)
    (fun _ => Return None).

(** The loop [for doc_id in doc_ids: all_docs.extend(...)]. *)
Fixpoint gather_chunks (env : Env) (fs : FS) (doc_ids : list str)
    (all_docs : list Document) : outcome (list Document) :=
  match doc_ids with
  | [] => Return all_docs
  | doc_id :: rest =>
      docs <- get_document_chunks env fs
                (path_join (py "processed") (doc_id ++ py "_content.txt")) doc_id None;;
      gather_chunks env fs rest (all_docs ++ docs)
  end.

(** [create_multi_document_vector_db(doc_ids)] *)
Definition create_multi_document_vector_db (env : Env) (fs : FS) (doc_ids : list str)
    : outcome (option (list Document)) :=
  try_except
    (all_docs <- gather_chunks env fs doc_ids [];;
     match all_docs with
     | [] => Return None
     | _ :: _ =>
         _ <- FAISS_from_documents env all_docs;;
         Return (Some all_docs)
     end)
    (fun _ => Return None).

(** [query_vector_db(vector_db, query_text, k=3)] *)
Definition query_vector_db (env : Env) (vector_db : option (list Document))
    (query_text : str) (k : nat) : outcome (list Document) :=
  match vector_db with
  | None => Return []
  | Some index =>
      try_except (similarity_search env index query_text k) (fun _ => Return [])
  end.

End VectorDb.
Import VectorDb.

(* ===================================================================== *)
(** * document_processor.py                                               *)
(* ===================================================================== *)

Module DocumentProcessor.

(** The dictionary [process_document] returns: the success record or the
    error record. *)
Inductive process_result : Type :=
| ProcSuccess (doc_id : str) (chunks : nat) (file_type : str) (ocr_used : bool)
| ProcError (doc_id : str) (error : str).

(** The minimal-content threshold of the scanned-PDF test. *)
Definition min_text_length : nat := 100.

Definition image_exts : list str :=
  [py ".jpg"; py ".jpeg"; py ".png"; py ".tiff"; py ".tif"].

(** The choice of loader: the documents loaded and the [ocr_used] flag. *)
Definition load_documents (env : Env) (file_path file_ext : str)
    : outcome (list Document * bool) :=
  if bool_decide (file_ext = py ".pdf") then
    try_except
      (documents <- PyPDFLoader_load env file_path;;
       let total_text := concat (map page_content documents) in
       if length (strip total_text) <? min_text_length then
         documents <- UnstructuredPDFLoader_load env file_path;;
         Return (documents, true)
       else Return (documents, false))
      (fun _ =>
         documents <- UnstructuredPDFLoader_load env file_path;;
         Return (documents, true))
  else if bool_decide (file_ext ∈ image_exts) then
    documents <- UnstructuredImageLoader_load env file_path;;
    Return (documents, true)
  else Raise (py "Unsupported file type: " ++ file_ext).

(** The marker written before chunk number [n]. *)
Definition chunk_marker (n : nat) : str :=
  LF :: py "--- Document Chunk " ++ str_of_nat n ++ py " ---" ++ [LF].

(** The sidecar record of chunk number [i] (from 0), after the chunk's own
    metadata has been completed. *)
Definition page_info_of (file_path doc_id : str) (i : nat) (doc : Document)
    : gmap string pyval :=
  let md := metadata doc in
  let md := if bool_decide (is_Some (md !! "page")) then md
            else <["page" := VInt (Z.of_nat (i + 1))]> md in
  let md := <["doc_id" := VStr doc_id]> md in
  <["chunk_id" := VInt (Z.of_nat (i + 1))]>
    (<["page" := default Unknown (md !! "page")]>
       (<["source" := VStr file_path]>
          (<["doc_id" := VStr doc_id]> ∅))).

(** The loop [for i, doc in enumerate(split_docs)], from index [i] on, with
    the accumulators [pages_info] and [full_text]. *)
Fixpoint chunk_loop (file_path doc_id : str) (i : nat) (split_docs : list Document)
    (pages_info : list (gmap string pyval)) (full_text : str)
    : list (gmap string pyval) * str :=
  match split_docs with
  | [] => (pages_info, full_text)
  | doc :: rest =>
      chunk_loop file_path doc_id (i + 1) rest
        (pages_info ++ [page_info_of file_path doc_id i doc])
        (full_text ++ chunk_marker (i + 1) ++ page_content doc ++ [LF])
  end.

Definition content_path_of (doc_id : str) : str :=
  path_join (py "processed") (doc_id ++ py "_content.txt").
Definition chunks_path_of (doc_id : str) : str :=
  path_join (py "processed") (doc_id ++ py "_chunks.json").
Definition metadata_path_of (doc_id : str) : str :=
  path_join (py "processed") (doc_id ++ py "_metadata.json").

(** [text_splitter.split_documents(documents)], or the empty list when
    nothing was loaded. *)
Definition split_step (env : Env) (documents : list Document) : outcome (list Document) :=
  match documents with
  | [] => Return []
  | _ :: _ => split_documents env documents
  end.

(** Loading and chunking: the part of the [try] block that writes nothing. *)
Definition extract (env : Env) (file_path file_ext : str)
    : outcome (list Document * bool) :=
  loaded <- load_documents env file_path file_ext;;
  split_docs <- split_step env loaded.1;;
  Return (split_docs, loaded.2).

(** The rest of the [try] block: the loop, the three files and the success
    record. *)
Definition persist (env : Env) (file_path doc_id file_ext : str)
    (split_docs : list Document) (ocr_used : bool) : io process_result :=
  let pages_info := (chunk_loop file_path doc_id 0 split_docs [] []).1 in
  let full_text := (chunk_loop file_path doc_id 0 split_docs [] []).2 in
  write_file (content_path_of doc_id) (FText full_text);;;
  write_file (chunks_path_of doc_id) (FJson (JChunks pages_info));;;
  write_file (metadata_path_of doc_id)
    (FJson (JSummary (mkSummary doc_id (basename file_path) file_ext
                        (strftime env) (length split_docs) ocr_used)));;;
  io_ret (ProcSuccess doc_id (length split_docs) file_ext ocr_used).

(** The [try] block of [process_document]. *)
Definition process_document_body (env : Env) (file_path doc_id : str)
    : io process_result :=
  let file_ext := lower (splitext_ext file_path) in
  extracted <<- io_lift (extract env file_path file_ext);;
  persist env file_path doc_id file_ext extracted.1 extracted.2.

(** The outer [except]: the error record carries [str(e)]. *)
Definition to_result (doc_id : str) (x : FS * outcome process_result)
    : FS * process_result :=
  match x with
  | (fs', Return result) => (fs', result)
  | (fs', Raise e) => (fs', ProcError doc_id e)
  end.

(** [process_document(file_path, doc_id)]: the store afterwards and the
    dictionary returned.  [os.makedirs('processed', exist_ok=True)] is not
    modelled: the store has no directories. *)
Definition process_document (env : Env) (file_path doc_id : str) (fs : FS)
    : FS * process_result :=
  to_result doc_id (process_document_body env file_path doc_id fs).

(** [result.get('ocr_used')] *)
Definition result_ocr_used (r : process_result) : option bool :=
  match r with
  | ProcSuccess _ _ _ ocr_used => Some ocr_used
  | ProcError _ _ => None
  end.

End DocumentProcessor.
Import DocumentProcessor.

(* ===================================================================== *)
(** * Dictionary and sequence operations shared by the two engines        *)
(* ===================================================================== *)

Module PyOps.

(** [d.get(key, default)] *)
Definition dict_get (d : gmap string pyval) (key : string) (dflt : pyval) : pyval :=
  default dflt (d !! key).

(** [d[key]]: [KeyError] when the key is missing. *)
Definition getitem (d : gmap string pyval) (key : string) : outcome pyval :=
  match d !! key with
  | Some v => Return v
  | None => Raise (py "'" ++ list_ascii_of_string key ++ py "'")
  end.

(** The items of a sequence as strings, as [str.join] requires them:
    [TypeError] when one is not a [str]. *)
Fixpoint expect_strs (l : list pyval) : outcome (list str) :=
  match l with
  | [] => Return []
  | VStr s :: l' => rest <- expect_strs l';; Return (s :: rest)
  | VInt _ :: _ => Raise (py "sequence item: expected str instance, int found")
  end.

(** [sep.join(l)] on a list of values. *)
Definition join_vals (sep : str) (l : list pyval) : outcome str :=
  strs <- expect_strs l;; Return (join sep strs).

(** The loop [if x not in acc: acc.append(x)] over [l]. *)
Fixpoint collect_distinct (acc : list pyval) (l : list pyval) : list pyval :=
  match l with
  | [] => acc
  | x :: l' =>
      collect_distinct (if bool_decide (x ∈ acc) then acc else acc ++ [x]) l'
  end.

End PyOps.
Import PyOps.

(* ===================================================================== *)
(** * query_processor.py                                                  *)
(* ===================================================================== *)

Module QueryProcessor.

(** The dictionary [query_document] returns. *)
Record query_result : Type := mkQueryResult {
  answer : str;
  citation : str;
  confidence : Q
}.

(** The confidence literals of the source, read as the decimals they
    denote. *)
Definition conf_generated : Q := 95 # 100.
Definition conf_fallback : Q := 7 # 10.
Definition conf_none : Q := 0.

(** The grounding context handed to the chain. *)
Definition context_of (relevant_docs : list Document) : str :=
  join [LF; LF]
    (map (fun doc =>
            py "Document section (from "
              ++ str_of_val (dict_get (metadata doc) "citation" (VStr (py "Unknown location")))
              ++ py "):" ++ [LF] ++ page_content doc) relevant_docs).

(** The statements of the inner [try] after [chain.invoke] has returned
    [response]. *)
Definition generated_result (relevant_docs : list Document) (response : str)
    : outcome query_result :=
  let citations :=
    collect_distinct []
      (map (fun doc => dict_get (metadata doc) "citation"
                         (VStr (py "Citation not available"))) relevant_docs) in
  citation_text <- join_vals (py "; ") citations;;
  Return (mkQueryResult response citation_text conf_generated).

(** The handler of the inner [except]. *)
Definition fallback_result (relevant_docs : list Document) : outcome query_result :=
  let context_simple := join [LF] (map page_content relevant_docs) in
  citation_text <-
    join_vals (py "; ")
      (map (fun doc => dict_get (metadata doc) "citation" (VStr (py "Unknown")))
           relevant_docs);;
  Return (mkQueryResult
            (py "Found relevant information: " ++ take 500 context_simple ++ py "...")
            citation_text conf_fallback).

(** The outer [try] block of [query_document]. *)
Definition query_document_body (env : Env) (fs : FS) (query content_path doc_id : str)
    : outcome query_result :=
  doc_vector_db <- create_document_vector_db env fs doc_id;;
  match doc_vector_db with
  | None =>
      Return (mkQueryResult (py "Error: Could not process document " ++ doc_id)
                (py "Error") conf_none)
  | Some _ =>
      relevant_docs <- query_vector_db env doc_vector_db query 3;;
      match relevant_docs with
      | _ :: _ =>
          _ <- ChatOpenAI env;;
          let context := context_of relevant_docs in
          try_except
            (response <- chain_invoke env query context;;
             generated_result relevant_docs response)
            (fun _ => fallback_result relevant_docs)
      | [] =>
          Return (mkQueryResult (py "No relevant information found in this document.")
                    (py "N/A") conf_none)
      end
  end.

(** [query_document(query, content_path, doc_id)] *)
Definition query_document (env : Env) (fs : FS) (query content_path doc_id : str)
    : outcome query_result :=
  try_except (query_document_body env fs query content_path doc_id)
    (fun e => Return (mkQueryResult (py "Error processing query: " ++ e)
                        (py "Error") conf_none)).

End QueryProcessor.
Import QueryProcessor.

(* ===================================================================== *)
(** * theme_processor.py                                                  *)
(* ===================================================================== *)

Module ThemeProcessor.

(** One entry of [document_results], as the caller builds it. *)
Record doc_result : Type := mkDocResult {
  dr_doc_id : str;
  dr_filename : str;
  dr_answer : str;
  dr_citation : str
}.

Record Theme : Type := mkTheme {
  name : str;
  description : str;
  supporting_documents : list pyval;
  citations : list pyval
}.

Record theme_result : Type := mkThemeResult {
  themes : list Theme;
  synthesized_answer : str
}.

(** The label computed from the chunk text ([theme_name] in the source). *)
Definition theme_name (content : str) : str :=
  match search_sentence content with
  | Some first_sentence =>
      if 50 <? length first_sentence
      then take 47 first_sentence ++ py "..."
      else first_sentence
  | None =>
      if 50 <? length content then take 50 content ++ py "..." else content
  end.

(** The body of the loop that creates the themes: result number [i]
    (from 0). *)
Definition make_theme (i : nat) (result : Document) : outcome Theme :=
  let content := page_content result in
  doc_id <- getitem (metadata result) "doc_id";;
  citation <- getitem (metadata result) "citation";;
  Return (mkTheme (py "Theme " ++ str_of_nat (i + 1) ++ py ": " ++ theme_name content)
            content [doc_id] [citation]).

Fixpoint make_themes (i : nat) (top_results : list Document) : outcome (list Theme) :=
  match top_results with
  | [] => Return []
  | result :: rest =>
      theme <- make_theme i result;;
      themes <- make_themes (i + 1) rest;;
      Return (theme :: themes)
  end.

(** The body of the inner expansion loop, for one similar chunk. *)
Definition expand_step (theme : Theme) (similar_doc : Document) : outcome Theme :=
  similar_doc_id <- getitem (metadata similar_doc) "doc_id";;
  similar_citation <- getitem (metadata similar_doc) "citation";;
  if bool_decide (similar_doc_id ∈ supporting_documents theme) then Return theme
  else Return (mkTheme (name theme) (description theme)
                 (supporting_documents theme ++ [similar_doc_id])
                 (citations theme ++ [similar_citation])).

Fixpoint expand_loop (theme : Theme) (similar : list Document) : outcome Theme :=
  match similar with
  | [] => Return theme
  | similar_doc :: rest =>
      theme' <- expand_step theme similar_doc;;
      expand_loop theme' rest
  end.

(** The outer expansion loop: each theme is expanded with the hits of its
    own description, the first one skipped. *)
Fixpoint expand_themes (env : Env) (multi_doc_db : option (list Document))
    (themes : list Theme) : outcome (list Theme) :=
  match themes with
  | [] => Return []
  | theme :: rest =>
      similar_results <- query_vector_db env multi_doc_db (description theme) 10;;
      theme' <- expand_loop theme (tail similar_results);;
      rest' <- expand_themes env multi_doc_db rest;;
      Return (theme' :: rest')
  end.

(** The loop that formats the themes for the prompt, from index [i] on. *)
Fixpoint format_themes (i : nat) (themes : list Theme) (themes_text : str) : outcome str :=
  match themes with
  | [] => Return themes_text
  | theme :: rest =>
      cits <- join_vals (py ", ") (citations theme);;
      format_themes (i + 1) rest
        (themes_text
           ++ py "Theme " ++ str_of_nat (i + 1) ++ py ": " ++ name theme ++ [LF]
           ++ py "Description: " ++ description theme ++ [LF]
           ++ py "Citations: " ++ cits ++ [LF; LF])
  end.

Definition single_document_result (r : doc_result) : theme_result :=
  mkThemeResult
    [mkTheme (py "Single Document Analysis") (dr_answer r)
       [VStr (dr_doc_id r)] [VStr (dr_citation r)]]
    (dr_answer r).

Definition synthesis_fallback (n_themes n_docs : nat) (query : str) : str :=
  py "Analysis of " ++ str_of_nat n_themes ++ py " themes found across "
    ++ str_of_nat n_docs ++ py " documents for query: '" ++ query ++ py "'".

(** Theme creation and expansion, the text both variants share. *)
Definition build_themes (env : Env) (multi_doc_db : option (list Document))
    (query : str) (top_n : nat) : outcome (list Theme) :=
  top_results <- query_vector_db env multi_doc_db query top_n;;
  themes <- make_themes 0 top_results;;
  expand_themes env multi_doc_db themes.

(** [identify_themes(query, document_results, top_n=5)].  The dictionary
    [doc_info_map] of the source is built and never read; it is left out. *)
Definition identify_themes (env : Env) (fs : FS) (query : str)
    (document_results : list doc_result) (top_n : nat) : outcome theme_result :=
  match document_results with
  | [] => Return (mkThemeResult [] (py "No documents were processed for this query."))
  | [r] => Return (single_document_result r)
  | _ =>
      let doc_ids := map dr_doc_id document_results in
      multi_doc_db <- create_multi_document_vector_db env fs doc_ids;;
      match multi_doc_db with
      | None =>
          Return (mkThemeResult []
                    (py "Error: Could not create vector database for theme identification."))
      | Some _ =>
          themes <- build_themes env multi_doc_db query top_n;;
          _ <- ChatOpenAI env;;
          themes_text <- format_themes 0 themes [];;
          let synthesized_answer :=
            match synthesis_invoke env query themes_text with
            | Return (RespDict (Some text) _) => text
            | Return (RespDict None repr) => repr
            | Return (RespOther repr) => repr
            | Raise _ => synthesis_fallback (length themes) (length doc_ids) query
            end in
          Return (mkThemeResult themes synthesized_answer)
      end
  end.

(** [ModernThemeProcessor.identify_themes_modern(query, document_results,
    top_n=5)], on a processor that has been constructed. *)
Definition identify_themes_modern (env : Env) (fs : FS) (query : str)
    (document_results : list doc_result) (top_n : nat) : outcome theme_result :=
  match document_results with
  | [] => Return (mkThemeResult [] (py "No documents were processed for this query."))
  | [r] => Return (single_document_result r)
  | _ =>
      let doc_ids := map dr_doc_id document_results in
      multi_doc_db <- create_multi_document_vector_db env fs doc_ids;;
      match multi_doc_db with
      | None =>
          Return (mkThemeResult []
                    (py "Error: Could not create vector database for theme identification."))
      | Some _ =>
          themes <- build_themes env multi_doc_db query top_n;;
          themes_text <- format_themes 0 themes [];;
          let synthesis_response :=
            match modern_synthesis_invoke env query themes_text with
            | Return response => response
            | Raise _ => synthesis_fallback (length themes) (length doc_ids) query
            end in
          Return (mkThemeResult themes synthesis_response)
      end
  end.

End ThemeProcessor.
Import ThemeProcessor.

(* ===================================================================== *)
(** * query_processor.py: the variant without a chain                     *)
(* ===================================================================== *)

Module QuerySimple.

(** The collaborators of [query_document_simple]. *)
Record Chat : Type := mkChat {
  (** [ChatOpenAI(temperature=0, model=...)] *)
  new_llm : outcome unit;
  (** importing [HumanMessage], building the message, and
      [llm.invoke([message]).content] for the prompt text *)
  llm_invoke : str -> outcome str
}.

Definition conf_simple_fallback : Q := 5 # 10.

(** The context: one section per retrieved chunk. *)
Definition simple_context_of (relevant_docs : list Document) : str :=
  join [LF; LF]
    (map (fun doc =>
            py "Section from "
              ++ str_of_val (dict_get (metadata doc) "citation" (VStr (py "Unknown location")))
              ++ py ":" ++ [LF] ++ page_content doc) relevant_docs).

(** The prompt, an f-string over the query and the context. *)
Definition prompt_text_of (query context : str) : str :=
  py "You are a helpful assistant that provides accurate information based on document sections."
    ++ [LF; LF] ++ py "User Query: " ++ query
    ++ [LF; LF] ++ py "Relevant document sections:" ++ [LF] ++ context
    ++ [LF; LF]
    ++ py "Please answer the query based ONLY on the information provided above. If the information is not available, say so clearly."
    ++ [LF; LF] ++ py "Answer:".

(** The handler of the inner [except]: the context itself is the excerpt. *)
Definition simple_fallback_result (relevant_docs : list Document) (context : str)
    : outcome query_result :=
  citation_text <-
    join_vals (py "; ")
      (map (fun doc => dict_get (metadata doc) "citation" (VStr (py "Unknown")))
           relevant_docs);;
  Return (mkQueryResult
            (py "Found relevant information in the document: " ++ take 300 context ++ py "...")
            citation_text conf_simple_fallback).

(** The outer [try] block of [query_document_simple]. *)
Definition query_document_simple_body (env : Env) (chat : Chat) (fs : FS)
    (query content_path doc_id : str) : outcome query_result :=
  doc_vector_db <- create_document_vector_db env fs doc_id;;
  match doc_vector_db with
  | None =>
      Return (mkQueryResult (py "Error: Could not process document " ++ doc_id)
                (py "Error") conf_none)
  | Some _ =>
      relevant_docs <- query_vector_db env doc_vector_db query 3;;
      match relevant_docs with
      | _ :: _ =>
          _ <- new_llm chat;;
          let context := simple_context_of relevant_docs in
          let prompt_text := prompt_text_of query context in
          try_except
            (answer <- llm_invoke chat prompt_text;;
             generated_result relevant_docs answer)
            (fun _ => simple_fallback_result relevant_docs context)
      | [] =>
          Return (mkQueryResult (py "No relevant information found in this document.")
                    (py "N/A") conf_none)
      end
  end.

(** [query_document_simple(query, content_path, doc_id)] *)
Definition query_document_simple (env : Env) (chat : Chat) (fs : FS)
    (query content_path doc_id : str) : outcome query_result :=
  try_except (query_document_simple_body env chat fs query content_path doc_id)
    (fun e => Return (mkQueryResult (py "Error processing query: " ++ e)
                        (py "Error") conf_none)).

End QuerySimple.
Import QuerySimple.

(* ===================================================================== *)
(** * theme_processor.py: the wrapper of the processor class              *)
(* ===================================================================== *)

Module ThemeWrapper.

(** [identify_themes_with_modern_processor(query, document_results,
    top_n=5)]: a processor is constructed, which builds the chat client and
    the synthesis chain ([new_processor]), and its method is called. *)
Definition identify_themes_with_modern_processor (env : Env) (new_processor : outcome unit)
    (fs : FS) (query : str) (document_results : list doc_result) (top_n : nat)
    : outcome theme_result :=
  _ <- new_processor;;
  identify_themes_modern env fs query document_results top_n.

End ThemeWrapper.
Import ThemeWrapper.

(* ===================================================================== *)
(** * app.py                                                              *)
(* ===================================================================== *)

Module App.

(** A dictionary that is iterated over: the items in insertion order.
    [d[k] = v] replaces the value of a key that is there, in place, and
    appends a new key. *)
Fixpoint od_get {V} (d : list (str * V)) (k : str) : option V :=
  match d with
  | [] => None
  | (k', v) :: rest => if bool_decide (k' = k) then Some v else od_get rest k
  end.

Fixpoint od_set {V} (d : list (str * V)) (k : str) (v : V) : list (str * V) :=
  match d with
  | [] => [(k, v)]
  | (k', v') :: rest =>
      if bool_decide (k' = k) then (k, v) :: rest else (k', v') :: od_set rest k v
  end.

Definition UPLOAD_FOLDER : str := py "uploads".
Definition PROCESSED_FOLDER : str := py "processed".

Definition ALLOWED_EXTENSIONS : list str :=
  [py "pdf"; py "jpg"; py "jpeg"; py "png"; py "tiff"; py "tif"].

(** [s.rsplit('.', 1)]: the text cut at its last dot, or the text alone. *)
Definition rsplit_dot (s : str) : list str :=
  let not_dot := fun c => negb (Ascii.eqb c ".") in
  match drop_while not_dot (rev s) with
  | [] => [s]
  | _dot :: before => [rev before; rev (take_while not_dot (rev s))]
  end.

(** [allowed_file(filename)].  The index [1] is in range whenever the
    first test holds. *)
Definition allowed_file (filename : str) : bool :=
  bool_decide ("."%char ∈ filename)
  && match rsplit_dot filename !! 1 with
     | Some ext => bool_decide (lower ext ∈ ALLOWED_EXTENSIONS)
     | None => false
     end.

(** An item of the queue. *)
Record doc_info : Type := mkDocInfo {
  di_doc_id : str;
  di_file_path : str;
  di_original_filename : str
}.

(** An entry of [doc_metadata]. *)
Record doc_meta : Type := mkDocMeta {
  dm_original_filename : str;
  dm_file_path : str;
  dm_processed_time : str;
  dm_chunks : nat;
  dm_file_type : str;
  dm_ocr_used : bool
}.

(** The module-level state: the two dictionaries and the queue, whose
    shutdown signal [None] is an item like the others. *)
Record app_state : Type := mkApp {
  doc_status : list (str * str);
  doc_metadata : gmap (list ascii) doc_meta;
  doc_queue : list (option doc_info)
}.

Definition set_status (doc_id status : str) (st : app_state) : app_state :=
  mkApp (od_set (doc_status st) doc_id status) (doc_metadata st) (doc_queue st).

Definition set_metadata (doc_id : str) (m : doc_meta) (st : app_state) : app_state :=
  mkApp (doc_status st) (<[doc_id := m]> (doc_metadata st)) (doc_queue st).

Definition set_queue (q : list (option doc_info)) (st : app_state) : app_state :=
  mkApp (doc_status st) (doc_metadata st) q.

(** The body of the worker loop for an item taken from the queue; [now] is
    what [time.strftime] gives when the metadata is recorded.  The handler
    of the inner [try] is not reached: [process_document] returns a record
    in every case, and the item has its three keys.  [task_done] has no
    effect on what is modelled. *)
Definition handle_item (env : Env) (now : str) (item : doc_info)
    (st : app_state) (fs : FS) : app_state * FS :=
  let file_path := di_file_path item in
  let doc_id := di_doc_id item in
  let st := set_status doc_id (py "processing") st in
  match process_document env file_path doc_id fs with
  | (fs', ProcSuccess _ chunks file_type ocr_used) =>
      let st := set_status doc_id (py "completed") st in
      (set_metadata doc_id
         (mkDocMeta (di_original_filename item) file_path now chunks file_type ocr_used) st,
       fs')
  | (fs', ProcError _ error_msg) =>
      (set_status doc_id (py "error: " ++ error_msg) st, fs')
  end.

(** One turn of the loop of [process_queue]: the state afterwards, and
    whether the loop goes on.  On an empty queue [get] times out and the
    turn changes nothing. *)
Definition worker_turn (env : Env) (now : str) (st : app_state) (fs : FS)
    : app_state * FS * bool :=
  match doc_queue st with
  | [] => (st, fs, true)
  | None :: rest => (set_queue rest st, fs, false)
  | Some item :: rest =>
      (handle_item env now item (set_queue rest st) fs, true)
  end.

(** [process_queue()], for [turns] turns of its loop; [clock n] is the time
    during turn [n]. *)
Fixpoint process_queue (env : Env) (clock : nat -> str) (n turns : nat)
    (st : app_state) (fs : FS) : app_state * FS * bool :=
  match turns with
  | 0 => (st, fs, true)
  | S turns' =>
      match worker_turn env (clock n) st fs with
      | (st', fs', true) => process_queue env clock (S n) turns' st' fs'
      | (st', fs', false) => (st', fs', false)
      end
  end.

(** An uploaded file: its name, its bytes, and the identifier
    [uuid.uuid4()] gives when it is called for this file. *)
Record upload : Type := mkUpload {
  up_filename : str;
  up_content : str;
  up_uuid : str
}.

(** An entry of the result list of an upload. *)
Inductive upload_entry : Type :=
| Queued (doc_id filename : str)
| Refused (filename : str).

Definition is_queued (entry : upload_entry) : bool :=
  match entry with
  | Queued _ _ => true
  | Refused _ => false
  end.

(** A row of the document list. *)
Record doc_row : Type := mkDocRow {
  row_id : str;
  row_status : str;
  row_meta : option doc_meta
}.

(** What a view returns: a JSON body or a rendered template with its
    arguments, and the status code. *)
Inductive response : Type :=
| JsonError (error : str) (code : nat)
| JsonUploaded (message : str) (results : list upload_entry)
| JsonStatus (status : str) (meta : option doc_meta)
| ErrorPage (message : str) (code : nat)
| DocumentsPage (documents : list doc_row)
| DocumentPage (doc_id status : str) (meta : option doc_meta) (content : str)
| QueryFormPage (documents : list (str * str))
| QueryResultsPage (query : str) (results : list doc_result)
    (found_themes : list Theme) (synthesis : str).

(** The loop of [upload_files] over the files, with the accumulator
    [results]; [file.save] writes the bytes under the upload folder and
    raises when the path cannot be opened. *)
Fixpoint upload_loop (secure_filename : str -> str) (files : list upload)
    (results : list upload_entry) (st : app_state) (fs : FS)
    : app_state * FS * outcome (list upload_entry) :=
  match files with
  | [] => (st, fs, Return results)
  | file :: rest =>
      if negb (bool_decide (up_filename file = [])) && allowed_file (up_filename file) then
        let doc_id := up_uuid file in
        let original_filename := secure_filename (up_filename file) in
        let unique_filename := doc_id ++ py "_" ++ original_filename in
        let file_path := path_join UPLOAD_FOLDER unique_filename in
        match write_file file_path (FText (up_content file)) fs with
        | (fs', Raise e) => (st, fs', Raise e)
        | (fs', Return _) =>
            let st := set_status doc_id (py "queued") st in
            let st := set_queue (doc_queue st
                                   ++ [Some (mkDocInfo doc_id file_path original_filename)]) st in
            upload_loop secure_filename rest
              (results ++ [Queued doc_id (up_filename file)]) st fs'
        end
      else
        upload_loop secure_filename rest
          (results ++ [Refused (if bool_decide (up_filename file = [])
                                then py "Unknown" else up_filename file)]) st fs
  end.

(** [upload_files()]; [files] is [None] when the request has no
    ['files[]'] part. *)
Definition upload_files (secure_filename : str -> str) (files : option (list upload))
    (st : app_state) (fs : FS) : app_state * FS * outcome response :=
  match files with
  | None => (st, fs, Return (JsonError (py "No files part in the request") 400))
  | Some [] => (st, fs, Return (JsonError (py "No files selected") 400))
  | Some (first :: rest) =>
      if bool_decide (up_filename first = []) then
        (st, fs, Return (JsonError (py "No files selected") 400))
      else
        match upload_loop secure_filename (first :: rest) [] st fs with
        | (st', fs', Return results) =>
            (st', fs',
             Return (JsonUploaded
                       (py "Queued " ++ str_of_nat (length (filter is_queued results))
                          ++ py " documents for processing") results))
        | (st', fs', Raise e) => (st', fs', Raise e)
        end
  end.

(** [check_status(doc_id)] *)
Definition check_status (st : app_state) (doc_id : str) : response :=
  match od_get (doc_status st) doc_id with
  | Some status => JsonStatus status (doc_metadata st !! doc_id)
  | None => JsonError (py "Document not found") 404
  end.

(** [view_document(doc_id)] *)
Definition view_document (env : Env) (fs : FS) (st : app_state) (doc_id : str)
    : outcome response :=
  match od_get (doc_status st) doc_id with
  | None => Return (ErrorPage (py "Document not found") 404)
  | Some status =>
      content <-
        (if bool_decide (status = py "completed") then
           let content_path := path_join PROCESSED_FOLDER (doc_id ++ py "_content.txt") in
           if path_exists fs content_path then read_text env fs content_path
           else Return []
         else Return []);;
      Return (DocumentPage doc_id status (doc_metadata st !! doc_id) content)
  end.

(** The name shown for a document:
    [doc_metadata.get(doc_id, {}).get('original_filename', f'Document {doc_id}')]. *)
Definition shown_filename (st : app_state) (doc_id : str) : str :=
  match doc_metadata st !! doc_id with
  | Some m => dm_original_filename m
  | None => py "Document " ++ doc_id
  end.

(** The loop of the [POST] branch over the selected documents. *)
Fixpoint query_loop (env : Env) (fs : FS) (st : app_state) (query_text : str)
    (doc_ids : list str) (results : list doc_result) : outcome (list doc_result) :=
  match doc_ids with
  | [] => Return results
  | doc_id :: rest =>
      if bool_decide (od_get (doc_status st) doc_id = Some (py "completed")) then
        doc_result <- query_document env fs query_text
                        (path_join PROCESSED_FOLDER (doc_id ++ py "_content.txt")) doc_id;;
        query_loop env fs st query_text rest
          (results ++ [mkDocResult doc_id (shown_filename st doc_id)
                         (answer doc_result) (citation doc_result)])
      else query_loop env fs st query_text rest results
  end.

(** [query_documents()], the [GET] branch. *)
Definition query_documents_get (st : app_state) : response :=
  QueryFormPage
    (map (fun item => (item.1, shown_filename st item.1))
       (filter (fun item => item.2 = py "completed") (doc_status st))).

(** [query_documents()], the [POST] branch; [query_text] is
    [request.form.get('query')] and [doc_ids] is
    [request.form.getlist('document_ids')]. *)
Definition query_documents_post (env : Env) (fs : FS) (st : app_state)
    (query_text : option str) (doc_ids : list str) : outcome response :=
  match query_text with
  | None | Some [] => Return (JsonError (py "No query provided") 400)
  | Some query_text =>
      match doc_ids with
      | [] => Return (JsonError (py "No documents selected") 400)
      | _ :: _ =>
          multi_doc_db <- create_multi_document_vector_db env fs doc_ids;;
          match multi_doc_db with
          | None => Return (ErrorPage (py "Error creating vector database") 500)
          | Some _ =>
              results <- query_loop env fs st query_text doc_ids [];;
              theme_results <- identify_themes env fs query_text results 5;;
              Return (QueryResultsPage query_text results
                        (themes theme_results) (synthesized_answer theme_results))
          end
      end
  end.

End App.
Import App.

(* ===================================================================== *)
(** * Test doubles for the collaborators                                  *)
(* ===================================================================== *)

Module Doubles.

(** Collaborators that answer with fixed values: the text loader gives
    [pdf], both OCR loaders give [ocr], the splitter is [split], the index
    search is [search] and every generation call gives [llm]. *)
Definition mock_env (pdf ocr : outcome (list Document))
    (split : list Document -> outcome (list Document))
    (search : list Document -> str -> nat -> outcome (list Document))
    (llm : outcome str) : Env :=
  mkEnv (fun _ => pdf) (fun _ => ocr) (fun _ => ocr) split
        (py "2024-01-01 00:00:00")
        (fun _ => []) (fun _ => Raise (py "Expecting value"))
        (fun _ => Return tt) search (Return tt)
        (fun _ _ => llm)
        (fun _ _ => match llm with
                    | Return a => Return (RespOther a)
                    | Raise e => Raise e
                    end)
        (fun _ _ => llm).

Definition empty_fs : FS := mkFS ∅ ∅.

(** A page as the text loader gives it: text and 0-based page number. *)
Definition page (n : Z) (text : str) : Document :=
  mkDocument text {[ "page" := VInt n ]}.

(** A text without metadata. *)
Definition bare (text : str) : Document := mkDocument text ∅.

(** A text of more than 100 characters. *)
Definition long_text : str :=
  py "The committee reviewed the annual report and found that revenue grew in every quarter of the year, while costs stayed flat.".

(** The index answers with the first [k] chunks it holds. *)
Definition search_first (index : list Document) (_ : str) (k : nat)
    : outcome (list Document) := Return (take k index).

(** The index answers with its first chunk at two ranks. *)
Definition search_twice (index : list Document) (_ : str) (_ : nat)
    : outcome (list Document) := Return (take 1 index ++ take 1 index).

End Doubles.
Import Doubles.

(* ===================================================================== *)
(** * Concrete documents, stores and collaborators of the examples        *)
(* ===================================================================== *)

Module Examples.

(** A two-page text PDF, ingested as document [d1]; the language service
    is down. *)
Definition env_down (search : list Document -> str -> nat -> outcome (list Document)) : Env :=
  mock_env (Return [page 0 long_text; page 1 (py "Second page text.")])
           (Raise (py "no OCR engine")) Return search (Raise (py "timeout")).

Definition fs_d1 : FS :=
  (process_document (env_down search_first) (py "uploads/report.pdf") (py "d1") empty_fs).1.

(** The chunks of [d1] as the chunk store loads them. *)
Definition index_d1 : list Document :=
  [ mkDocument long_text
      (<["citation" := VStr (py "Page 0, Chunk 1")]>
         (page_info_of (py "uploads/report.pdf") (py "d1") 0 (page 0 long_text)));
    mkDocument (py "Second page text.")
      (<["citation" := VStr (py "Page 1, Chunk 2")]>
         (page_info_of (py "uploads/report.pdf") (py "d1") 1
            (page 1 (py "Second page text.")))) ].

(** A scanned PDF: the fast loader finds a stamp of five letters, the OCR
    loader reads the page. *)
Definition env_scan : Env :=
  mock_env (Return [page 0 (py "  stamp  ")]) (Return [bare long_text])
           Return search_first (Return (py "answer")).

(** A store in which the chunk-record file of [d1] cannot be written. *)
Definition fs_locked : FS :=
  mkFS ∅ {[ chunks_path_of (py "d1") ]}.

(** The splitter gives a chunk with white space around it and an empty
    chunk. *)
Definition env_padded : Env :=
  mock_env (Return [page 0 long_text]) (Raise (py "no OCR engine"))
           (fun _ => Return [page 0 (py "  Revenue grew.  "); page 0 []])
           search_first (Return (py "answer")).

(** Sixty letters without a terminator. *)
Definition run_on_text : str := repeat "a"%char 60.

(** A chunk of a document as a shared index returns it. *)
Definition chunk_of (doc_id : str) (n : nat) (text : str) : Document :=
  mkDocument text
    (<["citation" := VStr (py "Page 0, Chunk " ++ str_of_nat n)]>
       (<["doc_id" := VStr doc_id]> ∅)).

(** Two documents holding the same two pages; the index returns every
    chunk it holds for every query, and the language service gives a fixed
    answer. *)
Definition search_everything (index : list Document) (_ : str) (_ : nat)
    : outcome (list Document) := Return index.

Definition env_two : Env :=
  mock_env (Return [page 0 long_text; page 1 (py "Second page text.")])
           (Raise (py "no OCR engine")) Return search_everything
           (Return (py "Revenue grew while costs stayed flat.")).

Definition fs_two : FS :=
  (process_document env_two (py "uploads/b.pdf") (py "d2")
     (process_document env_two (py "uploads/a.pdf") (py "d1") empty_fs).1).1.

Definition results_two : list doc_result :=
  [ mkDocResult (py "d1") (py "a.pdf") (py "Revenue grew.") (py "Page 0, Chunk 1");
    mkDocResult (py "d2") (py "b.pdf") (py "Revenue grew.") (py "Page 0, Chunk 1") ].

End Examples.
Import Examples.

(* ===================================================================== *)
(** * Vocabulary of the statements                                        *)
(* ===================================================================== *)

Module Spec.

(** The value is a [str]. *)
Definition is_str (v : pyval) : Prop :=
  match v with
  | VStr _ => True
  | VInt _ => False
  end.

#[export] Instance is_str_dec v : Decision (is_str v).
Proof. destruct v; simpl; apply _. Defined.

(** The citation values the two branches of the inner [try] read from the
    retrieved chunks; they differ in the default only. *)
Definition citations_generated (docs : list Document) : list pyval :=
  map (fun doc => dict_get (metadata doc) "citation" (VStr (py "Citation not available"))) docs.
Definition citations_fallback (docs : list Document) : list pyval :=
  map (fun doc => dict_get (metadata doc) "citation" (VStr (py "Unknown"))) docs.

(** "De-duplicated, in insertion order", after the words of the
    specification: each string is kept where it first occurs. *)
Fixpoint dedup_first (l : list pyval) : list pyval :=
  match l with
  | [] => []
  | x :: l' => x :: filter (fun y => y ≠ x) (dedup_first l')
  end.

(** The citation field the specification asks for, from the citation
    strings of the retrieved chunks. *)
Definition dedup_citation_text (cits : list str) : outcome str :=
  join_vals (py "; ") (dedup_first (map VStr cits)).

(** "A failure of the language-generation service never causes the query
    to return an error", after the words of the specification: chunks were
    retrieved and the language service failed, be it that the chat client
    could not be built or that the generation call raised, and the query
    returns the excerpt of the retrieved texts with a confidence below that
    of a generated answer. *)
Definition generation_failure_never_errors (env : Env) (fs : FS)
    (query content_path doc_id : str) : Prop :=
  forall index docs,
    create_document_vector_db env fs doc_id = Return (Some index) ->
    query_vector_db env (Some index) query 3 = Return docs ->
    docs <> [] ->
    (exists e, ChatOpenAI env = Raise e)
    \/ (exists e, chain_invoke env query (context_of docs) = Raise e) ->
    exists r,
      query_document env fs query content_path doc_id = Return r
      /\ answer r = py "Found relevant information: "
           ++ take 500 (join [LF] (map page_content docs)) ++ py "..."
      /\ (confidence r < conf_generated)%Q.

(** The three artifacts of a document, as the store holds them. *)
Definition artifacts (fs : FS) (doc_id : str) : list (option file) :=
  [ files fs !! content_path_of doc_id;
    files fs !! chunks_path_of doc_id;
    files fs !! metadata_path_of doc_id ].

(** "Written together or not at all", after the words of the
    specification: once [process_document] has run, either all three
    artifacts of the document are in the store or none is. *)
Definition written_together_or_not_at_all (env : Env) (file_path doc_id : str) (fs : FS)
    : Prop :=
  let fs' := (process_document env file_path doc_id fs).1 in
  Forall is_Some (artifacts fs' doc_id) \/ Forall (fun a => a = None) (artifacts fs' doc_id).

(** The location label the specification words describe: the page number
    of the chunk when there is one, ["Unknown"] otherwise. *)
Definition specified_label (doc : Document) : pyval :=
  default Unknown (metadata doc !! "page").

(** The location label the pipeline records. *)
Definition recorded_label (i : nat) (doc : Document) : pyval :=
  match metadata doc !! "page" with
  | Some p => p
  | None => VInt (Z.of_nat (i + 1))
  end.

(** "Loading fails with an error", after the words of the specification. *)
Definition load_fails (env : Env) (fs : FS) (content_path doc_id : str)
    (chunks_path : option str) : Prop :=
  exists e, get_document_chunks env fs content_path doc_id chunks_path = Raise e.

(** The persisted text holds no chunk: every piece between markers is
    blank. *)
Definition no_chunk_text (s : str) : Prop :=
  Forall (fun piece => strip piece = []) (re_split (universal_newlines s)).

(** The chunk-marker pattern matches somewhere in [s]. *)
Fixpoint has_marker (s : str) : bool :=
  match s with
  | [] => false
  | _ :: r => bool_decide (is_Some (match_marker s)) || has_marker r
  end.

(** The chunk texts the store gives back unchanged: not empty, without
    white space at either end, without carriage return, and without a match
    of the chunk-marker pattern, the line feed written after the chunk
    included. *)
Definition storable (c : str) : Prop :=
  c <> [] /\ strip c = c /\ (CR ∉ c) /\ has_marker (c ++ [LF]) = false.

(** [t] is empty or ends in a character that is not white space. *)
Definition ends_solid (t : str) : Prop := drop_while is_space (rev t) = rev t.

(** What may follow the line feed of a chunk without completing a match
    that begins in the chunk. *)
Definition harmless (Y : str) : Prop :=
  strip_prefix (py "---") Y = None
  /\ strip_prefix (py "Document Chunk ") (drop_while is_space (LF :: Y)) = None
  /\ strip_prefix (py "---" ++ [LF]) (drop_while is_space (LF :: Y)) = None.

(** What follows a chunk in the file: nothing, or the next marker. *)
Definition marker_or_end (b : str) : Prop :=
  b = [] \/ exists n rest, b = chunk_marker n ++ rest.

(** The text the loop writes for the chunk texts [cs], numbered from
    [k + 1]. *)
Definition written_text (k : nat) (cs : list str) : str :=
  concat (imap (fun j c => chunk_marker (k + j + 1) ++ c ++ [LF]) cs).

(** "The round trip is lossless", after the words of the specification:
    whatever chunks were saved, loading gives back their texts in order. *)
Definition roundtrip_lossless (env : Env) (file_path doc_id : str) (fs : FS) : Prop :=
  forall split_docs ocr_used,
    extract env file_path (lower (splitext_ext file_path)) = Return (split_docs, ocr_used) ->
    exists docs,
      get_document_chunks env (process_document env file_path doc_id fs).1
        (content_path_of doc_id) doc_id (Some (chunks_path_of doc_id)) = Return docs
      /\ map page_content docs = map page_content split_docs.

(** The theme name the specification words describe: the prefix of the
    text up to its first terminator, cut to 47 characters and an ellipsis
    when it has more than 50; without a terminator, the first 50
    characters of the text. *)
Fixpoint first_sentence_prefix (s : str) : option str :=
  match s with
  | [] => None
  | c :: r => if is_terminator c then Some [c] else (c ::.) <$> first_sentence_prefix r
  end.

Definition specified_theme_name (content : str) : str :=
  match first_sentence_prefix content with
  | Some sentence =>
      if 50 <? length sentence then take 47 sentence ++ py "..." else sentence
  | None => take 50 content
  end.

(** The document id and citation a retrieved chunk carries. *)
Definition source_pair (d : Document) : option (pyval * pyval) :=
  match metadata d !! "doc_id", metadata d !! "citation" with
  | Some doc_id, Some citation => Some (doc_id, citation)
  | _, _ => None
  end.

(** The invariant of a theme: the two lists have the same length, no
    document id occurs twice, and position by position the document id and
    the citation are those of one source accepted by [P]. *)
Definition theme_inv (P : pyval * pyval -> Prop) (theme : Theme) : Prop :=
  length (supporting_documents theme) = length (citations theme)
  /\ NoDup (supporting_documents theme)
  /\ Forall P (zip (supporting_documents theme) (citations theme)).

(** The pair is carried by a chunk the index [db] returns for some query. *)
Definition retrieved_from (env : Env) (db : option (list Document)) (p : pyval * pyval) : Prop :=
  exists query k docs d,
    query_vector_db env db query k = Return docs /\ d ∈ docs /\ source_pair d = Some p.

(** The pair is the one of a per-document result handed to the engine. *)
Definition given_by (document_results : list doc_result) (p : pyval * pyval) : Prop :=
  exists r, r ∈ document_results /\ p = (VStr (dr_doc_id r), VStr (dr_citation r)).

(** The sources a returned theme may draw on: the per-document results
    that were passed in, and the chunks the shared index returns. *)
Definition theme_source (env : Env) (fs : FS) (document_results : list doc_result)
    (p : pyval * pyval) : Prop :=
  given_by document_results p
  \/ exists db,
       create_multi_document_vector_db env fs (map dr_doc_id document_results) = Return db
       /\ retrieved_from env db p.

End Spec.
Import Spec.

(* ===================================================================== *)
(** * Vocabulary of the further statements                                *)
(* ===================================================================== *)

Module Notions.

(** The chunks of a document as the shared index takes them in. *)
Definition chunks_of (env : Env) (fs : FS) (doc_id : str) : list Document :=
  match get_document_chunks env fs (content_path_of doc_id) doc_id None with
  | Return docs => docs
  | Raise _ => []
  end.

(** The sidecar path [get_document_chunks] reads. *)
Definition sidecar_path (doc_id : str) (chunks_path : option str) : str :=
  match chunks_path with
  | Some (c :: p) => c :: p
  | _ => chunks_path_of doc_id
  end.

(** The chunk carries a citation, and it is a string. *)
Definition cited (d : Document) : Prop :=
  exists c, metadata d !! "citation" = Some (VStr c).

(** The chunk names the document it belongs to. *)
Definition owned (d : Document) : Prop := is_Some (metadata d !! "doc_id").


(** Every search on [index] returns chunks of [index]. *)
Definition search_within (env : Env) (index : list Document) : Prop :=
  forall query k docs, similarity_search env index query k = Return docs -> docs ⊆ index.

(** The themes of a result, or the exception. *)
Definition themes_of (o : outcome theme_result) : outcome (list Theme) :=
  r <- o;; Return (themes r).

(** The theme was made from chunk [d] at rank [i] (from 0): it has the
    label and the text of the chunk, and the chunk's document and citation
    come first in its two lists. *)
Definition made_from (i : nat) (d : Document) (theme : Theme) : Prop :=
  name theme = py "Theme " ++ str_of_nat (i + 1) ++ py ": " ++ theme_name (page_content d)
  /\ description theme = page_content d
  /\ exists doc_id citation more_documents more_citations,
       metadata d !! "doc_id" = Some doc_id
       /\ metadata d !! "citation" = Some citation
       /\ supporting_documents theme = doc_id :: more_documents
       /\ citations theme = citation :: more_citations.

(** The text has no slash: as a document id or a file name it names one
    entry of the directory it is put in, and no other spelling of a path
    names that entry. *)
Definition plain_name (s : str) : Prop := "/"%char ∉ s.

(** The extensions [process_document] has a loader for. *)
Definition loadable (file_ext : str) : Prop :=
  file_ext = py ".pdf" \/ file_ext ∈ image_exts.

(** The path under which [upload_files] stores a file, from the identifier
    drawn for it and the name [secure_filename] made of the name that was
    sent. *)
Definition stored_path (doc_id original_filename : str) : str :=
  path_join UPLOAD_FOLDER (doc_id ++ py "_" ++ original_filename).

(** A status the worker leaves behind: ["completed"] or an error text. *)
Definition final_status (status : str) : Prop :=
  status = py "completed" \/ exists e, status = py "error: " ++ e.

(** The document has been handled: its status is a final one. *)
Definition handled (st : app_state) (doc_id : str) : Prop :=
  exists status, od_get (doc_status st) doc_id = Some status /\ final_status status.

(** The worker's turns on the items [items], the first at time [clock n]. *)
Fixpoint handle_all (env : Env) (clock : nat -> str) (n : nat) (items : list doc_info)
    (st : app_state) (fs : FS) : app_state * FS :=
  match items with
  | [] => (st, fs)
  | item :: rest =>
      let r := handle_item env (clock n) item st fs in
      handle_all env clock (S n) rest r.1 r.2
  end.

(** The status of the document is ["completed"]. *)
Definition completed (st : app_state) (doc_id : str) : Prop :=
  od_get (doc_status st) doc_id = Some (py "completed").

#[export] Instance completed_dec st doc_id : Decision (completed st doc_id).
Proof. unfold completed. apply _. Defined.

(** The file is taken into the queue by [upload_files]. *)
Definition accepted (file : upload) : bool :=
  negb (bool_decide (up_filename file = [])) && allowed_file (up_filename file).

(** The queue item made for an accepted file. *)
Definition item_of (secure_filename : str -> str) (file : upload) : doc_info :=
  mkDocInfo (up_uuid file)
    (stored_path (up_uuid file) (secure_filename (up_filename file)))
    (secure_filename (up_filename file)).

(** The result entry made for a file. *)
Definition entry_of (file : upload) : upload_entry :=
  if accepted file then Queued (up_uuid file) (up_filename file)
  else Refused (if bool_decide (up_filename file = []) then py "Unknown"
                else up_filename file).

(** The answer and the citation of a per-document result are those
    [query_document] gives for the document, and its file name is the one
    shown for the document. *)
Definition answers (env : Env) (fs : FS) (st : app_state) (query_text : str)
    (r : doc_result) : Prop :=
  exists qr content_path,
    query_document env fs query_text content_path (dr_doc_id r) = Return qr
    /\ dr_answer r = answer qr
    /\ dr_citation r = citation qr
    /\ dr_filename r = shown_filename st (dr_doc_id r).

End Notions.
Import Notions.

(* ===================================================================== *)
(** * Concrete cases of the further statements                            *)
(* ===================================================================== *)

Module Cases.

(** [env] with another outcome of building the chat client. *)
Definition with_client (client : outcome unit) (env : Env) : Env :=
  mkEnv (PyPDFLoader_load env) (UnstructuredPDFLoader_load env)
        (UnstructuredImageLoader_load env) (split_documents env) (strftime env)
        (json_dumps env) (json_loads env) (FAISS_from_documents env)
        (similarity_search env) client (chain_invoke env) (synthesis_invoke env)
        (modern_synthesis_invoke env).

(** The two documents of [fs_two] are served, but no chat client can be
    built. *)
Definition env_no_client : Env := with_client (Raise (py "no API key")) env_two.


(** The index search raises. *)
Definition search_closed (_ : list Document) (_ : str) (_ : nat)
    : outcome (list Document) := Raise (py "index closed").

Definition env_closed : Env :=
  mock_env (Return [page 0 long_text; page 1 (py "Second page text.")])
           (Raise (py "no OCR engine")) Return search_closed (Return (py "answer")).

(** A PDF the text loader cannot open; the OCR loader reads one page. *)
Definition env_broken_pdf : Env :=
  mock_env (Raise (py "not a PDF")) (Return [bare long_text])
           Return search_first (Return (py "answer")).

(** A PDF in which neither loader finds anything. *)
Definition env_blank : Env :=
  mock_env (Return []) (Return []) Return search_first (Return (py "answer")).

(** The store of [d1] with a sidecar file that is no JSON. *)
Definition fs_bad_sidecar : FS :=
  mkFS (<[chunks_path_of (py "d1") := FText (py "{")]> (files fs_d1)) ∅.

(** The store of [d1] after a second document has been ingested. *)
Definition fs_d1_d2 : FS :=
  (process_document (env_down search_first) (py "uploads/b.pdf") (py "d2") fs_d1).1.

(** The shared index of the two documents of [fs_two]. *)
Definition index_two : list Document :=
  match create_multi_document_vector_db env_two fs_two [py "d1"; py "d2"] with
  | Return (Some index) => index
  | _ => []
  end.

(** What theme synthesis gives on the two documents: with the language
    service up, and with the synthesis call failing. *)
Definition run_of (o : outcome theme_result) : theme_result :=
  match o with
  | Return result => result
  | Raise _ => mkThemeResult [] []
  end.

Definition result_two : theme_result :=
  run_of (identify_themes env_two fs_two (py "revenue?") results_two 5).

Definition result_two_down : theme_result :=
  run_of (identify_themes (env_down search_everything) fs_two (py "revenue?") results_two 5).

(** A model that answers every prompt. *)
Definition chat_up : Chat := mkChat (Return tt) (fun _ => Return (py "Costs stayed flat.")).

Definition record_of (o : outcome query_result) : query_result :=
  match o with
  | Return r => r
  | Raise _ => mkQueryResult [] [] conf_none
  end.

(** An application that has just started, and an upload of a PDF and of a
    text file. *)
Definition app_start : app_state := mkApp [] ∅ [].

(** A sanitiser that removes the dots a name begins with, as
    [secure_filename] does among other things. *)
Definition strip_dots (name : str) : str :=
  drop_while (fun c => Ascii.eqb c ".") name.

Definition upload_report : upload := mkUpload (py "Report.PDF") (py "%PDF-1.4") (py "u1").

(** An upload whose name begins with two dots. *)
Definition upload_dots : upload := mkUpload (py "..pdf") (py "%PDF-1.4") (py "u3").

Definition uploads_two : list upload :=
  [ mkUpload (py "Report.PDF") (py "%PDF-1.4") (py "u1");
    mkUpload (py "notes.txt") (py "hello") (py "u2") ].

Definition upload_run : app_state * FS * outcome response :=
  upload_files (fun name => name) (Some uploads_two) app_start empty_fs.

Definition upload_reply : str * list upload_entry :=
  match upload_run.2 with
  | Return (JsonUploaded message results) => (message, results)
  | _ => ([], [])
  end.

End Cases.
Import Cases.

(* ===================================================================== *)
(** * Theorems                                                            *)
(* ===================================================================== *)

(** The string layer and the two patterns on small inputs. *)
Example ex_split :
  re_split (LF :: py "--- Document Chunk 1 ---" ++ LF :: py "ab" ++ LF :: LF
            :: py "--- Document Chunk 12 ---" ++ LF :: py "cd" ++ [LF])
  = [ []; py "ab" ++ [LF]; py "cd" ++ [LF] ].
Proof. vm_compute. reflexivity. Qed.

Example ex_search : search_sentence (py "Title" ++ LF :: py "Hello world. More")
  = Some (py "Hello world.").
Proof. vm_compute. reflexivity. Qed.

Example ex_ext : splitext_ext (py "uploads/ab.c/x.tar.PDF") = py ".PDF"
  /\ splitext_ext (py "uploads/.bashrc") = []
  /\ basename (py "uploads/ab.c/x.tar.PDF") = py "x.tar.PDF"
  /\ lower (py ".PDF") = py ".pdf"
  /\ str_of_nat 120 = py "120" /\ str_of_Z (-7)%Z = py "-7"
  /\ strip (py "  a b  ") = py "a b"
  /\ universal_newlines (py "a" ++ [CR; LF] ++ py "b" ++ [CR]) = py "a" ++ [LF] ++ py "b" ++ [LF].
Proof. vm_compute. repeat split. Qed.

(* ===================================================================== *)
(** * Properties of the single-document query engine                      *)
(* ===================================================================== *)

#[global] Arguments py : simpl never.
#[global] Arguments query_vector_db : simpl never.
#[global] Arguments create_document_vector_db : simpl never.
#[global] Arguments create_multi_document_vector_db : simpl never.
#[global] Arguments context_of : simpl never.
#[global] Arguments generated_result : simpl never.
#[global] Arguments fallback_result : simpl never.

Section VectorDbTotal.

Context (env : Env) (fs : FS).

(** The functions of [vector_db] catch every exception themselves. *)
Lemma get_document_chunks_returns content_path doc_id chunks_path :
  exists docs, get_document_chunks env fs content_path doc_id chunks_path = Return docs.
Proof.
  unfold get_document_chunks.
  destruct (get_document_chunks_body _ _ _ _ _); simpl; eauto.
Qed.

Lemma create_document_vector_db_returns doc_id :
  exists db, create_document_vector_db env fs doc_id = Return db.
Proof.
  unfold create_document_vector_db.
  match goal with |- context [try_except ?b _] => destruct b end; simpl; eauto.
Qed.

Lemma create_multi_document_vector_db_returns doc_ids :
  exists db, create_multi_document_vector_db env fs doc_ids = Return db.
Proof.
  unfold create_multi_document_vector_db.
  match goal with |- context [try_except ?b _] => destruct b end; simpl; eauto.
Qed.

Lemma query_vector_db_returns db query k :
  exists docs, query_vector_db env db query k = Return docs.
Proof.
  unfold query_vector_db. destruct db as [index|]; [|eauto].
  destruct (similarity_search env index query k); simpl; eauto.
Qed.

End VectorDbTotal.

Section QueryEngine.

Lemma expect_strs_Return l :
  Forall is_str l -> exists strs, expect_strs l = Return strs /\ l = map VStr strs.
Proof.
  induction 1 as [|v l Hv _ [strs [IH ->]]].
  - exists []. split; reflexivity.
  - destruct v as [n|s]; [destruct Hv|].
    exists (s :: strs). simpl. rewrite IH. split; reflexivity.
Qed.

Lemma expect_strs_Raise l :
  ~ Forall is_str l -> exists e, expect_strs l = Raise e.
Proof.
  induction l as [|v l IH]; intros Hn.
  - destruct Hn. constructor.
  - destruct v as [n|s]; simpl; [eauto|].
    destruct IH as [e ->]; [|simpl; eauto].
    intros Hl. apply Hn. constructor; [exact I|exact Hl].
Qed.

Lemma join_vals_Return sep l :
  Forall is_str l -> exists strs, join_vals sep l = Return (join sep strs) /\ l = map VStr strs.
Proof.
  intros H. destruct (expect_strs_Return l H) as [strs [E ->]].
  exists strs. unfold join_vals. rewrite E. split; reflexivity.
Qed.

Lemma join_vals_Raise sep l :
  ~ Forall is_str l -> exists e, join_vals sep l = Raise e.
Proof.
  intros H. destruct (expect_strs_Raise l H) as [e E].
  exists e. unfold join_vals. rewrite E. reflexivity.
Qed.

Lemma elem_of_collect_distinct x acc l :
  x ∈ collect_distinct acc l <-> x ∈ acc \/ x ∈ l.
Proof.
  revert acc; induction l as [|y l IH]; intros acc; simpl.
  - rewrite elem_of_nil. tauto.
  - rewrite IH, elem_of_cons. case_bool_decide as Hy.
    + split; [tauto|]. intros [?|[->|?]]; tauto.
    + rewrite elem_of_app, list_elem_of_singleton. tauto.
Qed.

Lemma collect_distinct_NoDup acc l : NoDup acc -> NoDup (collect_distinct acc l).
Proof.
  revert acc; induction l as [|y l IH]; intros acc Hacc; simpl; [exact Hacc|].
  apply IH. case_bool_decide as Hy; [exact Hacc|].
  apply NoDup_app. split_and!; [exact Hacc| |apply NoDup_singleton].
  intros z Hz ->%list_elem_of_singleton. contradiction.
Qed.

(** On a list without repetition the loop keeps everything, in order. *)
Lemma collect_distinct_id acc l : NoDup (acc ++ l) -> collect_distinct acc l = acc ++ l.
Proof.
  revert acc; induction l as [|y l IH]; intros acc H; simpl.
  - rewrite app_nil_r. reflexivity.
  - case_bool_decide as Hy.
    + apply NoDup_app in H as (_ & H & _). destruct (H y Hy). left.
    + rewrite IH; rewrite <- app_assoc; [reflexivity|exact H].
Qed.

Lemma Forall_is_str_collect l :
  Forall is_str (collect_distinct [] l) <-> Forall is_str l.
Proof.
  rewrite !Forall_forall. split; intros H x Hx; apply H.
  - apply elem_of_collect_distinct. right. exact Hx.
  - apply elem_of_collect_distinct in Hx as [Hx|Hx]; [inversion Hx|exact Hx].
Qed.

Lemma is_str_dict_get d key a b :
  is_str (dict_get d key (VStr a)) <-> is_str (dict_get d key (VStr b)).
Proof. unfold dict_get. destruct (d !! key); simpl; tauto. Qed.

Lemma citations_str_iff docs :
  Forall is_str (citations_generated docs) <-> Forall is_str (citations_fallback docs).
Proof.
  unfold citations_generated, citations_fallback. rewrite !Forall_map.
  apply Forall_iff. intros d. apply is_str_dict_get.
Qed.

Lemma generated_result_Raise docs response e :
  generated_result docs response = Raise e -> exists e', fallback_result docs = Raise e'.
Proof.
  unfold generated_result, fallback_result. intros H.
  destruct (decide (Forall is_str (citations_fallback docs))) as [Hs|Hs].
  - apply citations_str_iff, Forall_is_str_collect in Hs.
    destruct (join_vals_Return (py "; ") _ Hs) as [strs [E _]].
    fold (citations_generated docs) in H. rewrite E in H. discriminate.
  - destruct (join_vals_Raise (py "; ") _ Hs) as [e' E].
    exists e'. fold (citations_fallback docs). rewrite E. reflexivity.
Qed.

Lemma generated_result_confidence docs response r :
  generated_result docs response = Return r ->
  confidence r = conf_generated /\ answer r = response.
Proof.
  unfold generated_result.
  destruct (join_vals _ _); simpl; [|discriminate]. intros [= <-]. split; reflexivity.
Qed.

Lemma fallback_result_confidence docs r :
  fallback_result docs = Return r ->
  confidence r = conf_fallback
  /\ answer r = py "Found relevant information: "
                  ++ take 500 (join [LF] (map page_content docs)) ++ py "...".
Proof.
  unfold fallback_result.
  destruct (join_vals _ _); simpl; [|discriminate]. intros [= <-]. split; reflexivity.
Qed.

(** Closes the side conditions of one execution path. *)
Ltac settle_path :=
  try (by auto); try discriminate;
  try (by intros [? [=]]); try (by intros [=]).

(** C10. [query_document] always returns a record, whatever the query, the
    paths and the collaborators do.  Its confidence is 0, 0.7 or 0.95, hence
    within [0, 1]; it is 0.95 only when the chain answered (and the answer is
    the chain's), 0.7 only when the chain raised (and the answer is the
    excerpt), and it is 0 when no index could be built, when retrieval is
    empty and whenever the outer handler was entered. *)
Theorem query_document_always_returns (env : Env) (fs : FS) (query content_path doc_id : str) :
  exists r,
    query_document env fs query content_path doc_id = Return r
    /\ (confidence r = conf_none \/ confidence r = conf_fallback
        \/ confidence r = conf_generated)
    /\ (0 <= confidence r)%Q /\ (confidence r <= 1)%Q
    /\ (confidence r = conf_generated ->
        exists index docs response,
          create_document_vector_db env fs doc_id = Return (Some index)
          /\ query_vector_db env (Some index) query 3 = Return docs
          /\ docs <> []
          /\ chain_invoke env query (context_of docs) = Return response
          /\ answer r = response)
    /\ (confidence r = conf_fallback ->
        exists index docs e,
          create_document_vector_db env fs doc_id = Return (Some index)
          /\ query_vector_db env (Some index) query 3 = Return docs
          /\ docs <> []
          /\ chain_invoke env query (context_of docs) = Raise e
          /\ answer r = py "Found relevant information: "
               ++ take 500 (join [LF] (map page_content docs)) ++ py "...")
    /\ (create_document_vector_db env fs doc_id = Return None ->
        confidence r = conf_none)
    /\ (forall db,
          create_document_vector_db env fs doc_id = Return db ->
          query_vector_db env db query 3 = Return [] ->
          confidence r = conf_none)
    /\ ((exists e, query_document_body env fs query content_path doc_id = Raise e) ->
        confidence r = conf_none /\ citation r = py "Error").
Proof.
  unfold query_document, query_document_body.
  destruct (create_document_vector_db_returns env fs doc_id) as [[index|] Hdb];
    rewrite Hdb; simpl.
  2:{ eexists; split; [reflexivity|]. simpl. split_and!; settle_path. }
  destruct (query_vector_db_returns env (Some index) query 3) as [[|d docs] Hdocs];
    rewrite Hdocs; simpl.
  { eexists; split; [reflexivity|]. simpl. split_and!; settle_path. }
  assert (Hne : forall db, Return (Some index) = Return db ->
                  query_vector_db env db query 3 <> Return []).
  { intros db [= <-]. rewrite Hdocs. discriminate. }
  destruct (ChatOpenAI env) as [[]|e0] eqn:Hllm; simpl.
  2:{ eexists; split; [reflexivity|]. simpl. split_and!; settle_path.
      all: intros db Hd Hq; destruct (Hne db Hd Hq). }
  destruct (chain_invoke env query (context_of (d :: docs))) as [response|e1] eqn:Hinv; simpl.
  - destruct (generated_result (d :: docs) response) as [r|e2] eqn:Hgen; simpl.
    + destruct (generated_result_confidence _ _ _ Hgen) as [Hc Ha].
      exists r. split; [reflexivity|]. rewrite Hc.
      split_and!; settle_path.
      all: try (intros db Hd Hq; destruct (Hne db Hd Hq)).
      intros _. exists index, (d :: docs), response. split_and!; auto.
    + destruct (generated_result_Raise _ _ _ Hgen) as [e' ->]. simpl.
      eexists; split; [reflexivity|]. simpl. split_and!; settle_path.
      all: intros db Hd Hq; destruct (Hne db Hd Hq).
  - destruct (fallback_result (d :: docs)) as [r|e2] eqn:Hfb; simpl.
    + destruct (fallback_result_confidence _ _ Hfb) as [Hc Ha].
      exists r. split; [reflexivity|]. rewrite Hc.
      split_and!; settle_path.
      all: try (intros db Hd Hq; destruct (Hne db Hd Hq)).
      intros _. exists index, (d :: docs), e1. split_and!; auto.
    + eexists; split; [reflexivity|]. simpl. split_and!; settle_path.
      all: intros db Hd Hq; destruct (Hne db Hd Hq).
Qed.

End QueryEngine.

Section QueryFallback.

Lemma dedup_first_filter (P : pyval -> Prop) `{!forall x, Decision (P x)} l :
  dedup_first (filter P l) = filter P (dedup_first l).
Proof.
  induction l as [|y l IH]; [reflexivity|].
  rewrite filter_cons. destruct (decide (P y)) as [Hy|Hy]; simpl.
  - rewrite filter_cons, decide_True by exact Hy.
    f_equal. rewrite IH, !list_filter_filter. apply list_filter_iff. tauto.
  - rewrite filter_cons, decide_False by exact Hy.
    rewrite IH, list_filter_filter. apply list_filter_iff.
    intros x. split; [|tauto]. intros Hx. split; [exact Hx|congruence].
Qed.

Lemma collect_distinct_dedup acc l :
  collect_distinct acc l = acc ++ dedup_first (filter (fun x => x ∉ acc) l).
Proof.
  revert acc; induction l as [|x l IH]; intros acc; simpl.
  - rewrite app_nil_r. reflexivity.
  - rewrite filter_cons. case_bool_decide as Hx.
    + rewrite decide_False by tauto. apply IH.
    + rewrite decide_True by exact Hx. rewrite IH, <- app_assoc. simpl.
      do 2 f_equal. rewrite <- dedup_first_filter, list_filter_filter.
      f_equal. apply list_filter_iff. intros y.
      rewrite not_elem_of_app, list_elem_of_singleton. tauto.
Qed.

(** The generated-answer path computes the de-duplicated citation list. *)
Lemma collect_distinct_spec l : collect_distinct [] l = dedup_first l.
Proof.
  rewrite collect_distinct_dedup. simpl. f_equal.
  induction l as [|x l IH]; [reflexivity|].
  rewrite filter_cons, decide_True by apply not_elem_of_nil. f_equal. exact IH.
Qed.

Lemma generated_result_citation docs response cits :
  citations_generated docs = map VStr cits ->
  exists text,
    dedup_citation_text cits = Return text
    /\ generated_result docs response = Return (mkQueryResult response text conf_generated).
Proof.
  intros Hc. unfold dedup_citation_text, generated_result.
  fold (citations_generated docs). rewrite collect_distinct_spec, Hc.
  assert (Hs : Forall is_str (dedup_first (map VStr cits))).
  { rewrite <- collect_distinct_spec. apply Forall_is_str_collect.
    apply Forall_map, Forall_true. intros ?; exact I. }
  destruct (join_vals_Return (py "; ") _ Hs) as [strs [E _]].
  rewrite E. eexists. split; reflexivity.
Qed.

(** When the retrieved citations are pairwise distinct, the fallback path
    yields the same citation field as the generated-answer path. *)
Lemma fallback_result_citation_distinct docs cits :
  citations_fallback docs = map VStr cits -> NoDup cits ->
  exists text,
    dedup_citation_text cits = Return text
    /\ citation <$> (match fallback_result docs with
                     | Return r => Some r
                     | Raise _ => None
                     end) = Some text.
Proof.
  intros Hc Hnd. unfold dedup_citation_text, fallback_result.
  fold (citations_fallback docs). rewrite Hc, <- collect_distinct_spec.
  rewrite collect_distinct_id.
  2:{ simpl. change (map VStr cits) with (VStr <$> cits).
      apply NoDup_fmap_2; [|exact Hnd]. intros a b [=]. assumption. }
  simpl. unfold join_vals.
  destruct (expect_strs_Return (map VStr cits)) as [strs [E _]].
  { apply Forall_map, Forall_true. intros ?; exact I. }
  rewrite E. simpl. eexists. split; reflexivity.
Qed.

(** C6. When retrieval gave chunks, the chat client and the chain were
    built, the chunks carry string citations and the generation call
    raises, [query_document] returns a record (not an error): the answer is
    the excerpt of at most 500 characters of the joined chunk texts, and the
    confidence is 0.7, below the 0.95 of a generated answer.  The inner
    handler covers the generation call only, not the building of the chat
    client. *)
Theorem generation_failure_falls_back (env : Env) (fs : FS)
    (query content_path doc_id : str) (index docs : list Document) (e : str) :
  create_document_vector_db env fs doc_id = Return (Some index) ->
  query_vector_db env (Some index) query 3 = Return docs ->
  docs <> [] ->
  ChatOpenAI env = Return tt ->
  chain_invoke env query (context_of docs) = Raise e ->
  Forall is_str (citations_fallback docs) ->
  exists r,
    query_document env fs query content_path doc_id = Return r
    /\ answer r = py "Found relevant information: "
         ++ take 500 (join [LF] (map page_content docs)) ++ py "..."
    /\ length (answer r) <= 28 + 500 + 3
    /\ confidence r = conf_fallback
    /\ (conf_fallback < conf_generated)%Q.
Proof.
  intros Hdb Hdocs Hne Hllm Hinv Hstr.
  unfold query_document, query_document_body. rewrite Hdb. simpl. rewrite Hdocs. simpl.
  destruct docs as [|d docs]; [done|].
  rewrite Hllm. simpl. rewrite Hinv. simpl.
  destruct (join_vals_Return (py "; ") _ Hstr) as [strs [E Hcits]].
  unfold fallback_result. fold (citations_fallback (d :: docs)). rewrite E. simpl.
  eexists. split; [reflexivity|]. simpl. split_and!; try reflexivity.
  rewrite !length_app, length_take. vm_compute (length (py "...")).
  vm_compute (length (py "Found relevant information: ")). lia.
Qed.

End QueryFallback.

Lemma generation_failure_falls_back_witness :
  exists r,
    query_document (env_down search_first) fs_d1 (py "revenue?")
      (py "processed/d1_content.txt") (py "d1") = Return r
    /\ answer r = py "Found relevant information: "
         ++ take 500 (join [LF] (map page_content index_d1)) ++ py "..."
    /\ length (answer r) <= 28 + 500 + 3
    /\ confidence r = conf_fallback
    /\ (conf_fallback < conf_generated)%Q.
Proof.
  apply (generation_failure_falls_back (env_down search_first) fs_d1 (py "revenue?")
           (py "processed/d1_content.txt") (py "d1") index_d1 index_d1 (py "timeout")).
  - vm_compute. reflexivity.
  - vm_compute. reflexivity.
  - discriminate.
  - reflexivity.
  - reflexivity.
  - vm_compute. repeat constructor.
Defined.

(** C6, the specified property at a chat client that cannot be built:
    chunks were retrieved, the constructor of the client raises outside the
    inner [try], and the record is the error record of the outer handler,
    not the excerpt. *)
Lemma client_failure_counterexample :
  ~ generation_failure_never_errors env_no_client fs_d1 (py "revenue?")
      (py "processed/d1_content.txt") (py "d1")
  /\ query_document env_no_client fs_d1 (py "revenue?")
       (py "processed/d1_content.txt") (py "d1")
     = Return (mkQueryResult (py "Error processing query: no API key") (py "Error") conf_none).
Proof.
  split; [|vm_compute; reflexivity].
  intros H.
  destruct (H index_d1 index_d1) as (r & Hr & Ha & _).
  - vm_compute. reflexivity.
  - vm_compute. reflexivity.
  - discriminate.
  - left. exists (py "no API key"). reflexivity.
  - vm_compute in Hr. injection Hr as <-. vm_compute in Ha. discriminate.
Qed.

(** A search that hands back one entry of the index at two ranks would
    have its citation twice in the fallback record, where the generated
    record has it once: the fallback path joins the citations as they
    come. *)
Example repeated_entry_repeats_citation :
  query_document (env_down search_twice) fs_d1 (py "revenue?")
    (py "processed/d1_content.txt") (py "d1")
  = Return (mkQueryResult
              (py "Found relevant information: " ++ long_text ++ [LF] ++ long_text ++ py "...")
              (py "Page 0, Chunk 1; Page 0, Chunk 1") conf_fallback)
  /\ dedup_citation_text [py "Page 0, Chunk 1"; py "Page 0, Chunk 1"]
     = Return (py "Page 0, Chunk 1").
Proof. split; vm_compute; reflexivity. Qed.

(* ===================================================================== *)
(** * Properties of the extraction pipeline                               *)
(* ===================================================================== *)

#[global] Arguments chunk_marker : simpl never.
#[global] Arguments page_info_of : simpl never.
#[global] Arguments content_path_of : simpl never.
#[global] Arguments chunks_path_of : simpl never.
#[global] Arguments metadata_path_of : simpl never.
#[global] Arguments strip : simpl never.

Section Ingestion.

Context (env : Env).

Lemma chunk_loop_pages file_path doc_id k docs pages text :
  (chunk_loop file_path doc_id k docs pages text).1
  = pages ++ imap (fun j d => page_info_of file_path doc_id (k + j) d) docs.
Proof.
  revert k pages text; induction docs as [|d docs IH]; intros k pages text; simpl.
  - rewrite app_nil_r. reflexivity.
  - rewrite IH, <- app_assoc. simpl. rewrite Nat.add_0_r. do 2 f_equal.
    apply imap_ext. intros j x _. simpl. f_equal. lia.
Qed.

Lemma chunk_loop_text file_path doc_id k docs pages text :
  (chunk_loop file_path doc_id k docs pages text).2
  = text ++ concat (imap (fun j d => chunk_marker (k + j + 1) ++ page_content d ++ [LF]) docs).
Proof.
  revert k pages text; induction docs as [|d docs IH]; intros k pages text;
    cbn [chunk_loop imap concat].
  - rewrite app_nil_r. reflexivity.
  - rewrite IH, <- !app_assoc, Nat.add_0_r. do 5 f_equal.
    apply imap_ext. intros j x _. cbn [compose]. do 2 f_equal. lia.
Qed.

Lemma load_documents_pdf file_path documents :
  PyPDFLoader_load env file_path = Return documents ->
  load_documents env file_path (py ".pdf")
  = if length (strip (concat (map page_content documents))) <? min_text_length
    then (ocr_documents <- UnstructuredPDFLoader_load env file_path;;
          Return (ocr_documents, true))
    else Return (documents, false).
Proof.
  intros Hfast. unfold load_documents.
  rewrite bool_decide_eq_true_2 by reflexivity. rewrite Hfast. simpl.
  destruct (_ <? _); [|reflexivity].
  destruct (UnstructuredPDFLoader_load env file_path); reflexivity.
Qed.

(** The three writes, one after the other, each refused when its path
    cannot be opened. *)
Lemma persist_unfold file_path doc_id file_ext split_docs ocr_used fs :
  let pages_info := (chunk_loop file_path doc_id 0 split_docs [] []).1 in
  let full_text := (chunk_loop file_path doc_id 0 split_docs [] []).2 in
  let summary := mkSummary doc_id (basename file_path) file_ext (strftime env)
                   (length split_docs) ocr_used in
  let f1 := <[content_path_of doc_id := FText full_text]> (files fs) in
  let f2 := <[chunks_path_of doc_id := FJson (JChunks pages_info)]> f1 in
  let f3 := <[metadata_path_of doc_id := FJson (JSummary summary)]> f2 in
  persist env file_path doc_id file_ext split_docs ocr_used fs
  = if bool_decide (content_path_of doc_id ∈ unwritable fs)
    then (fs, Raise (py "Permission denied"))
    else if bool_decide (chunks_path_of doc_id ∈ unwritable fs)
    then (mkFS f1 (unwritable fs), Raise (py "Permission denied"))
    else if bool_decide (metadata_path_of doc_id ∈ unwritable fs)
    then (mkFS f2 (unwritable fs), Raise (py "Permission denied"))
    else (mkFS f3 (unwritable fs),
          Return (ProcSuccess doc_id (length split_docs) file_ext ocr_used)).
Proof.
  unfold persist, io_bind, write_file, io_ret. simpl.
  repeat (case_bool_decide; simpl; try reflexivity).
Qed.

Lemma persist_result file_path doc_id file_ext split_docs ocr_used fs fs' r :
  to_result doc_id (persist env file_path doc_id file_ext split_docs ocr_used fs) = (fs', r) ->
  (exists e, r = ProcError doc_id e)
  \/ r = ProcSuccess doc_id (length split_docs) file_ext ocr_used.
Proof.
  rewrite persist_unfold. cbv zeta.
  repeat case_bool_decide; simpl; intros [= _ <-]; eauto.
Qed.

Lemma process_document_unfold file_path doc_id fs :
  process_document env file_path doc_id fs
  = match extract env file_path (lower (splitext_ext file_path)) with
    | Return extracted =>
        to_result doc_id
          (persist env file_path doc_id (lower (splitext_ext file_path))
             extracted.1 extracted.2 fs)
    | Raise e => (fs, ProcError doc_id e)
    end.
Proof.
  unfold process_document, process_document_body, io_bind, io_lift.
  destruct (extract env file_path _); reflexivity.
Qed.

(** C2. For a [.pdf] file on which the fast loader succeeds: when the
    stripped text has fewer than 100 characters the OCR loader is run, the
    fast result plays no part in what follows, and every success record has
    [ocr_used = True] and counts the chunks of the OCR result; otherwise
    the fast result is chunked and every success record has
    [ocr_used = False].  In both cases the success record is returned
    whenever the splitter returns and the three paths can be written. *)
Theorem scanned_pdf_falls_back_to_ocr (file_path doc_id : str) (fs : FS)
    (documents : list Document) :
  lower (splitext_ext file_path) = py ".pdf" ->
  PyPDFLoader_load env file_path = Return documents ->
  (length (strip (concat (map page_content documents))) < 100 ->
     load_documents env file_path (py ".pdf")
     = (ocr_documents <- UnstructuredPDFLoader_load env file_path;;
        Return (ocr_documents, true))
     /\ (forall fs' r,
           process_document env file_path doc_id fs = (fs', r) ->
           (exists e, r = ProcError doc_id e)
           \/ (result_ocr_used r = Some true
               /\ exists ocr_documents split_docs,
                    UnstructuredPDFLoader_load env file_path = Return ocr_documents
                    /\ split_step env ocr_documents = Return split_docs
                    /\ r = ProcSuccess doc_id (length split_docs) (py ".pdf") true))
     /\ (forall ocr_documents split_docs,
           UnstructuredPDFLoader_load env file_path = Return ocr_documents ->
           split_step env ocr_documents = Return split_docs ->
           content_path_of doc_id ∉ unwritable fs ->
           chunks_path_of doc_id ∉ unwritable fs ->
           metadata_path_of doc_id ∉ unwritable fs ->
           (process_document env file_path doc_id fs).2
           = ProcSuccess doc_id (length split_docs) (py ".pdf") true))
  /\ (100 <= length (strip (concat (map page_content documents))) ->
     load_documents env file_path (py ".pdf") = Return (documents, false)
     /\ (forall fs' r,
           process_document env file_path doc_id fs = (fs', r) ->
           (exists e, r = ProcError doc_id e)
           \/ (result_ocr_used r = Some false
               /\ exists split_docs,
                    split_step env documents = Return split_docs
                    /\ r = ProcSuccess doc_id (length split_docs) (py ".pdf") false))
     /\ (forall split_docs,
           split_step env documents = Return split_docs ->
           content_path_of doc_id ∉ unwritable fs ->
           chunks_path_of doc_id ∉ unwritable fs ->
           metadata_path_of doc_id ∉ unwritable fs ->
           (process_document env file_path doc_id fs).2
           = ProcSuccess doc_id (length split_docs) (py ".pdf") false)).
Proof.
  intros Hext Hfast.
  pose proof (load_documents_pdf file_path documents Hfast) as Hload.
  unfold min_text_length in Hload.
  split; intros Hlen.
  - apply Nat.ltb_lt in Hlen. rewrite Hlen in Hload. split_and!; [exact Hload| |].
    + intros fs' r. rewrite process_document_unfold, Hext. unfold extract.
      rewrite Hload.
      destruct (UnstructuredPDFLoader_load env file_path) as [ocr|e]; simpl.
      2:{ intros [= _ <-]. eauto. }
      destruct (split_step env ocr) as [split_docs|e] eqn:Hsplit; simpl.
      2:{ intros [= _ <-]. eauto. }
      intros Hr. apply persist_result in Hr as [Hr | ->]; [left; exact Hr|].
      right. split; [reflexivity|]. eauto.
    + intros ocr split_docs Hocr Hsplit H1 H2 H3.
      rewrite process_document_unfold, Hext. unfold extract.
      rewrite Hload, Hocr. simpl. rewrite Hsplit. simpl.
      rewrite persist_unfold. cbv zeta.
      rewrite !bool_decide_eq_false_2 by assumption. reflexivity.
  - apply Nat.ltb_ge in Hlen. rewrite Hlen in Hload. split_and!; [exact Hload| |].
    + intros fs' r. rewrite process_document_unfold, Hext. unfold extract.
      rewrite Hload. simpl.
      destruct (split_step env documents) as [split_docs|e] eqn:Hsplit; simpl.
      2:{ intros [= _ <-]. eauto. }
      intros Hr. apply persist_result in Hr as [Hr | ->]; [left; exact Hr|].
      right. split; [reflexivity|]. eauto.
    + intros split_docs Hsplit H1 H2 H3.
      rewrite process_document_unfold, Hext. unfold extract.
      rewrite Hload. simpl. rewrite Hsplit. simpl.
      rewrite persist_unfold. cbv zeta.
      rewrite !bool_decide_eq_false_2 by assumption. reflexivity.
Qed.

End Ingestion.

Lemma scanned_pdf_falls_back_to_ocr_witness :
  (process_document env_scan (py "uploads/scan.PDF") (py "d2") empty_fs).2
  = ProcSuccess (py "d2") 1 (py ".pdf") true.
Proof.
  destruct (scanned_pdf_falls_back_to_ocr env_scan (py "uploads/scan.PDF") (py "d2")
              empty_fs [page 0 (py "  stamp  ")]) as [Hshort _].
  - vm_compute. reflexivity.
  - reflexivity.
  - destruct Hshort as (_ & _ & Hrun).
    + vm_compute. lia.
    + apply (Hrun [bare long_text] [bare long_text]).
      * reflexivity.
      * reflexivity.
      * apply not_elem_of_empty.
      * apply not_elem_of_empty.
      * apply not_elem_of_empty.
Defined.

Section Persistence.

Context (env : Env).

(** C7, as amended.  Nothing is written while loading and chunking, so an
    extraction failure leaves the store as it was.  After that the three
    files are written in the order content, chunk records, summary, with no
    rollback: the run ends at the first path that cannot be opened, with the
    error record and with the files written before it in place; when all
    three paths can be written the three artifacts are in the store and the
    success record is returned. *)
Theorem artifacts_written_in_order (file_path doc_id : str) (fs : FS) :
  match extract env file_path (lower (splitext_ext file_path)) with
  | Raise e => process_document env file_path doc_id fs = (fs, ProcError doc_id e)
  | Return (split_docs, ocr_used) =>
      let pages_info := (chunk_loop file_path doc_id 0 split_docs [] []).1 in
      let full_text := (chunk_loop file_path doc_id 0 split_docs [] []).2 in
      let summary := mkSummary doc_id (basename file_path) (lower (splitext_ext file_path))
                       (strftime env) (length split_docs) ocr_used in
      let f1 := <[content_path_of doc_id := FText full_text]> (files fs) in
      let f2 := <[chunks_path_of doc_id := FJson (JChunks pages_info)]> f1 in
      let f3 := <[metadata_path_of doc_id := FJson (JSummary summary)]> f2 in
      exists fs' r,
        process_document env file_path doc_id fs = (fs', r)
        /\ unwritable fs' = unwritable fs
        /\ (((content_path_of doc_id ∈ unwritable fs)
             /\ files fs' = files fs /\ exists e, r = ProcError doc_id e)
            \/ ((content_path_of doc_id ∉ unwritable fs)
                /\ (chunks_path_of doc_id ∈ unwritable fs)
                /\ files fs' = f1 /\ exists e, r = ProcError doc_id e)
            \/ ((content_path_of doc_id ∉ unwritable fs)
                /\ (chunks_path_of doc_id ∉ unwritable fs)
                /\ (metadata_path_of doc_id ∈ unwritable fs)
                /\ files fs' = f2 /\ exists e, r = ProcError doc_id e)
            \/ ((content_path_of doc_id ∉ unwritable fs)
                /\ (chunks_path_of doc_id ∉ unwritable fs)
                /\ (metadata_path_of doc_id ∉ unwritable fs)
                /\ files fs' = f3
                /\ r = ProcSuccess doc_id (length split_docs)
                         (lower (splitext_ext file_path)) ocr_used))
  end.
Proof.
  rewrite process_document_unfold.
  destruct (extract env file_path _) as [[split_docs ocr_used]|e]; [|reflexivity].
  cbv zeta. rewrite persist_unfold. cbv zeta. cbn [fst snd].
  case_bool_decide as H1; [|case_bool_decide as H2; [|case_bool_decide as H3]];
    simpl; eexists _, _; (split; [reflexivity|]); (split; [reflexivity|]); simpl.
  - left. eauto.
  - right; left. eauto.
  - right; right; left. eauto 6.
  - right; right; right. eauto 6.
Qed.

End Persistence.

(** C7, as stated, fails: the chunk-record file of [d1] cannot be opened,
    so the run ends with the error record after the content file has been
    written and before the other two. *)
Lemma partial_persistence_counterexample :
  ~ written_together_or_not_at_all (env_down search_first)
      (py "uploads/report.pdf") (py "d1") fs_locked
  /\ (exists e, (process_document (env_down search_first)
                   (py "uploads/report.pdf") (py "d1") fs_locked).2
                = ProcError (py "d1") e)
  /\ artifacts fs_locked (py "d1") = [None; None; None].
Proof.
  split_and!.
  - unfold written_together_or_not_at_all.
    set (fs' := (process_document _ _ _ _).1).
    assert (Ha : exists f, artifacts fs' (py "d1") = [Some f; None; None]).
    { eexists. vm_compute. reflexivity. }
    destruct Ha as [f ->]. intros [H|H].
    + apply Forall_cons in H as [_ H]. apply Forall_cons in H as [[x [=]] _].
    + apply Forall_cons in H as [[=] _].
  - eexists. vm_compute. reflexivity.
  - vm_compute. reflexivity.
Qed.

Section Labels.

Lemma page_info_of_chunk_id file_path doc_id i doc :
  page_info_of file_path doc_id i doc !! "chunk_id" = Some (VInt (Z.of_nat (i + 1))).
Proof. unfold page_info_of. apply lookup_insert_eq. Qed.

Lemma page_info_of_page file_path doc_id i doc :
  page_info_of file_path doc_id i doc !! "page" = Some (recorded_label i doc).
Proof.
  unfold page_info_of, recorded_label.
  rewrite lookup_insert_ne by done. rewrite lookup_insert_eq. f_equal.
  rewrite lookup_insert_ne by done.
  case_bool_decide as Hp.
  - destruct Hp as [p Hp]. rewrite Hp. reflexivity.
  - rewrite lookup_insert_eq. simpl.
    destruct (metadata doc !! "page") as [p|] eqn:E; [|reflexivity].
    destruct Hp. eauto.
Qed.

Lemma page_info_of_nonempty file_path doc_id i doc :
  page_info_of file_path doc_id i doc ≠ ∅.
Proof. unfold page_info_of. apply insert_non_empty. Qed.

(** C4, as amended.  Chunk number [i] (from 0) of the chunk list gets the
    sequence index [i + 1].  Its location label is the page number its
    metadata carries when there is one, and otherwise the sequence index
    itself; the record never carries ["Unknown"] in place of a missing page.
    On loading, a chunk with its sidecar record is cited
    ["Page <label>, Chunk <i+1>"] with that label, and the label ["Unknown"]
    is given only to a chunk whose sidecar record is missing. *)
Theorem chunk_index_and_location_label (file_path doc_id : str)
    (split_docs : list Document) (i : nat) (doc : Document) :
  split_docs !! i = Some doc ->
  exists page_info,
    (chunk_loop file_path doc_id 0 split_docs [] []).1 !! i = Some page_info
    /\ page_info !! "chunk_id" = Some (VInt (Z.of_nat (i + 1)))
    /\ page_info !! "page" = Some (recorded_label i doc)
    /\ (is_Some (metadata doc !! "page") -> recorded_label i doc = specified_label doc)
    /\ (metadata doc !! "page" = None -> recorded_label i doc = VInt (Z.of_nat (i + 1)))
    /\ (forall chunks_metadata text,
          chunks_metadata !! VInt (Z.of_nat (i + 1)) = Some page_info ->
          metadata (make_chunk chunks_metadata doc_id i text) !! "citation"
          = Some (VStr (py "Page " ++ str_of_val (recorded_label i doc)
                          ++ py ", Chunk " ++ str_of_nat (i + 1))))
    /\ (forall chunks_metadata text,
          chunks_metadata !! VInt (Z.of_nat (i + 1)) = None ->
          metadata (make_chunk chunks_metadata doc_id i text) !! "page" = Some Unknown
          /\ metadata (make_chunk chunks_metadata doc_id i text) !! "citation"
             = Some (VStr (py "Page Unknown, Chunk " ++ str_of_nat (i + 1)))).
Proof.
  intros Hi. exists (page_info_of file_path doc_id i doc).
  rewrite chunk_loop_pages. simpl. rewrite list_lookup_imap, Hi. simpl.
  split_and!.
  - reflexivity.
  - apply page_info_of_chunk_id.
  - apply page_info_of_page.
  - intros [p Hp]. unfold recorded_label, specified_label. rewrite Hp. reflexivity.
  - intros Hp. unfold recorded_label. rewrite Hp. reflexivity.
  - intros chunks_metadata text Hrec. unfold make_chunk. cbn [metadata].
    rewrite lookup_insert_eq, Hrec. cbn [default].
    rewrite bool_decide_eq_false_2 by apply page_info_of_nonempty.
    unfold id. rewrite page_info_of_page. reflexivity.
  - intros chunks_metadata text Hrec. unfold make_chunk. cbn [metadata].
    rewrite Hrec. cbn [default].
    rewrite bool_decide_eq_true_2 by reflexivity.
    rewrite lookup_insert_ne by done. rewrite !lookup_insert_eq.
    split; reflexivity.
Qed.

End Labels.

Lemma chunk_index_and_location_label_witness :
  exists page_info,
    (chunk_loop (py "uploads/scan.PDF") (py "d2") 0 [bare long_text] [] []).1 !! 0
    = Some page_info
    /\ page_info !! "chunk_id" = Some (VInt 1)
    /\ page_info !! "page" = Some (VInt 1).
Proof.
  destruct (chunk_index_and_location_label (py "uploads/scan.PDF") (py "d2")
              [bare long_text] 0 (bare long_text)) as (pi & H1 & H2 & H3 & _).
  - reflexivity.
  - exists pi. split_and!; [exact H1|exact H2|exact H3].
Defined.

(** C4, as stated, fails: the OCR loader gives no page number for the one
    chunk of [d2]; the recorded label is the sequence index 1 and not
    ["Unknown"], and the chunk is later cited ["Page 1, Chunk 1"]. *)
Lemma unknown_label_counterexample :
  let fs' := (process_document env_scan (py "uploads/scan.PDF") (py "d2") empty_fs).1 in
  exists page_info,
    files fs' !! chunks_path_of (py "d2") = Some (FJson (JChunks [page_info]))
    /\ metadata (bare long_text) !! "page" = None
    /\ page_info !! "page" = Some (VInt 1)
    /\ page_info !! "page" <> Some (specified_label (bare long_text))
    /\ bind (get_document_chunks env_scan fs' (content_path_of (py "d2")) (py "d2") None)
         (fun docs => Return (map (fun d => metadata d !! "citation") docs))
       = Return [Some (VStr (py "Page 1, Chunk 1"))].
Proof.
  eexists. split_and!.
  - vm_compute. reflexivity.
  - reflexivity.
  - vm_compute. reflexivity.
  - vm_compute. discriminate.
  - vm_compute. reflexivity.
Qed.

(* ===================================================================== *)
(** * Properties of the chunk store                                       *)
(* ===================================================================== *)

#[global] Arguments re_split : simpl never.
#[global] Arguments path_join : simpl never.

Section MissingChunks.

Context (env : Env).

Lemma filter_all_blank (l : list str) :
  Forall (fun piece => strip piece = []) l ->
  filter (fun chunk => strip chunk ≠ []) l = [].
Proof.
  induction 1 as [|x l Hx _ IH]; [reflexivity|].
  rewrite filter_cons, decide_False by (intros H; exact (H Hx)). exact IH.
Qed.

Lemma get_document_chunks_empty fs content_path doc_id chunks_path :
  files fs !! content_path = None
  \/ (exists s, files fs !! content_path = Some (FText s) /\ no_chunk_text s) ->
  get_document_chunks env fs content_path doc_id chunks_path = Return [].
Proof.
  intros Hc. unfold get_document_chunks, get_document_chunks_body, read_text.
  destruct Hc as [->|(s & -> & Hs)]; [reflexivity|]. cbn [bind].
  match goal with |- context [bind ?m _] => destruct m as [lookup|e] end;
    [|reflexivity].
  cbn [bind try_except]. rewrite filter_all_blank by exact Hs. reflexivity.
Qed.

(** C5, as amended.  When the content file of a document is absent, or
    holds no chunk text, loading its chunks raises nothing: it returns the
    empty list.  The index builder then returns [None], and the query
    engine answers with its "Could not process document" record, citation
    ["Error"] and confidence 0. *)
Theorem missing_chunks_load_as_empty_list (fs : FS) (doc_id : str) :
  files fs !! content_path_of doc_id = None
  \/ (exists s, files fs !! content_path_of doc_id = Some (FText s) /\ no_chunk_text s) ->
  (forall chunks_path,
     get_document_chunks env fs (content_path_of doc_id) doc_id chunks_path = Return []
     /\ ~ load_fails env fs (content_path_of doc_id) doc_id chunks_path)
  /\ create_document_vector_db env fs doc_id = Return None
  /\ (forall query content_path,
        query_document env fs query content_path doc_id
        = Return (mkQueryResult (py "Error: Could not process document " ++ doc_id)
                    (py "Error") conf_none)).
Proof.
  intros Hc.
  assert (Hload : forall chunks_path,
    get_document_chunks env fs (content_path_of doc_id) doc_id chunks_path = Return []).
  { intros chunks_path. apply get_document_chunks_empty. exact Hc. }
  assert (Hdb : create_document_vector_db env fs doc_id = Return None).
  { unfold create_document_vector_db. cbv zeta.
    fold (content_path_of doc_id). rewrite Hload. reflexivity. }
  split_and!.
  - intros chunks_path. split; [apply Hload|].
    intros [e He]. rewrite Hload in He. discriminate.
  - exact Hdb.
  - intros query content_path. unfold query_document, query_document_body.
    rewrite Hdb. reflexivity.
Qed.

End MissingChunks.

Lemma missing_chunks_load_as_empty_list_witness :
  get_document_chunks (env_down search_first) empty_fs
    (content_path_of (py "ghost")) (py "ghost") None = Return []
  /\ create_document_vector_db (env_down search_first) empty_fs (py "ghost") = Return None.
Proof.
  destruct (missing_chunks_load_as_empty_list (env_down search_first) empty_fs (py "ghost"))
    as (Hload & Hdb & _).
  - left. reflexivity.
  - split; [apply (Hload None)|exact Hdb].
Defined.

(** C5, as stated, fails: no file of document [ghost] exists, and loading
    its chunks returns the empty list instead of raising. *)
Lemma not_found_counterexample :
  files empty_fs !! content_path_of (py "ghost") = None
  /\ get_document_chunks (env_down search_first) empty_fs
       (content_path_of (py "ghost")) (py "ghost") None = Return []
  /\ ~ load_fails (env_down search_first) empty_fs
         (content_path_of (py "ghost")) (py "ghost") None.
Proof.
  split_and!; [reflexivity|reflexivity|].
  intros [e He]. vm_compute in He. discriminate.
Qed.

Section StringFacts.

Lemma string_of_uint_digits d :
  Forall (fun c => is_digit c = true) (list_ascii_of_string (NilEmpty.string_of_uint d)).
Proof. induction d; simpl; constructor; (reflexivity || assumption). Qed.

Lemma revapp_not_Nil d d' : d' <> Decimal.Nil -> Decimal.revapp d d' <> Decimal.Nil.
Proof. revert d'; induction d; intros d' H; simpl; try (apply IHd; discriminate); exact H. Qed.

Lemma little_succ_not_Nil d : Decimal.Little.succ d <> Decimal.Nil.
Proof. destruct d; discriminate. Qed.

Lemma to_little_uint_not_Nil n acc :
  acc <> Decimal.Nil -> Nat.to_little_uint n acc <> Decimal.Nil.
Proof.
  revert acc; induction n as [|n IH]; intros acc H; simpl; [exact H|].
  apply IH, little_succ_not_Nil.
Qed.

Lemma revapp_not_Nil_l d d' : d <> Decimal.Nil -> Decimal.revapp d d' <> Decimal.Nil.
Proof. destruct d; intros H; simpl; try (apply revapp_not_Nil; discriminate). destruct H; reflexivity. Qed.

Lemma str_of_nat_digits n : Forall (fun c => is_digit c = true) (str_of_nat n).
Proof. apply string_of_uint_digits. Qed.

Lemma str_of_nat_nonempty n : str_of_nat n <> [].
Proof.
  unfold str_of_nat, Nat.to_uint, Decimal.rev.
  assert (H : Decimal.revapp (Nat.to_little_uint n Decimal.zero) Decimal.Nil <> Decimal.Nil).
  { apply revapp_not_Nil_l, to_little_uint_not_Nil. discriminate. }
  destruct (Decimal.revapp _ _); [destruct H; reflexivity|..]; discriminate.
Qed.

Lemma take_while_app_stop p s c t :
  Forall (fun x => p x = true) s -> p c = false ->
  take_while p (s ++ c :: t) = s /\ drop_while p (s ++ c :: t) = c :: t.
Proof.
  intros Hs Hc. induction Hs as [|x s Hx _ [IH1 IH2]]; simpl.
  - rewrite Hc. split; reflexivity.
  - rewrite Hx, IH1, IH2. split; reflexivity.
Qed.

Lemma strip_prefix_app p s : strip_prefix p (p ++ s) = Some s.
Proof.
  induction p as [|a p IH]; [reflexivity|]. simpl.
  rewrite Ascii.eqb_refl. exact IH.
Qed.

Lemma chunk_marker_parts n rest :
  chunk_marker n ++ rest
  = (LF :: py "---") ++ " "%char
      :: py "Document Chunk " ++ str_of_nat n ++ " "%char :: (py "---" ++ [LF]) ++ rest.
Proof.
  unfold chunk_marker, py. simpl. rewrite <- !app_assoc. reflexivity.
Qed.

(** The pattern matches the marker the pipeline writes, and consumes
    exactly it. *)
Lemma match_marker_chunk_marker n rest :
  match_marker (chunk_marker n ++ rest) = Some rest.
Proof.
  unfold match_marker. rewrite chunk_marker_parts, strip_prefix_app.
  change (drop_while is_space (" "%char :: ?x)) with (drop_while is_space x).
  change (drop_while is_space (py "Document Chunk " ++ ?x)) with (py "Document Chunk " ++ x).
  rewrite strip_prefix_app.
  destruct (take_while_app_stop is_digit (str_of_nat n) " "%char
              ((py "---" ++ [LF]) ++ rest) (str_of_nat_digits n) eq_refl) as [Ht Hd].
  rewrite Ht, Hd.
  pose proof (str_of_nat_nonempty n) as Hne.
  destruct (str_of_nat n); [destruct Hne; reflexivity|].
  change (drop_while is_space (" "%char :: ?x)) with (drop_while is_space x).
  change (drop_while is_space ((py "---" ++ [LF]) ++ rest)) with ((py "---" ++ [LF]) ++ rest).
  apply strip_prefix_app.
Qed.

Lemma chunk_marker_cons n :
  chunk_marker n = LF :: py "--- Document Chunk " ++ str_of_nat n ++ py " ---" ++ [LF].
Proof. reflexivity. Qed.

Lemma universal_newlines_id s : CR ∉ s -> universal_newlines s = s.
Proof.
  induction s as [|c s IH]; intros H; [reflexivity|].
  apply not_elem_of_cons in H as [Hc Hs].
  simpl.
  destruct (Ascii.eqb_spec c CR) as [->|_]; [destruct Hc; reflexivity|].
  rewrite IH by exact Hs. reflexivity.
Qed.

Lemma digit_not_CR l : Forall (fun c => is_digit c = true) l -> CR ∉ l.
Proof.
  intros H Hin. rewrite Forall_forall in H. specialize (H _ Hin). discriminate.
Qed.

Lemma no_CR_by_test l : forallb (fun c => negb (Ascii.eqb c CR)) l = true -> CR ∉ l.
Proof.
  induction l as [|c l IH]; simpl; intros H; [apply not_elem_of_nil|].
  apply andb_prop in H as [Hc Hl]. apply not_elem_of_cons. split; [|exact (IH Hl)].
  intros <-. rewrite Ascii.eqb_refl in Hc. discriminate.
Qed.

Lemma chunk_marker_no_CR n : CR ∉ chunk_marker n.
Proof.
  rewrite chunk_marker_cons.
  change (LF :: py "--- Document Chunk " ++ str_of_nat n ++ py " ---" ++ [LF])
    with ((LF :: py "--- Document Chunk ") ++ str_of_nat n ++ (py " ---" ++ [LF])).
  rewrite !not_elem_of_app. split_and!.
  - apply no_CR_by_test. reflexivity.
  - apply digit_not_CR, str_of_nat_digits.
  - apply no_CR_by_test. reflexivity.
  - apply no_CR_by_test. reflexivity.
Qed.

Lemma drop_while_length_eq p s : length (drop_while p s) = length s -> drop_while p s = s.
Proof.
  destruct s as [|c s]; [reflexivity|]. simpl.
  destruct (p c); [|reflexivity].
  pose proof (drop_while_length p s). lia.
Qed.

(** A text that [strip] leaves alone keeps both of its ends. *)
Lemma strip_fixed_ends c :
  strip c = c -> drop_while is_space c = c /\ drop_while is_space (rev c) = rev c.
Proof.
  unfold strip, rstrip, lstrip. intros H.
  assert (Hlen : length (drop_while is_space c) = length c).
  { pose proof (drop_while_length is_space c) as H1.
    pose proof (drop_while_length is_space (rev (drop_while is_space c))) as H2.
    apply (f_equal length) in H. rewrite length_rev in H, H2. lia. }
  apply drop_while_length_eq in Hlen. rewrite Hlen in H. split; [exact Hlen|].
  apply (f_equal (@rev ascii)) in H. rewrite rev_involutive in H. exact H.
Qed.

(** The line feed written after a chunk is removed again by [strip]. *)
Lemma strip_app_LF c : c <> [] -> strip c = c -> strip (c ++ [LF]) = c.
Proof.
  intros Hne H. destruct (strip_fixed_ends c H) as [Hl Hr].
  unfold strip, rstrip, lstrip.
  assert (Hl' : drop_while is_space (c ++ [LF]) = c ++ [LF]).
  { destruct c as [|x c]; [destruct Hne; reflexivity|]. simpl in *.
    destruct (is_space x); [|reflexivity].
    pose proof (drop_while_length is_space c) as Hd. rewrite Hl in Hd. simpl in Hd. lia. }
  rewrite Hl', rev_app_distr. simpl.
  change (is_space LF) with true. cbn iota. rewrite Hr. apply rev_involutive.
Qed.

End StringFacts.

Section RoundTrip.

Lemma re_split_from_hit cur c r rest :
  match_marker (c :: r) = Some rest ->
  re_split_from cur (c :: r) = rev cur :: re_split_from [] rest.
Proof.
  intros H. simp re_split_from.
  destruct (inspect (match_marker (c :: r))) as [[rest'|] E]; [|congruence].
  assert (rest' = rest) by congruence. subst rest'. reflexivity.
Qed.

Lemma re_split_from_miss cur c r :
  match_marker (c :: r) = None ->
  re_split_from cur (c :: r) = re_split_from (c :: cur) r.
Proof.
  intros H. simp re_split_from.
  destruct (inspect (match_marker (c :: r))) as [[rest'|] E]; [congruence|]. reflexivity.
Qed.

(** Characters at which no match begins go to the piece being read. *)
Lemma re_split_from_skip a b cur :
  (forall a1 a2, a = a1 ++ a2 -> a2 <> [] -> match_marker (a2 ++ b) = None) ->
  re_split_from cur (a ++ b) = re_split_from (rev a ++ cur) b.
Proof.
  revert cur; induction a as [|x a IH]; intros cur H; [reflexivity|].
  simpl. rewrite re_split_from_miss.
  - rewrite IH.
    + rewrite <- app_assoc. reflexivity.
    + intros a1 a2 -> Hne. apply (H (x :: a1)); [reflexivity|exact Hne].
  - apply (H [] (x :: a)); [reflexivity|discriminate].
Qed.

Lemma has_marker_suffix s a1 a2 :
  has_marker s = false -> s = a1 ++ a2 -> match_marker a2 = None.
Proof.
  revert s; induction a1 as [|x a1 IH]; intros s Hs ->.
  - destruct a2 as [|y a2]; [reflexivity|]. simpl in Hs.
    apply orb_false_elim in Hs as [Hs _].
    apply bool_decide_eq_false in Hs.
    destruct (match_marker (y :: a2)) eqn:E; [|reflexivity]. destruct Hs. eauto.
  - simpl in Hs. apply orb_false_elim in Hs as [_ Hs]. exact (IH _ Hs eq_refl).
Qed.

Lemma ends_solid_suffix a b : ends_solid (a ++ b) -> ends_solid b.
Proof.
  unfold ends_solid. rewrite rev_app_distr.
  destruct (rev b) as [|x r] eqn:E; [reflexivity|]. simpl.
  destruct (is_space x); [|reflexivity].
  intros H. pose proof (drop_while_length is_space (r ++ rev a)) as Hl.
  rewrite H in Hl. simpl in Hl. lia.
Qed.

Lemma ends_solid_blank t :
  ends_solid t -> Forall (fun c => is_space c = true) t -> t = [].
Proof.
  unfold ends_solid. intros H Hb.
  destruct (rev t) as [|x r] eqn:E.
  - apply (f_equal (@rev ascii)) in E. rewrite rev_involutive in E. exact E.
  - assert (Hx : is_space x = true).
    { rewrite Forall_forall in Hb. apply Hb. apply list_elem_of_In, in_rev.
      rewrite E. left. reflexivity. }
    simpl in H. rewrite Hx in H.
    pose proof (drop_while_length is_space r) as Hl. rewrite H in Hl. simpl in Hl. lia.
Qed.

Lemma strip_prefix_Some p s r : strip_prefix p s = Some r -> s = p ++ r.
Proof.
  revert s; induction p as [|a p IH]; intros s; simpl.
  - intros [= <-]. reflexivity.
  - destruct s as [|b s]; [discriminate|].
    destruct (Ascii.eqb_spec a b) as [<-|_]; [|discriminate].
    intros H. rewrite (IH _ H). reflexivity.
Qed.

Lemma drop_while_suffix p s : exists a, s = a ++ drop_while p s /\ Forall (fun c => p c = true) a.
Proof.
  induction s as [|c s (a & IH & Ha)]; [exists []; split; [reflexivity|constructor]|].
  simpl. destruct (p c) eqn:E.
  - exists (c :: a). split; [simpl; f_equal; exact IH|constructor; assumption].
  - exists []. split; [reflexivity|constructor].
Qed.

(** A pattern without line feed cannot match across the line feed that
    follows the text. *)
Lemma strip_prefix_before_LF p t Y :
  LF ∉ p ->
  strip_prefix p (t ++ LF :: Y) = (fun r => r ++ LF :: Y) <$> strip_prefix p t.
Proof.
  revert t; induction p as [|a p IH]; intros t Hp; [reflexivity|].
  apply not_elem_of_cons in Hp as [Ha Hp].
  destruct t as [|x t]; simpl.
  - destruct (Ascii.eqb_spec a LF) as [->|_]; [destruct Ha; reflexivity|reflexivity].
  - destruct (Ascii.eqb a x); [apply IH; exact Hp|reflexivity].
Qed.

Lemma drop_while_stop p t c Y :
  p c = false -> drop_while p (t ++ c :: Y) = drop_while p t ++ c :: Y.
Proof.
  intros Hc. induction t as [|x t IH]; simpl; [rewrite Hc; reflexivity|].
  destruct (p x); [exact IH|reflexivity].
Qed.

Lemma take_while_stop p t c Y :
  p c = false -> take_while p (t ++ c :: Y) = take_while p t.
Proof.
  intros Hc. induction t as [|x t IH]; simpl; [rewrite Hc; reflexivity|].
  destruct (p x); [rewrite IH; reflexivity|reflexivity].
Qed.

(** White space is skipped inside a text that ends solid, when any of it
    is left. *)
Lemma drop_space_solid t Z :
  ends_solid t -> t <> [] ->
  drop_while is_space (t ++ Z) = drop_while is_space t ++ Z
  /\ drop_while is_space t <> [] /\ ends_solid (drop_while is_space t).
Proof.
  intros Hs Hne.
  destruct (drop_while_suffix is_space t) as (a & Ht & Ha).
  assert (Hd : drop_while is_space t <> []).
  { intros E. rewrite E, app_nil_r in Ht. subst a.
    apply Hne, ends_solid_blank; assumption. }
  split_and!; [|exact Hd|].
  - clear Ht Hs Hne. induction t as [|x t IH]; [destruct Hd; reflexivity|].
    simpl in *. destruct (is_space x); [apply IH; exact Hd|reflexivity].
  - rewrite Ht in Hs. eapply ends_solid_suffix. exact Hs.
Qed.

Lemma harmless_nil : harmless [].
Proof. repeat split. Qed.

Lemma harmless_marker n rest : harmless (chunk_marker n ++ rest).
Proof. rewrite chunk_marker_parts. repeat split. Qed.

Lemma absent_by_test c l : forallb (fun x => negb (Ascii.eqb x c)) l = true -> c ∉ l.
Proof.
  induction l as [|x l IH]; simpl; intros H; [apply not_elem_of_nil|].
  apply andb_prop in H as [Hx Hl]. apply not_elem_of_cons. split; [|exact (IH Hl)].
  intros <-. rewrite Ascii.eqb_refl in Hx. discriminate.
Qed.

Lemma match_marker_across suf Y :
  ends_solid suf -> harmless Y ->
  match_marker (suf ++ [LF]) = None -> match_marker (suf ++ LF :: Y) = None.
Proof.
  intros Hs (HY1 & HY2 & HY3). unfold match_marker.
  destruct suf as [|x suf].
  { intros _. cbn [app]. change (strip_prefix (LF :: py "---") (LF :: Y))
      with (strip_prefix (py "---") Y). rewrite HY1. reflexivity. }
  cbn [app strip_prefix]. destruct (Ascii.eqb LF x); [|reflexivity].
  rewrite !strip_prefix_before_LF by (apply absent_by_test; reflexivity).
  destruct (strip_prefix (py "---") suf) as [t1|] eqn:E1; [|reflexivity].
  cbn [fmap option_fmap option_map].
  apply strip_prefix_Some in E1.
  assert (Hs1 : ends_solid t1).
  { apply (ends_solid_suffix (x :: py "---")). cbn [app]. rewrite <- E1. exact Hs. }
  clear Hs E1 x suf.
  (* white space, then the words *)
  destruct t1 as [|y t1].
  { intros _. cbn [app]. rewrite HY2. reflexivity. }
  destruct (drop_space_solid (y :: t1) [LF] Hs1 ltac:(discriminate)) as (D1 & _ & _).
  destruct (drop_space_solid (y :: t1) (LF :: Y) Hs1 ltac:(discriminate)) as (D2 & Hn2 & Hs2).
  rewrite D1, D2. clear D1 D2.
  set (t2 := drop_while is_space (y :: t1)) in *. clearbody t2. clear Hs1 y t1.
  rewrite !strip_prefix_before_LF by (apply absent_by_test; reflexivity).
  destruct (strip_prefix (py "Document Chunk ") t2) as [t3|] eqn:E3; [|reflexivity].
  cbn [fmap option_fmap option_map].
  apply strip_prefix_Some in E3.
  assert (Hs3 : ends_solid t3).
  { apply (ends_solid_suffix (py "Document Chunk ")). rewrite <- E3. exact Hs2. }
  clear Hs2 Hn2 E3 t2.
  (* the digits *)
  rewrite !(take_while_stop is_digit) by reflexivity.
  destruct (take_while is_digit t3) as [|d0 ds]; [reflexivity|].
  rewrite !(drop_while_stop is_digit) by reflexivity.
  destruct (drop_while_suffix is_digit t3) as (a & E4 & _).
  assert (Hs4 : ends_solid (drop_while is_digit t3)).
  { apply (ends_solid_suffix a). rewrite <- E4. exact Hs3. }
  set (t4 := drop_while is_digit t3) in *. clearbody t4. clear E4 Hs3 a t3.
  (* white space, then the closing hyphens and the line feed *)
  destruct t4 as [|z t4].
  { intros _. cbn [app]. rewrite HY3. reflexivity. }
  destruct (drop_space_solid (z :: t4) [LF] Hs4 ltac:(discriminate)) as (D1 & _ & _).
  destruct (drop_space_solid (z :: t4) (LF :: Y) Hs4 ltac:(discriminate)) as (D2 & Hn5 & _).
  rewrite D1, D2. clear D1 D2.
  set (t5 := drop_while is_space (z :: t4)) in *. clearbody t5. clear Hs4 z t4.
  destruct t5 as [|c1 [|c2 [|c3 [|c4 t6]]]]; [destruct Hn5; reflexivity|..];
    unfold py; cbn [list_ascii_of_string strip_prefix app];
    repeat match goal with
           | |- context [Ascii.eqb ?a ?b] => destruct (Ascii.eqb a b) eqn:?
           end;
    try reflexivity; try discriminate;
    match goal with
    | H : Ascii.eqb "-"%char LF = true |- _ => vm_compute in H; discriminate
    end.
Qed.

Lemma match_marker_no_rule s :
  strip_prefix (LF :: py "---") s = None -> match_marker s = None.
Proof. unfold match_marker. intros ->. reflexivity. Qed.

(** No match begins inside a storable chunk or at its line feed, whatever
    the loop writes next. *)
Lemma no_match_in_chunk c b a1 a2 :
  storable c -> marker_or_end b ->
  c ++ [LF] = a1 ++ a2 -> a2 <> [] ->
  match_marker (a2 ++ b) = None.
Proof.
  intros (_ & Hstrip & _ & Hm) Hb Hsplit Hne.
  pose proof (has_marker_suffix _ _ _ Hm Hsplit) as Hnone.
  destruct (exists_last Hne) as (suf & y & ->).
  rewrite app_assoc in Hsplit. apply app_inj_tail in Hsplit as [-> <-].
  destruct Hb as [->|(n & rest & ->)]; [rewrite app_nil_r; exact Hnone|].
  rewrite <- app_assoc. cbn [app]. apply match_marker_across.
  - apply (ends_solid_suffix a1). exact (proj2 (strip_fixed_ends _ Hstrip)).
  - apply harmless_marker.
  - exact Hnone.
Qed.

Lemma written_text_cons k c cs :
  written_text k (c :: cs) = chunk_marker (k + 1) ++ (c ++ [LF]) ++ written_text (k + 1) cs.
Proof.
  unfold written_text. cbn [imap concat]. rewrite Nat.add_0_r, <- !app_assoc.
  do 4 f_equal. apply imap_ext. intros j x _. cbn [compose]. do 2 f_equal. lia.
Qed.

Lemma written_text_marker_or_end k cs : marker_or_end (written_text k cs).
Proof.
  destruct cs as [|c cs]; [left; reflexivity|].
  right. rewrite written_text_cons. eauto.
Qed.

(** Splitting the written text at the markers gives back the empty piece
    before the first marker and then each chunk text with its line feed. *)
Lemma re_split_written_text k cs cur :
  Forall storable cs ->
  re_split_from cur (written_text k cs) = rev cur :: map (fun c => c ++ [LF]) cs.
Proof.
  intros H. revert k cur; induction H as [|c cs Hc _ IH]; intros k cur.
  - reflexivity.
  - rewrite written_text_cons, chunk_marker_cons. cbn [app].
    rewrite re_split_from_hit with (rest := (c ++ [LF]) ++ written_text (k + 1) cs).
    2:{ rewrite <- (match_marker_chunk_marker (k + 1)), chunk_marker_cons. reflexivity. }
    rewrite re_split_from_skip.
    2:{ intros a1 a2. apply no_match_in_chunk; [exact Hc|apply written_text_marker_or_end]. }
    rewrite IH, app_nil_r, rev_involutive. reflexivity.
Qed.

End RoundTrip.

Section RoundTripTheorem.

Context (env : Env).

Lemma path_join_suffix_ne a doc_id s1 s2 :
  s1 <> s2 ->
  path_join a (doc_id ++ "_"%char :: s1) <> path_join a (doc_id ++ "_"%char :: s2).
Proof.
  intros Hne. unfold path_join.
  destruct doc_id as [|x doc_id]; cbn [app].
  - change (Ascii.eqb "_" "/") with false. cbn iota.
    intros H. apply app_inv_head in H. apply app_inv_head in H.
    injection H as H. contradiction.
  - destruct (Ascii.eqb x "/"); intros H.
    + injection H as H. apply app_inv_head in H. injection H as H. contradiction.
    + apply app_inv_head in H. apply app_inv_head in H.
      injection H as H. apply app_inv_head in H. injection H as H. contradiction.
Qed.

Lemma artifact_paths_distinct doc_id :
  content_path_of doc_id <> chunks_path_of doc_id
  /\ content_path_of doc_id <> metadata_path_of doc_id
  /\ chunks_path_of doc_id <> metadata_path_of doc_id.
Proof.
  unfold content_path_of, chunks_path_of, metadata_path_of.
  split_and!; apply path_join_suffix_ne; discriminate.
Qed.

Lemma path_join_nonempty a b : a <> [] -> path_join a b <> [].
Proof.
  intros Ha. unfold path_join. destruct b as [|c b].
  - destruct a; [destruct Ha; reflexivity|discriminate].
  - destruct (Ascii.eqb c "/"); [discriminate|].
    destruct a; [destruct Ha; reflexivity|discriminate].
Qed.

Lemma page_content_imap (f : nat -> str -> Document) l :
  (forall i x, page_content (f i x) = strip x) ->
  map page_content (imap f l) = map strip l.
Proof.
  revert f; induction l as [|x l IH]; intros f Hf; [reflexivity|].
  cbn [imap map]. rewrite Hf, IH; [reflexivity|]. intros i y. apply Hf.
Qed.

Lemma filter_stored_pieces cs :
  Forall storable cs ->
  filter (fun chunk => strip chunk ≠ []) ([] :: map (fun c => c ++ [LF]) cs)
  = map (fun c => c ++ [LF]) cs.
Proof.
  intros H. rewrite filter_cons, decide_False by (intros Hn; apply Hn; reflexivity).
  induction H as [|c cs (Hne & Hstrip & _) _ IH]; [reflexivity|].
  cbn [map]. rewrite filter_cons, decide_True, IH; [reflexivity|].
  rewrite strip_app_LF; assumption.
Qed.

Lemma strip_stored_pieces cs :
  Forall storable cs -> map strip (map (fun c => c ++ [LF]) cs) = cs.
Proof.
  induction 1 as [|c cs (Hne & Hstrip & _) _ IH]; [reflexivity|].
  cbn [map]. rewrite IH, strip_app_LF; [reflexivity|assumption..].
Qed.

Lemma written_text_no_CR k cs : Forall storable cs -> CR ∉ written_text k cs.
Proof.
  intros H. revert k; induction H as [|c cs (_ & _ & Hcr & _) _ IH]; intros k.
  - apply not_elem_of_nil.
  - rewrite written_text_cons, !not_elem_of_app. split_and!.
    + apply chunk_marker_no_CR.
    + exact Hcr.
    + apply no_CR_by_test. reflexivity.
    + apply IH.
Qed.

Lemma full_text_written file_path doc_id split_docs :
  (chunk_loop file_path doc_id 0 split_docs [] []).2
  = written_text 0 (map page_content split_docs).
Proof.
  rewrite chunk_loop_text. unfold written_text. cbn [app]. f_equal.
  change (map page_content split_docs) with (page_content <$> split_docs).
  rewrite imap_fmap. reflexivity.
Qed.

(** C1, as amended.  When ingestion succeeds and every chunk text is
    storable (not empty, no white space at either end, no carriage return,
    no match of the chunk-marker pattern in the text followed by its line
    feed), loading the chunks back, with or without the path of the sidecar
    file, returns as many chunks with the same texts in the same order. *)
Theorem storable_chunks_load_back (file_path doc_id : str) (fs : FS)
    (split_docs : list Document) (ocr_used : bool) :
  extract env file_path (lower (splitext_ext file_path)) = Return (split_docs, ocr_used) ->
  content_path_of doc_id ∉ unwritable fs ->
  chunks_path_of doc_id ∉ unwritable fs ->
  metadata_path_of doc_id ∉ unwritable fs ->
  Forall storable (map page_content split_docs) ->
  exists fs',
    process_document env file_path doc_id fs
    = (fs', ProcSuccess doc_id (length split_docs) (lower (splitext_ext file_path)) ocr_used)
    /\ forall chunks_path,
         chunks_path = None \/ chunks_path = Some (chunks_path_of doc_id) ->
         exists docs,
           get_document_chunks env fs' (content_path_of doc_id) doc_id chunks_path
           = Return docs
           /\ map page_content docs = map page_content split_docs
           /\ length docs = length split_docs.
Proof.
  intros Hex H1 H2 H3 Hst.
  destruct (artifact_paths_distinct doc_id) as (D12 & D13 & D23).
  rewrite process_document_unfold, Hex. cbn [fst snd].
  rewrite persist_unfold. cbv zeta.
  rewrite !bool_decide_eq_false_2 by assumption.
  eexists. split; [reflexivity|].
  intros chunks_path Hcp.
  unfold get_document_chunks, get_document_chunks_body, read_text, json_load, path_exists.
  cbn [files].
  rewrite lookup_insert_ne by (intros E; apply D13; symmetry; exact E).
  rewrite lookup_insert_ne by (intros E; apply D12; symmetry; exact E).
  rewrite lookup_insert_eq. cbn [bind].
  assert (Hpath : match chunks_path with
                  | Some (c :: p) => c :: p
                  | _ => path_join (py "processed") (doc_id ++ py "_chunks.json")
                  end = chunks_path_of doc_id).
  { destruct Hcp as [->| ->]; [reflexivity|].
    pose proof (path_join_nonempty (py "processed") (doc_id ++ py "_chunks.json")) as Hn.
    fold (chunks_path_of doc_id) in Hn.
    destruct (chunks_path_of doc_id); [destruct Hn; [discriminate|reflexivity]|reflexivity]. }
  rewrite Hpath.
  rewrite lookup_insert_ne by (intros E; apply D23; symmetry; exact E).
  rewrite lookup_insert_eq.
  rewrite bool_decide_eq_true_2 by eauto. cbn [bind try_except].
  rewrite full_text_written.
  rewrite universal_newlines_id by (apply written_text_no_CR; exact Hst).
  unfold re_split. rewrite re_split_written_text by exact Hst.
  cbn [rev]. rewrite filter_stored_pieces by exact Hst.
  eexists. split; [reflexivity|]. split.
  - rewrite page_content_imap by reflexivity. apply strip_stored_pieces. exact Hst.
  - rewrite length_imap, !length_map. reflexivity.
Qed.

End RoundTripTheorem.

Lemma storable_by_test c :
  c <> [] -> strip c = c -> forallb (fun x => negb (Ascii.eqb x CR)) c = true ->
  has_marker (c ++ [LF]) = false -> storable c.
Proof. intros H1 H2 H3 H4. split_and!; [exact H1|exact H2|apply no_CR_by_test, H3|exact H4]. Qed.

(** A rule line inside a chunk does no harm as long as no marker follows
    it. *)
Example rule_line_is_storable :
  storable (py "Summary" ++ [LF] ++ py "---" ++ [LF] ++ py "Revenue grew.").
Proof. apply storable_by_test; solve [discriminate | vm_compute; reflexivity]. Qed.

Lemma storable_chunks_load_back_witness :
  exists docs,
    get_document_chunks (env_down search_first) fs_d1
      (content_path_of (py "d1")) (py "d1") None = Return docs
    /\ map page_content docs = [long_text; py "Second page text."]
    /\ length docs = 2.
Proof.
  destruct (storable_chunks_load_back (env_down search_first)
              (py "uploads/report.pdf") (py "d1") empty_fs
              [page 0 long_text; page 1 (py "Second page text.")] false)
    as (fs' & Hrun & Hload).
  - vm_compute. reflexivity.
  - apply not_elem_of_empty.
  - apply not_elem_of_empty.
  - apply not_elem_of_empty.
  - repeat constructor; apply storable_by_test;
      solve [discriminate | vm_compute; reflexivity].
  - unfold fs_d1. rewrite Hrun. apply (Hload None). left. reflexivity.
Defined.

(** C1, as stated, fails: a chunk saved with white space around it comes
    back stripped, and a chunk saved empty does not come back. *)
Lemma padded_chunk_counterexample :
  ~ roundtrip_lossless env_padded (py "uploads/report.pdf") (py "d3") empty_fs.
Proof.
  intros H.
  destruct (H [page 0 (py "  Revenue grew.  "); page 0 []] false) as (docs & Hload & Htexts).
  - vm_compute. reflexivity.
  - vm_compute in Hload. injection Hload as <-. vm_compute in Htexts. discriminate.
Qed.

(** Why the carriage return and the rule line are excluded: a carriage
    return inside a chunk is read back as a line feed, and a chunk that
    holds a marker line of its own is read back as two chunks. *)
Example carriage_return_read_as_line_feed :
  let env := mock_env (Return [page 0 long_text]) (Raise (py "no OCR engine"))
               (fun _ => Return [page 0 (py "a" ++ [CR] ++ py "b")])
               search_first (Return (py "answer")) in
  bind (get_document_chunks env
          (process_document env (py "uploads/report.pdf") (py "d4") empty_fs).1
          (content_path_of (py "d4")) (py "d4") None)
       (fun docs => Return (map page_content docs))
  = Return [py "a" ++ [LF] ++ py "b"].
Proof. vm_compute. reflexivity. Qed.

Example embedded_marker_splits_chunk :
  let env := mock_env (Return [page 0 long_text]) (Raise (py "no OCR engine"))
               (fun _ => Return [page 0 (py "x" ++ chunk_marker 7 ++ py "y")])
               search_first (Return (py "answer")) in
  bind (get_document_chunks env
          (process_document env (py "uploads/report.pdf") (py "d5") empty_fs).1
          (content_path_of (py "d5")) (py "d5") None)
       (fun docs => Return (map page_content docs))
  = Return [py "x"; py "y"].
Proof. vm_compute. reflexivity. Qed.

(* ===================================================================== *)
(** * Properties of the theme synthesis engine                            *)
(* ===================================================================== *)

#[global] Arguments theme_name : simpl never.
#[global] Arguments str_of_nat : simpl never.

Section ThemeNames.

Lemma match_sentence_none s :
  Forall (fun c => is_terminator c = false) s -> match_sentence s = None.
Proof.
  induction 1 as [|c s Hc _ IH]; [reflexivity|].
  simpl. rewrite Hc, IH. destruct (Ascii.eqb c LF); reflexivity.
Qed.

Lemma search_sentence_none s :
  Forall (fun c => is_terminator c = false) s -> search_sentence s = None.
Proof.
  induction 1 as [|c s Hc Hs IH]; [reflexivity|].
  cbn [search_sentence]. rewrite match_sentence_none by (constructor; assumption).
  exact IH.
Qed.

Lemma match_sentence_hit sentence c rest :
  Forall (fun x => is_terminator x = false /\ x <> LF) sentence ->
  is_terminator c = true ->
  match_sentence (sentence ++ c :: rest) = Some (sentence ++ [c]).
Proof.
  intros Hs Hc. induction Hs as [|x s [Hx Hlf] _ IH]; simpl.
  - rewrite Hc. reflexivity.
  - rewrite Hx, IH. destruct (Ascii.eqb_spec x LF) as [->|_]; [destruct Hlf|]; reflexivity.
Qed.

Lemma search_sentence_hit s m : match_sentence s = Some m -> search_sentence s = Some m.
Proof. intros H. destruct s; cbn [search_sentence]; rewrite H; reflexivity. Qed.

(** No match begins inside a line that ends without a terminator. *)
Lemma match_sentence_blocked l rest :
  Forall (fun c => is_terminator c = false) l -> LF ∈ l ->
  match_sentence (l ++ rest) = None.
Proof.
  intros Hl Hin. induction Hl as [|x l Hx _ IH]; [inversion Hin|].
  simpl. rewrite Hx. destruct (Ascii.eqb_spec x LF) as [->|Hne]; [reflexivity|].
  rewrite IH; [reflexivity|].
  apply elem_of_cons in Hin as [Heq|Hin]; [congruence|exact Hin].
Qed.

Lemma search_sentence_skip_lines lines rest :
  Forall (fun c => is_terminator c = false) lines ->
  lines = [] \/ last lines = Some LF ->
  search_sentence (lines ++ rest) = search_sentence rest.
Proof.
  intros Hl. induction Hl as [|x l Hx Hl IH]; intros Hend; [reflexivity|].
  destruct Hend as [[=]|Hend].
  assert (Hin : LF ∈ x :: l).
  { apply list_elem_of_lookup. exists (length l). rewrite <- Hend.
    rewrite last_lookup. reflexivity. }
  assert (Hb : match_sentence ((x :: l) ++ rest) = None).
  { apply match_sentence_blocked; [constructor; assumption|exact Hin]. }
  cbn [app] in Hb. cbn [app search_sentence]. rewrite Hb.
  apply IH. destruct l as [|y l]; [left; reflexivity|right; exact Hend].
Qed.

Lemma theme_name_length content :
  length (theme_name content) <= 53
  /\ (search_sentence content <> None -> length (theme_name content) <= 50).
Proof.
  unfold theme_name. destruct (search_sentence content) as [m|].
  - assert (length (if 50 <? length m then take 47 m ++ py "..." else m) <= 50).
    { destruct (Nat.ltb_spec 50 (length m)); [|lia].
      rewrite length_app, length_take. change (length (py "...")) with 3. lia. }
    split; [lia|]. intros _. assumption.
  - split; [|intros H; destruct H; reflexivity].
    destruct (Nat.ltb_spec 50 (length content)); [|lia].
    rewrite length_app, length_take. change (length (py "...")) with 3. lia.
Qed.

(** C8, as amended.  The name of a theme is ["Theme <i+1>: "] followed by a
    label computed from the chunk text.  When the text has no terminator,
    the label is the text itself if it has at most 50 characters, and its
    first 50 characters followed by ["..."] otherwise.  When the first
    terminator of the text has no line feed before it, the label is the
    prefix of the text up to and including that terminator, kept whole if
    it has at most 50 characters and cut to its first 47 characters
    followed by ["..."] otherwise, so at most 50 characters long. *)
Theorem theme_name_from_first_sentence (i : nat) (result : Document) (theme : Theme) :
  make_theme i result = Return theme ->
  name theme = py "Theme " ++ str_of_nat (i + 1) ++ py ": "
                 ++ theme_name (page_content result)
  /\ description theme = page_content result
  /\ (Forall (fun c => is_terminator c = false) (page_content result) ->
      theme_name (page_content result)
      = if 50 <? length (page_content result)
        then take 50 (page_content result) ++ py "..."
        else page_content result)
  /\ (forall sentence c rest,
        page_content result = sentence ++ c :: rest ->
        Forall (fun x => is_terminator x = false /\ x <> LF) sentence ->
        is_terminator c = true ->
        first_sentence_prefix (page_content result) = Some (sentence ++ [c])
        /\ theme_name (page_content result)
           = (if 50 <? length (sentence ++ [c])
              then take 47 (sentence ++ [c]) ++ py "..."
              else sentence ++ [c])
        /\ theme_name (page_content result) = specified_theme_name (page_content result)
        /\ length (theme_name (page_content result)) <= 50).
Proof.
  unfold make_theme. intros H.
  destruct (getitem (metadata result) "doc_id") as [doc_id|]; [|discriminate].
  destruct (getitem (metadata result) "citation") as [cit|]; [|discriminate].
  cbn [bind] in H. injection H as <-. cbn [name description].
  split_and!; [reflexivity|reflexivity| |].
  - intros Hn. unfold theme_name. rewrite search_sentence_none by exact Hn. reflexivity.
  - intros sentence c rest Hc Hs Ht.
    assert (Hfirst : first_sentence_prefix (page_content result) = Some (sentence ++ [c])).
    { rewrite Hc. clear Hc. induction Hs as [|x s [Hx _] _ IH]; simpl.
      - rewrite Ht. reflexivity.
      - rewrite Hx, IH. reflexivity. }
    assert (Hname : theme_name (page_content result)
                    = (if 50 <? length (sentence ++ [c])
                       then take 47 (sentence ++ [c]) ++ py "..."
                       else sentence ++ [c])).
    { unfold theme_name. rewrite Hc.
      rewrite (search_sentence_hit _ _ (match_sentence_hit sentence c rest Hs Ht)).
      reflexivity. }
    split_and!; [exact Hfirst|exact Hname| |].
    + unfold specified_theme_name. rewrite Hfirst. exact Hname.
    + apply theme_name_length. unfold theme_name in Hname.
      rewrite Hc, (search_sentence_hit _ _ (match_sentence_hit sentence c rest Hs Ht)).
      discriminate.
Qed.

End ThemeNames.

Lemma theme_name_from_first_sentence_witness :
  theme_name (py "Revenue grew. Costs fell.") = py "Revenue grew."
  /\ name (mkTheme (py "Theme 1: Revenue grew.") (py "Revenue grew. Costs fell.")
             [VStr (py "d1")] [VStr (py "Page 0, Chunk 1")])
     = py "Theme " ++ str_of_nat (0 + 1) ++ py ": "
         ++ theme_name (py "Revenue grew. Costs fell.").
Proof.
  destruct (theme_name_from_first_sentence 0
              (chunk_of (py "d1") 1 (py "Revenue grew. Costs fell."))
              (mkTheme (py "Theme 1: Revenue grew.") (py "Revenue grew. Costs fell.")
                 [VStr (py "d1")] [VStr (py "Page 0, Chunk 1")]))
    as (Hname & _ & _ & Hsentence).
  - vm_compute. reflexivity.
  - split; [|exact Hname].
    destruct (Hsentence (py "Revenue grew") "."%char (py " Costs fell."))
      as (_ & Hlabel & _).
    + reflexivity.
    + repeat constructor; discriminate.
    + reflexivity.
    + exact Hlabel.
Defined.

(** C8, as stated, fails: for a text of 60 letters without a terminator
    the name is not the first 50 characters; the label keeps them and adds
    ["..."], 53 characters in all, after the prefix ["Theme 1: "]. *)
Lemma theme_name_counterexample :
  first_sentence_prefix run_on_text = None
  /\ specified_theme_name run_on_text = take 50 run_on_text
  /\ theme_name run_on_text = take 50 run_on_text ++ py "..."
  /\ theme_name run_on_text <> specified_theme_name run_on_text
  /\ (exists theme,
        make_theme 0 (chunk_of (py "d1") 1 run_on_text) = Return theme
        /\ name theme = py "Theme 1: " ++ take 50 run_on_text ++ py "..."
        /\ name theme <> specified_theme_name run_on_text).
Proof.
  split_and!; try (vm_compute; reflexivity).
  - vm_compute. discriminate.
  - eexists. split_and!; [vm_compute; reflexivity|vm_compute; reflexivity|].
    vm_compute. discriminate.
Qed.

Section ThemeInvariant.

Context (env : Env).

Lemma getitem_Return d key v : getitem d key = Return v -> d !! key = Some v.
Proof. unfold getitem. destruct (d !! key); [intros [= <-]; reflexivity|discriminate]. Qed.

Lemma make_theme_inv (P : pyval * pyval -> Prop) i d theme :
  (forall p, source_pair d = Some p -> P p) ->
  make_theme i d = Return theme -> theme_inv P theme.
Proof.
  intros HP. unfold make_theme.
  destruct (getitem (metadata d) "doc_id") as [doc_id|] eqn:E1; [|discriminate].
  destruct (getitem (metadata d) "citation") as [cit|] eqn:E2; [|discriminate].
  cbn [bind]. intros [= <-].
  apply getitem_Return in E1, E2.
  unfold theme_inv. cbn [supporting_documents citations]. split; [|split].
  - reflexivity.
  - apply NoDup_singleton.
  - constructor; [|constructor]. apply HP. unfold source_pair. rewrite E1, E2. reflexivity.
Qed.

Lemma expand_step_inv (P : pyval * pyval -> Prop) theme d theme' :
  (forall p, source_pair d = Some p -> P p) ->
  theme_inv P theme ->
  expand_step theme d = Return theme' ->
  theme_inv P theme'
  /\ description theme' = description theme
  /\ (forall doc_id, metadata d !! "doc_id" = Some doc_id ->
        doc_id ∈ supporting_documents theme -> theme' = theme)
  /\ (forall doc_id citation,
        source_pair d = Some (doc_id, citation) ->
        doc_id ∉ supporting_documents theme ->
        supporting_documents theme' = supporting_documents theme ++ [doc_id]
        /\ citations theme' = citations theme ++ [citation]).
Proof.
  intros HP (Hlen & Hnd & Hal). unfold expand_step.
  destruct (getitem (metadata d) "doc_id") as [doc_id|] eqn:E1; [|discriminate].
  destruct (getitem (metadata d) "citation") as [cit|] eqn:E2; [|discriminate].
  cbn [bind]. apply getitem_Return in E1, E2.
  assert (Hsrc : source_pair d = Some (doc_id, cit)).
  { unfold source_pair. rewrite E1, E2. reflexivity. }
  case_bool_decide as Hin; intros [= <-].
  - split; [|split; [|split]].
    + unfold theme_inv. auto.
    + reflexivity.
    + reflexivity.
    + intros id' c' Hs Hn. rewrite Hsrc in Hs. injection Hs as <- <-. contradiction.
  - split; [|split; [|split]]; cbn [supporting_documents citations description].
    + unfold theme_inv. cbn [supporting_documents citations]. split; [|split].
      * rewrite !length_app, Hlen. reflexivity.
      * apply NoDup_app. split; [exact Hnd|]. split; [|apply NoDup_singleton].
        intros x Hx Hx'. apply list_elem_of_singleton in Hx'. subst x. contradiction.
      * rewrite zip_with_app by exact Hlen. apply Forall_app. split; [exact Hal|].
        constructor; [|constructor]. apply HP. exact Hsrc.
    + reflexivity.
    + intros id' E. rewrite E1 in E. injection E as <-. contradiction.
    + intros id' c' Hs _. rewrite Hsrc in Hs. injection Hs as <- <-. split; reflexivity.
Qed.

Lemma expand_loop_inv (P : pyval * pyval -> Prop) similar theme theme' :
  Forall (fun d => forall p, source_pair d = Some p -> P p) similar ->
  theme_inv P theme ->
  expand_loop theme similar = Return theme' ->
  theme_inv P theme'.
Proof.
  intros Hs. revert theme; induction Hs as [|d similar Hd _ IH]; intros theme Hinv; simpl.
  - intros [= <-]. exact Hinv.
  - destruct (expand_step theme d) as [t1|] eqn:E; [|discriminate]. cbn [bind].
    apply IH. exact (proj1 (expand_step_inv P theme d t1 Hd Hinv E)).
Qed.

Lemma retrieved_sources db query k docs :
  query_vector_db env db query k = Return docs ->
  Forall (fun d => forall p, source_pair d = Some p -> retrieved_from env db p) docs.
Proof.
  intros H. apply Forall_forall. intros d Hd p Hp. exists query, k, docs, d. auto.
Qed.

Lemma make_themes_inv db i top themes :
  Forall (fun d => forall p, source_pair d = Some p -> retrieved_from env db p) top ->
  make_themes i top = Return themes ->
  Forall (theme_inv (retrieved_from env db)) themes.
Proof.
  intros Ht. revert i themes; induction Ht as [|d top Hd _ IH]; intros i themes; simpl.
  - intros [= <-]. constructor.
  - destruct (make_theme i d) as [t|] eqn:E; [|discriminate]. cbn [bind].
    destruct (make_themes (i + 1) top) as [ts|] eqn:E'; [|discriminate]. cbn [bind].
    intros [= <-]. constructor; [|eapply IH; exact E'].
    eapply make_theme_inv; [exact Hd|exact E].
Qed.

Lemma expand_themes_inv db themes themes' :
  Forall (theme_inv (retrieved_from env db)) themes ->
  expand_themes env db themes = Return themes' ->
  Forall (theme_inv (retrieved_from env db)) themes'.
Proof.
  intros Ht. revert themes'; induction Ht as [|t themes Hinv _ IH]; intros themes'; simpl.
  - intros [= <-]. constructor.
  - destruct (query_vector_db env db (description t) 10) as [similar|] eqn:Es;
      [|discriminate]. cbn [bind].
    destruct (expand_loop t (tail similar)) as [t'|] eqn:El; [|discriminate]. cbn [bind].
    destruct (expand_themes env db themes) as [ts|] eqn:Et; [|discriminate]. cbn [bind].
    intros [= <-]. constructor; [|apply IH; reflexivity].
    eapply expand_loop_inv; [|exact Hinv|exact El].
    apply retrieved_sources in Es.
    destruct similar as [|s0 similar]; [constructor|].
    apply Forall_cons in Es as [_ Es]. exact Es.
Qed.

Lemma build_themes_inv db query top_n themes :
  build_themes env db query top_n = Return themes ->
  Forall (theme_inv (retrieved_from env db)) themes.
Proof.
  unfold build_themes.
  destruct (query_vector_db env db query top_n) as [top|] eqn:Et; [|discriminate].
  cbn [bind].
  destruct (make_themes 0 top) as [ts|] eqn:Em; [|discriminate]. cbn [bind].
  apply expand_themes_inv. eapply make_themes_inv; [|exact Em].
  eapply retrieved_sources. exact Et.
Qed.

Lemma single_document_inv r document_results :
  r ∈ document_results ->
  Forall (theme_inv (given_by document_results)) (themes (single_document_result r)).
Proof.
  intros Hr. constructor; [|constructor].
  unfold theme_inv. cbn [supporting_documents citations]. split; [|split].
  - reflexivity.
  - apply NoDup_singleton.
  - constructor; [|constructor]. exists r. split; [exact Hr|reflexivity].
Qed.

Lemma theme_inv_weaken (P Q : pyval * pyval -> Prop) theme :
  (forall p, P p -> Q p) -> theme_inv P theme -> theme_inv Q theme.
Proof.
  intros HPQ (H1 & H2 & H3). split; [exact H1|]. split; [exact H2|].
  eapply Forall_impl; [exact H3|exact HPQ].
Qed.

(** C9. At its creation from one chunk, after every expansion step, and in
    what either variant of theme synthesis returns, a theme has a
    supporting-document list and a citation list of equal length, no
    document id twice, and at every index the document id and the citation
    of one and the same source (a retrieved chunk, or the per-document
    result in the single-document case).  An expansion step leaves the theme
    as it is when the chunk's document id is already listed, and otherwise
    appends the id and the citation together. *)
Theorem theme_lists_stay_aligned :
  (forall P i d theme,
      (forall p, source_pair d = Some p -> P p) ->
      make_theme i d = Return theme ->
      theme_inv P theme /\ length (supporting_documents theme) = 1)
  /\ (forall P theme d theme',
        (forall p, source_pair d = Some p -> P p) ->
        theme_inv P theme ->
        expand_step theme d = Return theme' ->
        theme_inv P theme'
        /\ (forall doc_id, metadata d !! "doc_id" = Some doc_id ->
              doc_id ∈ supporting_documents theme -> theme' = theme)
        /\ (forall doc_id citation,
              source_pair d = Some (doc_id, citation) ->
              doc_id ∉ supporting_documents theme ->
              supporting_documents theme' = supporting_documents theme ++ [doc_id]
              /\ citations theme' = citations theme ++ [citation]))
  /\ (forall fs query document_results top_n result,
        identify_themes env fs query document_results top_n = Return result
        \/ identify_themes_modern env fs query document_results top_n = Return result ->
        Forall (theme_inv (theme_source env fs document_results)) (themes result)).
Proof.
  split_and!.
  - intros P i d theme HP H. split; [eapply make_theme_inv; eassumption|].
    unfold make_theme in H.
    destruct (getitem _ "doc_id"); [|discriminate].
    destruct (getitem _ "citation"); [|discriminate].
    injection H as <-. reflexivity.
  - intros P theme d theme' HP Hinv H.
    destruct (expand_step_inv P theme d theme' HP Hinv H) as (H1 & _ & H2 & H3). auto.
  - intros fs query document_results top_n result H.
    assert (Hcommon :
      forall (finish : list Theme -> outcome theme_result),
        (forall ts r, finish ts = Return r -> themes r = ts) ->
        match document_results with
        | [] => Return (mkThemeResult [] (py "No documents were processed for this query."))
        | [r] => Return (single_document_result r)
        | _ =>
            multi_doc_db <- create_multi_document_vector_db env fs
                              (map dr_doc_id document_results);;
            match multi_doc_db with
            | None =>
                Return (mkThemeResult []
                  (py "Error: Could not create vector database for theme identification."))
            | Some _ =>
                ts <- build_themes env multi_doc_db query top_n;; finish ts
            end
        end = Return result ->
        Forall (theme_inv (theme_source env fs document_results)) (themes result)).
    { intros finish Hfin Hrun.
      destruct document_results as [|r [|r' rest]].
      - injection Hrun as <-. constructor.
      - injection Hrun as <-.
        eapply Forall_impl; [apply (single_document_inv r [r]); left|].
        intros t. apply theme_inv_weaken. intros p Hp. left. exact Hp.
      - destruct (create_multi_document_vector_db env fs _) as [[index|]|] eqn:Edb;
          cbn [bind] in Hrun; [|injection Hrun as <-; constructor|discriminate].
        destruct (build_themes env (Some index) query top_n) as [ts|] eqn:Eb;
          [|discriminate]. cbn [bind] in Hrun.
        rewrite (Hfin _ _ Hrun).
        eapply Forall_impl; [exact (build_themes_inv _ _ _ _ Eb)|].
        intros t. apply theme_inv_weaken. intros p Hp. right. eauto. }
    destruct H as [H|H].
    + apply (Hcommon (fun ts =>
               _ <- ChatOpenAI env;;
               themes_text <- format_themes 0 ts [];;
               Return (mkThemeResult ts
                 match synthesis_invoke env query themes_text with
                 | Return (RespDict (Some text) _) => text
                 | Return (RespDict None repr) => repr
                 | Return (RespOther repr) => repr
                 | Raise _ => synthesis_fallback (length ts)
                                (length (map dr_doc_id document_results)) query
                 end))).
      * intros ts r. destruct (ChatOpenAI env); [|discriminate]. cbn [bind].
        destruct (format_themes 0 ts []); [|discriminate]. cbn [bind].
        intros [= <-]. reflexivity.
      * exact H.
    + apply (Hcommon (fun ts =>
               themes_text <- format_themes 0 ts [];;
               Return (mkThemeResult ts
                 match modern_synthesis_invoke env query themes_text with
                 | Return response => response
                 | Raise _ => synthesis_fallback (length ts)
                                (length (map dr_doc_id document_results)) query
                 end))).
      * intros ts r. destruct (format_themes 0 ts []); [|discriminate]. cbn [bind].
        intros [= <-]. reflexivity.
      * exact H.
Qed.

End ThemeInvariant.

Section BlankText.

Lemma universal_newlines_blank_upto n s :
  length s <= n ->
  Forall (fun c => is_space c = true) s ->
  Forall (fun c => is_space c = true) (universal_newlines s).
Proof.
  revert s; induction n as [|n IH]; intros s Hn H.
  - destruct s; [constructor|simpl in Hn; lia].
  - destruct H as [|c s Hc Hs]; [constructor|]. simpl in Hn. simpl.
    destruct (Ascii.eqb c CR).
    + destruct Hs as [|c' s' Hc' Hs']; [repeat constructor|]. simpl in Hn.
      destruct (Ascii.eqb c' LF).
      * constructor; [reflexivity|]. apply IH; [lia|exact Hs'].
      * constructor; [reflexivity|]. apply IH; [simpl; lia|constructor; assumption].
    + constructor; [exact Hc|]. apply IH; [lia|exact Hs].
Qed.

Lemma universal_newlines_blank s :
  Forall (fun c => is_space c = true) s ->
  Forall (fun c => is_space c = true) (universal_newlines s).
Proof. apply (universal_newlines_blank_upto (length s)). reflexivity. Qed.

Lemma match_marker_blank s :
  Forall (fun c => is_space c = true) s -> match_marker s = None.
Proof.
  intros H. apply match_marker_no_rule.
  destruct H as [|x s Hx [|y s' Hy _]]; [reflexivity| |].
  - unfold py. cbn [list_ascii_of_string strip_prefix]. destruct (Ascii.eqb LF x); reflexivity.
  - unfold py. cbn [list_ascii_of_string strip_prefix]. destruct (Ascii.eqb LF x); [|reflexivity].
    destruct (Ascii.eqb_spec "-"%char y) as [<-|_]; [discriminate|reflexivity].
Qed.

Lemma strip_blank s : Forall (fun c => is_space c = true) s -> strip s = [].
Proof.
  intros H. unfold strip, rstrip, lstrip.
  assert (E : drop_while is_space s = []).
  { induction H as [|c s Hc _ IH]; [reflexivity|]. simpl. rewrite Hc. exact IH. }
  rewrite E. reflexivity.
Qed.

(** A persisted text of white space only, the empty text included, holds
    no chunk. *)
Lemma blank_text_has_no_chunk s :
  Forall (fun c => is_space c = true) s -> no_chunk_text s.
Proof.
  intros H. apply universal_newlines_blank in H. unfold no_chunk_text, re_split.
  rewrite <- (app_nil_r (universal_newlines s)), re_split_from_skip.
  - simp re_split_from. constructor; [|constructor].
    rewrite app_nil_r, rev_involutive. apply strip_blank. exact H.
  - intros a1 a2 E _. rewrite app_nil_r. apply match_marker_blank.
    rewrite E in H. apply Forall_app in H as [_ H]. exact H.
Qed.

End BlankText.

(** A run of the multi-document path: four themes, one per chunk, each
    expanded to both documents, with one citation per document. *)
Example identify_themes_run :
  bind (identify_themes env_two fs_two (py "revenue?") results_two 5)
       (fun r => Return (map (fun t => (supporting_documents t, citations t)) (themes r),
                         synthesized_answer r))
  = Return
      ([ ([VStr (py "d1"); VStr (py "d2")],
          [VStr (py "Page 0, Chunk 1"); VStr (py "Page 0, Chunk 1")]);
         ([VStr (py "d1"); VStr (py "d2")],
          [VStr (py "Page 1, Chunk 2"); VStr (py "Page 0, Chunk 1")]);
         ([VStr (py "d2"); VStr (py "d1")],
          [VStr (py "Page 0, Chunk 1"); VStr (py "Page 1, Chunk 2")]);
         ([VStr (py "d2"); VStr (py "d1")],
          [VStr (py "Page 1, Chunk 2"); VStr (py "Page 1, Chunk 2")]) ],
       py "Revenue grew while costs stayed flat.").
Proof. vm_compute. reflexivity. Qed.

(* ===================================================================== *)
(** * Further properties of ingestion                                     *)
(* ===================================================================== *)

Section IngestionEdges.

Context (env : Env).

Lemma load_documents_unsupported file_path file_ext :
  file_ext <> py ".pdf" -> file_ext ∉ image_exts ->
  load_documents env file_path file_ext = Raise (py "Unsupported file type: " ++ file_ext).
Proof.
  intros Hpdf Himg. unfold load_documents.
  rewrite bool_decide_eq_false_2 by exact Hpdf.
  rewrite bool_decide_eq_false_2 by exact Himg. reflexivity.
Qed.

Lemma process_document_unsupported file_path doc_id fs :
  lower (splitext_ext file_path) <> py ".pdf" ->
  lower (splitext_ext file_path) ∉ image_exts ->
  process_document env file_path doc_id fs
  = (fs, ProcError doc_id (py "Unsupported file type: " ++ lower (splitext_ext file_path))).
Proof.
  intros Hpdf Himg. rewrite process_document_unfold. unfold extract.
  rewrite load_documents_unsupported by assumption. reflexivity.
Qed.

(** X1.  A file whose lower-cased extension is neither [.pdf] nor one of the
    five image extensions is refused before any loader or the splitter is
    called, whatever they would do: extraction raises, the error record
    names the extension, and the store is left as it was. *)
Theorem unsupported_type_is_rejected (file_path doc_id : str) (fs : FS) :
  lower (splitext_ext file_path) <> py ".pdf" ->
  lower (splitext_ext file_path) ∉ image_exts ->
  process_document env file_path doc_id fs
  = (fs, ProcError doc_id (py "Unsupported file type: " ++ lower (splitext_ext file_path)))
  /\ extract env file_path (lower (splitext_ext file_path))
     = Raise (py "Unsupported file type: " ++ lower (splitext_ext file_path)).
Proof.
  intros Hpdf Himg. split; [apply process_document_unsupported; assumption|].
  unfold extract. rewrite load_documents_unsupported by assumption. reflexivity.
Qed.

(** X2.  When the text loader raises on a [.pdf] file, the OCR loader is run
    in its place.  If that raises too, the error record carries the OCR
    loader's message (never the text loader's) and nothing is written;
    otherwise every success record has [ocr_used = True] and counts the
    chunks of the OCR result. *)
Theorem pdf_loader_failure_uses_ocr (file_path doc_id : str) (fs : FS) (e : str) :
  lower (splitext_ext file_path) = py ".pdf" ->
  PyPDFLoader_load env file_path = Raise e ->
  match UnstructuredPDFLoader_load env file_path with
  | Raise e_ocr =>
      process_document env file_path doc_id fs = (fs, ProcError doc_id e_ocr)
  | Return ocr_documents =>
      load_documents env file_path (py ".pdf") = Return (ocr_documents, true)
      /\ (forall fs' r,
            process_document env file_path doc_id fs = (fs', r) ->
            (exists e', r = ProcError doc_id e')
            \/ exists split_docs,
                 split_step env ocr_documents = Return split_docs
                 /\ r = ProcSuccess doc_id (length split_docs) (py ".pdf") true)
      /\ (forall split_docs,
            split_step env ocr_documents = Return split_docs ->
            content_path_of doc_id ∉ unwritable fs ->
            chunks_path_of doc_id ∉ unwritable fs ->
            metadata_path_of doc_id ∉ unwritable fs ->
            (process_document env file_path doc_id fs).2
            = ProcSuccess doc_id (length split_docs) (py ".pdf") true)
  end.
Proof.
  intros Hext Hfast.
  assert (E : load_documents env file_path (py ".pdf")
              = (documents <- UnstructuredPDFLoader_load env file_path;;
                 Return (documents, true))).
  { unfold load_documents. rewrite bool_decide_eq_true_2 by reflexivity.
    rewrite Hfast. reflexivity. }
  rewrite process_document_unfold, Hext. unfold extract. rewrite E.
  destruct (UnstructuredPDFLoader_load env file_path) as [ocr_documents|e_ocr];
    cbn [bind fst snd]; [|reflexivity].
  split_and!; [reflexivity| |].
  - intros fs' r. destruct (split_step env ocr_documents) as [split_docs|e'];
      cbn [bind fst snd].
    + intros H. apply persist_result in H as [H | ->]; [left; exact H|].
      right. eexists. split; reflexivity.
    + intros [= _ <-]. left. eexists. reflexivity.
  - intros split_docs -> H1 H2 H3. cbn [bind fst snd]. rewrite persist_unfold. cbv zeta.
    rewrite !bool_decide_eq_false_2 by assumption. reflexivity.
Qed.

End IngestionEdges.

Lemma unsupported_type_is_rejected_witness :
  process_document env_two (py "uploads/notes.txt") (py "d9") empty_fs
  = (empty_fs, ProcError (py "d9") (py "Unsupported file type: .txt")).
Proof.
  destruct (unsupported_type_is_rejected env_two (py "uploads/notes.txt") (py "d9") empty_fs)
    as [H _].
  - vm_compute. discriminate.
  - apply (bool_decide_unpack _). vm_compute. exact I.
  - exact H.
Defined.

Lemma pdf_loader_failure_uses_ocr_witness :
  (process_document env_broken_pdf (py "uploads/scan.pdf") (py "d6") empty_fs).2
  = ProcSuccess (py "d6") 1 (py ".pdf") true.
Proof.
  pose proof (pdf_loader_failure_uses_ocr env_broken_pdf (py "uploads/scan.pdf") (py "d6")
                empty_fs (py "not a PDF")) as H.
  change (UnstructuredPDFLoader_load env_broken_pdf (py "uploads/scan.pdf"))
    with (@Return (list Document) [bare long_text]) in H.
  cbv iota in H.
  destruct H as (_ & _ & Hrun).
  - vm_compute. reflexivity.
  - reflexivity.
  - apply (Hrun [bare long_text]).
    + reflexivity.
    + apply not_elem_of_empty.
    + apply not_elem_of_empty.
    + apply not_elem_of_empty.
Defined.

Section Isolation.

Context (env : Env).

(** Two texts that differ within their last [n] characters stay different
    whatever is put before them. *)
Lemma app_suffix_ne (a b s1 s2 : str) (n : nat) :
  n <= length s1 -> n <= length s2 ->
  take n (rev s1) <> take n (rev s2) ->
  a ++ s1 <> b ++ s2.
Proof.
  intros H1 H2 Hne E. apply Hne.
  apply (f_equal (fun l => take n (rev l))) in E.
  rewrite !rev_app_distr in E.
  rewrite !take_app_le in E by (rewrite length_rev; assumption). exact E.
Qed.

(** [os.path.join('processed', b)] determines [b]. *)
Lemma path_join_processed_inj b1 b2 :
  path_join (py "processed") b1 = path_join (py "processed") b2 -> b1 = b2.
Proof.
  unfold path_join.
  destruct b1 as [|c1 b1], b2 as [|c2 b2]; try reflexivity.
  - destruct (Ascii.eqb_spec c2 "/") as [->|_]; [discriminate|].
    intros H. apply app_inv_head in H. discriminate.
  - destruct (Ascii.eqb_spec c1 "/") as [->|_]; [discriminate|].
    intros H. apply app_inv_head in H. discriminate.
  - destruct (Ascii.eqb_spec c1 "/") as [->|_], (Ascii.eqb_spec c2 "/") as [->|_].
    + auto.
    + discriminate.
    + discriminate.
    + intros H. apply app_inv_head in H. apply app_inv_head in H. exact H.
Qed.

(** The artifact paths of two different documents are all different. *)
Lemma artifact_paths_apart doc_id other :
  other <> doc_id ->
  Forall (fun p => p <> content_path_of doc_id /\ p <> chunks_path_of doc_id
                   /\ p <> metadata_path_of doc_id)
    [content_path_of other; chunks_path_of other; metadata_path_of other].
Proof.
  intros Hne. unfold content_path_of, chunks_path_of, metadata_path_of.
  repeat constructor; intros H; apply path_join_processed_inj in H;
    first [ apply app_inv_tail in H; contradiction
          | revert H; apply (app_suffix_ne _ _ _ _ 7); vm_compute; first [lia | discriminate] ].
Qed.

(** What ingestion leaves alone in the store. *)
Lemma process_document_frame file_path doc_id fs :
  unwritable (process_document env file_path doc_id fs).1 = unwritable fs
  /\ forall p,
       p <> content_path_of doc_id ->
       p <> chunks_path_of doc_id ->
       p <> metadata_path_of doc_id ->
       files (process_document env file_path doc_id fs).1 !! p = files fs !! p.
Proof.
  rewrite process_document_unfold.
  destruct (extract env file_path _) as [[split_docs ocr_used]|e]; [|split; reflexivity].
  cbn [fst snd]. rewrite persist_unfold. cbv zeta.
  repeat case_bool_decide; cbn [to_result fst files unwritable];
    (split; [reflexivity|]); intros p Hp1 Hp2 Hp3;
    rewrite ?lookup_insert_ne by (intros E; symmetry in E; contradiction);
    reflexivity.
Qed.

Lemma process_document_keeps_artifacts file_path doc_id other fs :
  other <> doc_id ->
  artifacts (process_document env file_path doc_id fs).1 other = artifacts fs other.
Proof.
  intros Hne. destruct (process_document_frame file_path doc_id fs) as [_ Hf].
  pose proof (artifact_paths_apart doc_id other Hne) as Hp.
  rewrite !Forall_cons in Hp.
  destruct Hp as ((A1 & A2 & A3) & (B1 & B2 & B3) & (C1 & C2 & C3) & _).
  unfold artifacts. rewrite !Hf by assumption. reflexivity.
Qed.

(** X3.  For a document id without a slash, ingestion writes to the three
    artifact files of its own document and to nothing else under
    [processed/]: every other file name without a slash keeps what it
    held, the three artifacts of every other document id without a slash
    are unchanged, and the set of paths that cannot be written is the same
    afterwards. *)
Theorem other_documents_untouched (file_path doc_id : str) (fs : FS) :
  plain_name doc_id ->
  let fs' := (process_document env file_path doc_id fs).1 in
  unwritable fs' = unwritable fs
  /\ (forall name,
        plain_name name ->
        name <> doc_id ++ py "_content.txt" ->
        name <> doc_id ++ py "_chunks.json" ->
        name <> doc_id ++ py "_metadata.json" ->
        files fs' !! path_join (py "processed") name
        = files fs !! path_join (py "processed") name)
  /\ (forall other,
        plain_name other -> other <> doc_id -> artifacts fs' other = artifacts fs other).
Proof.
  intros _. cbv zeta. destruct (process_document_frame file_path doc_id fs) as [Hu Hf].
  split_and!; [exact Hu| |].
  - intros name _ H1 H2 H3. apply Hf; unfold content_path_of, chunks_path_of, metadata_path_of;
      intros E; apply path_join_processed_inj in E; contradiction.
  - intros other _ Hne. apply process_document_keeps_artifacts. exact Hne.
Qed.

(** X4.  When the success record is returned, the three artifacts are in the
    store and agree with it: the record's chunk count is the number of chunk
    records and the [chunks_count] of the summary, the summary carries the
    same [ocr_used] flag, file type and document id, and chunk record number
    [i] (from 0) has the chunk id [i + 1], the document id and the path of
    the source file. *)
Theorem success_record_matches_artifacts (file_path doc_id : str) (fs fs' : FS)
    (doc_id' : str) (chunks : nat) (file_type : str) (ocr_used : bool) :
  process_document env file_path doc_id fs
  = (fs', ProcSuccess doc_id' chunks file_type ocr_used) ->
  doc_id' = doc_id
  /\ file_type = lower (splitext_ext file_path)
  /\ exists full_text pages_info summary,
       files fs' !! content_path_of doc_id = Some (FText full_text)
       /\ files fs' !! chunks_path_of doc_id = Some (FJson (JChunks pages_info))
       /\ files fs' !! metadata_path_of doc_id = Some (FJson (JSummary summary))
       /\ length pages_info = chunks
       /\ sum_chunks_count summary = chunks
       /\ sum_ocr_used summary = ocr_used
       /\ sum_doc_id summary = doc_id
       /\ sum_file_type summary = file_type
       /\ sum_original_file summary = basename file_path
       /\ (forall i, i < chunks ->
             exists page_info,
               pages_info !! i = Some page_info
               /\ page_info !! "chunk_id" = Some (VInt (Z.of_nat (i + 1)))
               /\ page_info !! "doc_id" = Some (VStr doc_id)
               /\ page_info !! "source" = Some (VStr file_path)).
Proof.
  rewrite process_document_unfold.
  destruct (extract env file_path _) as [[split_docs ocr]|e]; [|intros [=]].
  cbn [fst snd]. rewrite persist_unfold. cbv zeta.
  destruct (artifact_paths_distinct doc_id) as (D1 & D2 & D3).
  repeat case_bool_decide; cbn [to_result]; intros [= <- <- <- <- <-].
  split_and!; [reflexivity..|].
  eexists _, _, _. cbn [files].
  split_and!.
  - rewrite lookup_insert_ne by (intros E; apply D2; symmetry; exact E).
    rewrite lookup_insert_ne by (intros E; apply D1; symmetry; exact E).
    apply lookup_insert_eq.
  - rewrite lookup_insert_ne by (intros E; apply D3; symmetry; exact E).
    apply lookup_insert_eq.
  - apply lookup_insert_eq.
  - rewrite chunk_loop_pages. cbn [app]. apply length_imap.
  - reflexivity.
  - reflexivity.
  - reflexivity.
  - reflexivity.
  - reflexivity.
  - intros i Hi. rewrite chunk_loop_pages. cbn [app].
    destruct (lookup_lt_is_Some_2 split_docs i Hi) as [d Hd].
    exists (page_info_of file_path doc_id i d). split.
    + rewrite list_lookup_imap, Hd. reflexivity.
    + unfold page_info_of. split_and!.
      * apply lookup_insert_eq.
      * rewrite !lookup_insert_ne by discriminate. apply lookup_insert_eq.
      * rewrite !lookup_insert_ne by discriminate. apply lookup_insert_eq.
Qed.

End Isolation.

Lemma other_documents_untouched_witness :
  artifacts (process_document (env_down search_first) (py "uploads/b.pdf") (py "d2") fs_d1).1
    (py "d1")
  = artifacts fs_d1 (py "d1").
Proof.
  destruct (other_documents_untouched (env_down search_first) (py "uploads/b.pdf")
              (py "d2") fs_d1) as (_ & _ & H).
  - apply absent_by_test. reflexivity.
  - apply H.
    + apply absent_by_test. reflexivity.
    + vm_compute. discriminate.
Defined.

Lemma success_record_matches_artifacts_witness :
  exists pages_info,
    files fs_d1 !! chunks_path_of (py "d1") = Some (FJson (JChunks pages_info))
    /\ length pages_info = 2.
Proof.
  destruct (success_record_matches_artifacts (env_down search_first)
              (py "uploads/report.pdf") (py "d1") empty_fs fs_d1 (py "d1") 2 (py ".pdf") false)
    as (_ & _ & full_text & pages_info & summary & _ & Hc & _ & Hl & _).
  - vm_compute. reflexivity.
  - exists pages_info. split; [exact Hc|exact Hl].
Defined.

Section EmptyExtraction.

Context (env : Env).

(** X5.  A document from which nothing is extracted is ingested with the
    success record and a chunk count of 0; its content file is empty and its
    chunk-record file holds no record.  No index can be built for it
    afterwards, and every query on it is answered with the "Could not
    process document" record. *)
Theorem empty_extraction_succeeds_but_cannot_be_queried (file_path doc_id : str) (fs : FS)
    (ocr_used : bool) :
  extract env file_path (lower (splitext_ext file_path)) = Return ([], ocr_used) ->
  content_path_of doc_id ∉ unwritable fs ->
  chunks_path_of doc_id ∉ unwritable fs ->
  metadata_path_of doc_id ∉ unwritable fs ->
  exists fs',
    process_document env file_path doc_id fs
    = (fs', ProcSuccess doc_id 0 (lower (splitext_ext file_path)) ocr_used)
    /\ files fs' !! content_path_of doc_id = Some (FText [])
    /\ files fs' !! chunks_path_of doc_id = Some (FJson (JChunks []))
    /\ (forall chunks_path,
          get_document_chunks env fs' (content_path_of doc_id) doc_id chunks_path = Return [])
    /\ create_document_vector_db env fs' doc_id = Return None
    /\ create_multi_document_vector_db env fs' [doc_id] = Return None
    /\ (forall query content_path,
          query_document env fs' query content_path doc_id
          = Return (mkQueryResult (py "Error: Could not process document " ++ doc_id)
                      (py "Error") conf_none)).
Proof.
  intros Hex H1 H2 H3.
  destruct (artifact_paths_distinct doc_id) as (D1 & D2 & D3).
  rewrite process_document_unfold, Hex. cbn [fst snd]. rewrite persist_unfold. cbv zeta.
  rewrite !bool_decide_eq_false_2 by assumption. cbn [to_result chunk_loop fst snd length].
  eexists. split; [reflexivity|]. cbn [files].
  match goal with |- ?A /\ _ => assert (Hcontent : A) end.
  { rewrite lookup_insert_ne by (intros E; apply D2; symmetry; exact E).
    rewrite lookup_insert_ne by (intros E; apply D1; symmetry; exact E).
    apply lookup_insert_eq. }
  match goal with |- _ /\ _ /\ ?A /\ _ => assert (Hload : A) end.
  { intros chunks_path. apply get_document_chunks_empty. right.
    exists []. split; [exact Hcontent|]. apply blank_text_has_no_chunk. constructor. }
  match goal with |- _ /\ _ /\ _ /\ ?A /\ _ => assert (Hdb : A) end.
  { unfold create_document_vector_db. cbv zeta.
    fold (content_path_of doc_id). rewrite Hload. reflexivity. }
  split_and!.
  - exact Hcontent.
  - rewrite lookup_insert_ne by (intros E; apply D3; symmetry; exact E).
    apply lookup_insert_eq.
  - exact Hload.
  - exact Hdb.
  - unfold create_multi_document_vector_db. cbn [gather_chunks].
    fold (content_path_of doc_id). rewrite Hload. reflexivity.
  - intros query content_path. unfold query_document, query_document_body.
    rewrite Hdb. reflexivity.
Qed.

End EmptyExtraction.

Lemma empty_extraction_succeeds_but_cannot_be_queried_witness :
  exists fs',
    process_document env_blank (py "uploads/blank.pdf") (py "d8") empty_fs
    = (fs', ProcSuccess (py "d8") 0 (lower (splitext_ext (py "uploads/blank.pdf"))) true)
    /\ create_document_vector_db env_blank fs' (py "d8") = Return None.
Proof.
  destruct (empty_extraction_succeeds_but_cannot_be_queried env_blank
              (py "uploads/blank.pdf") (py "d8") empty_fs true)
    as (fs' & Hrun & _ & _ & _ & Hdb & _).
  - vm_compute. reflexivity.
  - apply not_elem_of_empty.
  - apply not_elem_of_empty.
  - apply not_elem_of_empty.
  - exists fs'. split; [exact Hrun|exact Hdb].
Defined.

(* ===================================================================== *)
(** * Further properties of the chunk store                               *)
(* ===================================================================== *)

Section ChunkStore.

Context (env : Env) (fs : FS).

Lemma drop_while_idem p s : drop_while p (drop_while p s) = drop_while p s.
Proof.
  induction s as [|c s IH]; [reflexivity|]. simpl.
  destruct (p c) eqn:E; [exact IH|]. simpl. rewrite E. reflexivity.
Qed.

Lemma drop_while_head p c s : drop_while p s = c :: s -> False.
Proof.
  intros H. pose proof (drop_while_length p s) as Hl. rewrite H in Hl. simpl in Hl. lia.
Qed.

(** [strip] leaves a stripped text as it is. *)
Lemma strip_idem s : strip (strip s) = strip s.
Proof.
  unfold strip, lstrip, rstrip.
  set (t := drop_while is_space s).
  assert (Ht : drop_while is_space t = t) by apply drop_while_idem.
  destruct (drop_while_suffix is_space (rev t)) as (a & Ea & _).
  set (u := drop_while is_space (rev t)) in *.
  assert (Eu : t = rev u ++ rev a).
  { rewrite <- rev_app_distr, <- Ea, rev_involutive. reflexivity. }
  assert (Hu : drop_while is_space (rev u) = rev u).
  { destruct (rev u) as [|c w] eqn:E; [reflexivity|].
    rewrite Eu in Ht. cbn [app drop_while] in Ht. simpl.
    destruct (is_space c); [|reflexivity].
    exfalso. apply (drop_while_head is_space c (w ++ rev a)). exact Ht. }
  rewrite Hu, rev_involutive. subst u. rewrite drop_while_idem. reflexivity.
Qed.

Lemma make_chunk_facts chunks_metadata doc_id i text :
  page_content (make_chunk chunks_metadata doc_id i text) = strip text
  /\ exists label,
       metadata (make_chunk chunks_metadata doc_id i text) !! "citation"
       = Some (VStr (py "Page " ++ label ++ py ", Chunk " ++ str_of_nat (i + 1))).
Proof.
  unfold make_chunk. cbv zeta. cbn [page_content metadata].
  split; [reflexivity|]. eexists. rewrite lookup_insert_eq. reflexivity.
Qed.

(** What [get_document_chunks] returns is the list of the non-blank pieces
    of some text, each made into a chunk with one lookup table. *)
Lemma get_document_chunks_shape content_path doc_id chunks_path docs :
  get_document_chunks env fs content_path doc_id chunks_path = Return docs ->
  exists chunks_metadata chunks,
    Forall (fun chunk => strip chunk <> []) chunks
    /\ docs = imap (make_chunk chunks_metadata doc_id) chunks.
Proof.
  unfold get_document_chunks, get_document_chunks_body.
  assert (Hnil : Return [] = Return docs ->
                 exists chunks_metadata chunks,
                   Forall (fun chunk => strip chunk <> []) chunks
                   /\ docs = imap (make_chunk chunks_metadata doc_id) chunks).
  { intros [= <-]. exists ∅, []. split; [constructor|reflexivity]. }
  destruct (read_text env fs content_path) as [content|e]; cbn [bind try_except]; [|exact Hnil].
  match goal with |- context [bind ?m _] => destruct m as [lookup|e] end;
    cbn [bind try_except]; [|exact Hnil].
  intros [= <-]. exists lookup, (filter (fun chunk => strip chunk ≠ []) (re_split content)).
  split; [|reflexivity].
  apply Forall_forall. intros x Hx. apply list_elem_of_filter in Hx as [Hx _]. exact Hx.
Qed.

(** X6.  Every chunk the store loads has a text that is not empty and has no
    white space at either end, and is cited ["Page <label>, Chunk <n>"] with
    its 1-based position [n] in the list: the citation is always there and
    always a string, whatever the sidecar file holds. *)
Theorem loaded_chunks_are_clean_and_cited (content_path doc_id : str)
    (chunks_path : option str) (docs : list Document) (i : nat) (d : Document) :
  get_document_chunks env fs content_path doc_id chunks_path = Return docs ->
  docs !! i = Some d ->
  page_content d <> []
  /\ strip (page_content d) = page_content d
  /\ exists label,
       metadata d !! "citation"
       = Some (VStr (py "Page " ++ label ++ py ", Chunk " ++ str_of_nat (i + 1))).
Proof.
  intros Hload Hd.
  destruct (get_document_chunks_shape _ _ _ _ Hload) as (lookup & chunks & Hc & ->).
  rewrite list_lookup_imap in Hd.
  destruct (chunks !! i) as [text|] eqn:Et; [|discriminate]. injection Hd as <-.
  destruct (make_chunk_facts lookup doc_id i text) as (Hp & Hcit).
  rewrite Hp. split_and!; [|apply strip_idem|exact Hcit].
  rewrite Forall_forall in Hc. apply Hc. apply list_elem_of_lookup. eauto.
Qed.

End ChunkStore.

Lemma loaded_chunks_are_clean_and_cited_witness :
  strip long_text = long_text
  /\ exists label,
       metadata (mkDocument long_text
                   (<["citation" := VStr (py "Page 0, Chunk 1")]>
                      (page_info_of (py "uploads/report.pdf") (py "d1") 0 (page 0 long_text))))
         !! "citation"
       = Some (VStr (py "Page " ++ label ++ py ", Chunk " ++ str_of_nat (0 + 1))).
Proof.
  destruct (loaded_chunks_are_clean_and_cited (env_down search_first) fs_d1
              (content_path_of (py "d1")) (py "d1") None index_d1 0
              (mkDocument long_text
                 (<["citation" := VStr (py "Page 0, Chunk 1")]>
                    (page_info_of (py "uploads/report.pdf") (py "d1") 0 (page 0 long_text)))))
    as (_ & Hs & Hc).
  - vm_compute. reflexivity.
  - reflexivity.
  - split; [exact Hs|exact Hc].
Defined.

Section SharedIndex.

Context (env : Env).

Lemma gather_chunks_concat fs doc_ids all_docs :
  gather_chunks env fs doc_ids all_docs
  = Return (all_docs ++ concat (map (chunks_of env fs) doc_ids)).
Proof.
  revert all_docs; induction doc_ids as [|doc_id rest IH]; intros all_docs; cbn [gather_chunks].
  - cbn [map concat]. rewrite app_nil_r. reflexivity.
  - destruct (get_document_chunks_returns env fs
                (path_join (py "processed") (doc_id ++ py "_content.txt")) doc_id None)
      as [docs E].
    rewrite E. cbn [bind]. rewrite IH. cbn [map concat]. unfold chunks_of at 2.
    unfold content_path_of. rewrite E, app_assoc. reflexivity.
Qed.

Lemma create_multi_document_vector_db_unfold fs doc_ids :
  create_multi_document_vector_db env fs doc_ids
  = match concat (map (chunks_of env fs) doc_ids) with
    | [] => Return None
    | d :: all_docs =>
        match FAISS_from_documents env (d :: all_docs) with
        | Return _ => Return (Some (d :: all_docs))
        | Raise _ => Return None
        end
    end.
Proof.
  unfold create_multi_document_vector_db. rewrite gather_chunks_concat. cbn [bind app].
  destruct (concat _) as [|d all_docs]; [reflexivity|].
  destruct (FAISS_from_documents env (d :: all_docs)); reflexivity.
Qed.

Lemma create_document_vector_db_unfold fs doc_id :
  create_document_vector_db env fs doc_id
  = match chunks_of env fs doc_id with
    | [] => Return None
    | d :: docs =>
        match FAISS_from_documents env (d :: docs) with
        | Return _ => Return (Some (d :: docs))
        | Raise _ => Return None
        end
    end.
Proof.
  unfold create_document_vector_db, chunks_of, content_path_of. cbv zeta.
  assert (E : get_document_chunks env fs
                (path_join (py "processed") (doc_id ++ py "_content.txt")) doc_id
                (Some (path_join (py "processed") (doc_id ++ py "_chunks.json")))
              = get_document_chunks env fs
                  (path_join (py "processed") (doc_id ++ py "_content.txt")) doc_id None).
  { unfold get_document_chunks, get_document_chunks_body.
    destruct (path_join (py "processed") (doc_id ++ py "_chunks.json")) eqn:E; [|reflexivity].
    reflexivity. }
  rewrite E.
  destruct (get_document_chunks_returns env fs
              (path_join (py "processed") (doc_id ++ py "_content.txt")) doc_id None)
    as [docs ->].
  cbn [bind]. destruct docs as [|d docs]; [reflexivity|].
  destruct (FAISS_from_documents env (d :: docs)); reflexivity.
Qed.

(** X7.  The shared index of one document is the index of that document. *)
Theorem shared_index_of_one_document (fs : FS) (doc_id : str) :
  create_multi_document_vector_db env fs [doc_id] = create_document_vector_db env fs doc_id.
Proof.
  rewrite create_multi_document_vector_db_unfold, create_document_vector_db_unfold.
  cbn [map concat]. rewrite app_nil_r. reflexivity.
Qed.

(** X8.  The shared index holds the chunks of the selected documents,
    document by document in the order of selection.  A document without
    chunks (absent, unreadable or blank) is passed over without any sign:
    leaving it out of the selection gives the same index.  The result is
    [None] only when no selected document has a chunk or the embedding step
    raises. *)
Theorem shared_index_concatenates_documents (fs : FS) (doc_ids : list str) :
  (forall index,
     create_multi_document_vector_db env fs doc_ids = Return (Some index) ->
     index = concat (map (chunks_of env fs) doc_ids) /\ index <> [])
  /\ (create_multi_document_vector_db env fs doc_ids = Return None ->
      Forall (fun doc_id => chunks_of env fs doc_id = []) doc_ids
      \/ exists e, FAISS_from_documents env (concat (map (chunks_of env fs) doc_ids)) = Raise e)
  /\ create_multi_document_vector_db env fs doc_ids
     = create_multi_document_vector_db env fs
         (filter (fun doc_id => chunks_of env fs doc_id <> []) doc_ids)
  /\ (forall e, create_multi_document_vector_db env fs doc_ids <> Raise e).
Proof.
  assert (Hskip : concat (map (chunks_of env fs)
                            (filter (fun doc_id => chunks_of env fs doc_id <> []) doc_ids))
                  = concat (map (chunks_of env fs) doc_ids)).
  { induction doc_ids as [|doc_id rest IH]; [reflexivity|].
    rewrite filter_cons. destruct (decide (chunks_of env fs doc_id <> [])) as [Hd|Hd].
    - cbn [map concat]. rewrite IH. reflexivity.
    - cbn [map concat]. rewrite IH.
      destruct (chunks_of env fs doc_id); [reflexivity|]. destruct Hd. discriminate. }
  rewrite !create_multi_document_vector_db_unfold, Hskip.
  destruct (concat (map (chunks_of env fs) doc_ids)) as [|d all_docs] eqn:E.
  - split_and!; [intros index [=]| |reflexivity|discriminate].
    intros _. left. clear Hskip. induction doc_ids as [|doc_id rest IH]; [constructor|].
    cbn [map concat] in E. apply app_eq_nil in E as [E1 E2].
    constructor; [exact E1|apply IH; exact E2].
  - destruct (FAISS_from_documents env (d :: all_docs)) as [u|e] eqn:Ef.
    + split_and!; [|discriminate|reflexivity|discriminate].
      intros index [= <-]. split; [reflexivity|discriminate].
    + split_and!; [intros index [=]| |reflexivity|discriminate].
      intros _. right. exists e. reflexivity.
Qed.

End SharedIndex.

(* ===================================================================== *)
(** * What the query engine reads, and what ingestion leaves alone       *)
(* ===================================================================== *)

Section Footprint.

Context (env : Env).

(** Loading reads the content file and the sidecar file, and nothing else
    of the store. *)
Lemma get_document_chunks_footprint fs1 fs2 content_path doc_id chunks_path :
  files fs1 !! content_path = files fs2 !! content_path ->
  files fs1 !! sidecar_path doc_id chunks_path = files fs2 !! sidecar_path doc_id chunks_path ->
  get_document_chunks env fs1 content_path doc_id chunks_path
  = get_document_chunks env fs2 content_path doc_id chunks_path.
Proof.
  intros Hc Hs. unfold get_document_chunks, get_document_chunks_body.
  unfold read_text, path_exists, json_load.
  change (match chunks_path with
          | Some (c :: p) => c :: p
          | _ => path_join (py "processed") (doc_id ++ py "_chunks.json")
          end) with (sidecar_path doc_id chunks_path).
  rewrite Hc, Hs. reflexivity.
Qed.

Lemma chunks_of_footprint fs1 fs2 doc_id :
  files fs1 !! content_path_of doc_id = files fs2 !! content_path_of doc_id ->
  files fs1 !! chunks_path_of doc_id = files fs2 !! chunks_path_of doc_id ->
  chunks_of env fs1 doc_id = chunks_of env fs2 doc_id.
Proof.
  intros Hc Hs. unfold chunks_of.
  rewrite (get_document_chunks_footprint fs1 fs2); [reflexivity|exact Hc|exact Hs].
Qed.

Lemma query_document_by_index fs1 fs2 query content_path1 content_path2 doc_id :
  create_document_vector_db env fs1 doc_id = create_document_vector_db env fs2 doc_id ->
  query_document env fs1 query content_path1 doc_id
  = query_document env fs2 query content_path2 doc_id.
Proof.
  intros E. unfold query_document, query_document_body. rewrite E. reflexivity.
Qed.

(** X9.  The answer about a document depends on the store through the
    content file and the chunk-record file of that document only: two stores
    that agree on these two paths give the same record.  The [content_path]
    argument plays no part. *)
Theorem query_reads_only_its_document (fs1 fs2 : FS)
    (query content_path1 content_path2 doc_id : str) :
  files fs1 !! content_path_of doc_id = files fs2 !! content_path_of doc_id ->
  files fs1 !! chunks_path_of doc_id = files fs2 !! chunks_path_of doc_id ->
  create_document_vector_db env fs1 doc_id = create_document_vector_db env fs2 doc_id
  /\ query_document env fs1 query content_path1 doc_id
     = query_document env fs2 query content_path2 doc_id.
Proof.
  intros Hc Hs.
  assert (E : create_document_vector_db env fs1 doc_id
              = create_document_vector_db env fs2 doc_id).
  { rewrite !create_document_vector_db_unfold.
    rewrite (chunks_of_footprint fs1 fs2) by assumption. reflexivity. }
  split; [exact E|]. apply query_document_by_index. exact E.
Qed.

(** X10.  Ingesting one document changes no answer about another, for
    document ids without a slash: after [process_document] has run on
    [other], with whatever outcome, the index of a different document and
    every query on it are what they were. *)
Theorem ingestion_keeps_other_answers (file_path other : str) (fs : FS)
    (query content_path doc_id : str) :
  plain_name other ->
  plain_name doc_id ->
  other <> doc_id ->
  create_document_vector_db env (process_document env file_path other fs).1 doc_id
  = create_document_vector_db env fs doc_id
  /\ query_document env (process_document env file_path other fs).1 query content_path doc_id
     = query_document env fs query content_path doc_id.
Proof.
  intros _ _ Hne.
  assert (Ha := process_document_keeps_artifacts env file_path other doc_id fs
                  (fun E => Hne (eq_sym E))).
  unfold artifacts in Ha. injection Ha as Hc Hs _.
  assert (E : create_document_vector_db env (process_document env file_path other fs).1 doc_id
              = create_document_vector_db env fs doc_id).
  { rewrite !create_document_vector_db_unfold.
    rewrite (chunks_of_footprint _ fs) by assumption. reflexivity. }
  split; [exact E|]. apply query_document_by_index. exact E.
Qed.

(** X11.  A sidecar file that is there but cannot be read as a list of
    records makes the chunks of the document unavailable.  When [json.load]
    raises on the sidecar file, or the file is the metadata summary that
    [process_document] writes (an object of six keys, whose keys have no
    [get]), loading returns the empty list whatever the content file holds,
    no index is built, and the query engine answers with its "Could not
    process document" record. *)
Theorem unreadable_sidecar_hides_the_chunks (fs : FS) (doc_id : str) :
  path_exists fs (chunks_path_of doc_id) = true ->
  (exists e, json_load env fs (chunks_path_of doc_id) = Raise e)
  \/ (exists summary, files fs !! chunks_path_of doc_id = Some (FJson (JSummary summary))) ->
  (forall content_path chunks_path,
     chunks_path = None \/ chunks_path = Some (chunks_path_of doc_id) ->
     get_document_chunks env fs content_path doc_id chunks_path = Return [])
  /\ create_document_vector_db env fs doc_id = Return None
  /\ (forall query content_path,
        query_document env fs query content_path doc_id
        = Return (mkQueryResult (py "Error: Could not process document " ++ doc_id)
                    (py "Error") conf_none)).
Proof.
  intros Hex Hbad.
  assert (Hside : forall chunks_path,
            chunks_path = None \/ chunks_path = Some (chunks_path_of doc_id) ->
            sidecar_path doc_id chunks_path = chunks_path_of doc_id).
  { intros chunks_path [->| ->]; [reflexivity|]. cbn [sidecar_path].
    destruct (chunks_path_of doc_id); reflexivity. }
  assert (Hload : forall content_path chunks_path,
            chunks_path = None \/ chunks_path = Some (chunks_path_of doc_id) ->
            get_document_chunks env fs content_path doc_id chunks_path = Return []).
  { intros content_path chunks_path Hp.
    unfold get_document_chunks, get_document_chunks_body.
    destruct (read_text env fs content_path) as [content|e]; [|reflexivity].
    cbn [bind].
    change (match chunks_path with
            | Some (c :: p) => c :: p
            | _ => path_join (py "processed") (doc_id ++ py "_chunks.json")
            end) with (sidecar_path doc_id chunks_path).
    rewrite (Hside _ Hp), Hex.
    destruct Hbad as [[e ->]|[summary Hs]]; [reflexivity|].
    unfold json_load. rewrite Hs. reflexivity. }
  assert (Hdb : create_document_vector_db env fs doc_id = Return None).
  { rewrite create_document_vector_db_unfold. unfold chunks_of.
    rewrite Hload by (left; reflexivity). reflexivity. }
  split_and!; [exact Hload|exact Hdb|].
  intros query content_path. unfold query_document, query_document_body.
  rewrite Hdb. reflexivity.
Qed.

End Footprint.

Lemma query_reads_only_its_document_witness :
  query_document (env_down search_first) fs_d1 (py "revenue?") (py "a.txt") (py "d1")
  = query_document (env_down search_first) fs_d1_d2 (py "revenue?") (py "b.txt") (py "d1").
Proof.
  destruct (query_reads_only_its_document (env_down search_first) fs_d1 fs_d1_d2
              (py "revenue?") (py "a.txt") (py "b.txt") (py "d1")) as [_ H].
  - vm_compute. reflexivity.
  - vm_compute. reflexivity.
  - exact H.
Defined.

Lemma ingestion_keeps_other_answers_witness :
  query_document (env_down search_first)
    (process_document (env_down search_first) (py "uploads/b.pdf") (py "d2") fs_d1).1
    (py "revenue?") (py "a.txt") (py "d1")
  = query_document (env_down search_first) fs_d1 (py "revenue?") (py "a.txt") (py "d1").
Proof.
  destruct (ingestion_keeps_other_answers (env_down search_first) (py "uploads/b.pdf")
              (py "d2") fs_d1 (py "revenue?") (py "a.txt") (py "d1")) as [_ H].
  - apply absent_by_test. reflexivity.
  - apply absent_by_test. reflexivity.
  - vm_compute. discriminate.
  - exact H.
Defined.

Lemma unreadable_sidecar_hides_the_chunks_witness :
  create_document_vector_db (env_down search_first) fs_bad_sidecar (py "d1") = Return None.
Proof.
  destruct (unreadable_sidecar_hides_the_chunks (env_down search_first) fs_bad_sidecar
              (py "d1")) as (_ & H & _).
  - vm_compute. reflexivity.
  - left. exists (py "Expecting value"). vm_compute. reflexivity.
  - exact H.
Defined.

(* ===================================================================== *)
(** * Further properties of the query engine                             *)
(* ===================================================================== *)

Section QueryPaths.

Context (env : Env) (fs : FS).

Lemma chunks_of_cited doc_id : Forall cited (chunks_of env fs doc_id).
Proof.
  unfold chunks_of.
  destruct (get_document_chunks env fs (content_path_of doc_id) doc_id None) as [docs|e] eqn:E;
    [|constructor].
  destruct (get_document_chunks_shape _ _ _ _ _ _ E) as (lookup & chunks & _ & ->).
  apply Forall_forall. intros d Hd. apply list_elem_of_lookup in Hd as [i Hd].
  rewrite list_lookup_imap in Hd.
  destruct (chunks !! i) as [text|]; [|discriminate]. injection Hd as <-.
  destruct (make_chunk_facts lookup doc_id i text) as (_ & label & Hc).
  eexists. exact Hc.
Qed.

Lemma single_index_cited doc_id index :
  create_document_vector_db env fs doc_id = Return (Some index) -> Forall cited index.
Proof.
  rewrite create_document_vector_db_unfold.
  pose proof (chunks_of_cited doc_id) as H.
  destruct (chunks_of env fs doc_id) as [|d docs]; [discriminate|].
  destruct (FAISS_from_documents env (d :: docs)); intros [= <-]. exact H.
Qed.

Lemma shared_index_cited doc_ids index :
  create_multi_document_vector_db env fs doc_ids = Return (Some index) -> Forall cited index.
Proof.
  rewrite create_multi_document_vector_db_unfold.
  assert (H : Forall cited (concat (map (chunks_of env fs) doc_ids))).
  { apply Forall_concat, Forall_map, Forall_true. intros doc_id. apply chunks_of_cited. }
  destruct (concat _) as [|d docs]; [discriminate|].
  destruct (FAISS_from_documents env (d :: docs)); intros [= <-]. exact H.
Qed.

Lemma cited_citations docs :
  Forall cited docs ->
  exists cits,
    map (fun d => metadata d !! "citation") docs = map (fun c => Some (VStr c)) cits
    /\ citations_generated docs = map VStr cits
    /\ citations_fallback docs = map VStr cits.
Proof.
  induction 1 as [|d docs [c Hc] _ (cits & E1 & E2 & E3)].
  - exists []. split_and!; reflexivity.
  - exists (c :: cits). unfold citations_generated, citations_fallback in *.
    cbn [map]. rewrite E1, E2, E3. unfold dict_get. rewrite Hc. split_and!; reflexivity.
Qed.

(** X12.  A failure of the similarity search cannot be told from a search
    without hits: whether the index search raises or returns nothing, the
    record is the "No relevant information" one, with citation ["N/A"] and
    confidence 0, and neither the chat client nor the chain plays a part. *)
Theorem search_failure_reads_as_no_hit (query content_path doc_id : str)
    (index : list Document) :
  create_document_vector_db env fs doc_id = Return (Some index) ->
  (similarity_search env index query 3 = Return []
   \/ exists e, similarity_search env index query 3 = Raise e) ->
  query_document env fs query content_path doc_id
  = Return (mkQueryResult (py "No relevant information found in this document.")
              (py "N/A") conf_none).
Proof.
  intros Hdb Hs. unfold query_document, query_document_body. rewrite Hdb. cbn [bind].
  assert (E : query_vector_db env (Some index) query 3 = Return []).
  { unfold query_vector_db. destruct Hs as [-> | [e ->]]; reflexivity. }
  rewrite E. reflexivity.
Qed.

(** X13.  The fallback covers the generation call only.  When chunks were
    retrieved and building the chat client, the prompt or the chain raises,
    no excerpt is returned: the record is the error record with the
    exception's message, citation ["Error"] and confidence 0. *)
Theorem client_failure_is_not_covered_by_fallback (query content_path doc_id : str)
    (index docs : list Document) (e : str) :
  create_document_vector_db env fs doc_id = Return (Some index) ->
  query_vector_db env (Some index) query 3 = Return docs ->
  docs <> [] ->
  ChatOpenAI env = Raise e ->
  query_document env fs query content_path doc_id
  = Return (mkQueryResult (py "Error processing query: " ++ e) (py "Error") conf_none).
Proof.
  intros Hdb Hdocs Hne Hllm. unfold query_document, query_document_body.
  rewrite Hdb. cbn [bind]. rewrite Hdocs. cbn [bind].
  destruct docs as [|d docs]; [destruct Hne; reflexivity|].
  rewrite Hllm. reflexivity.
Qed.

(** X14.  When the chain answers and the retrieved chunks are chunks of the
    index, the record has the chain's answer, confidence 0.95, and a
    citation field that lists every citation of the retrieved chunks once,
    in the order of first retrieval, joined by ["; "]. *)
Theorem generated_answer_cites_each_location_once (query content_path doc_id : str)
    (index docs : list Document) (response : str) :
  create_document_vector_db env fs doc_id = Return (Some index) ->
  query_vector_db env (Some index) query 3 = Return docs ->
  docs <> [] ->
  docs ⊆ index ->
  ChatOpenAI env = Return tt ->
  chain_invoke env query (context_of docs) = Return response ->
  exists cits kept,
    map (fun d => metadata d !! "citation") docs = map (fun c => Some (VStr c)) cits
    /\ map VStr kept = dedup_first (map VStr cits)
    /\ NoDup kept
    /\ (forall c, c ∈ kept <-> c ∈ cits)
    /\ query_document env fs query content_path doc_id
       = Return (mkQueryResult response (join (py "; ") kept) conf_generated).
Proof.
  intros Hdb Hdocs Hne Hsub Hllm Hinv.
  assert (Hc : Forall cited docs).
  { pose proof (single_index_cited _ _ Hdb) as Hi. rewrite Forall_forall in Hi.
    apply Forall_forall. intros d Hd. apply Hi, Hsub, Hd. }
  destruct (cited_citations docs Hc) as (cits & E1 & E2 & _).
  assert (Hs : Forall is_str (collect_distinct [] (citations_generated docs))).
  { apply Forall_is_str_collect. rewrite E2. apply Forall_map, Forall_true. intros ?; exact I. }
  destruct (expect_strs_Return _ Hs) as (kept & Ek & Hk).
  exists cits, kept.
  assert (Hnd : NoDup (map VStr kept)).
  { rewrite <- Hk. apply collect_distinct_NoDup. constructor. }
  split_and!.
  - exact E1.
  - rewrite <- Hk, collect_distinct_spec, E2. reflexivity.
  - change (map VStr kept) with (VStr <$> kept) in Hnd.
    apply NoDup_fmap_1 in Hnd. exact Hnd.
  - intros c. split; intros H.
    + assert (H' : VStr c ∈ map VStr kept) by (apply list_elem_of_fmap; eauto).
      rewrite <- Hk in H'. apply elem_of_collect_distinct in H' as [H'|H'].
      * inversion H'.
      * rewrite E2 in H'. apply list_elem_of_fmap in H' as (c' & [= ->] & H'). exact H'.
    + assert (H' : VStr c ∈ collect_distinct [] (citations_generated docs)).
      { apply elem_of_collect_distinct. right. rewrite E2. apply list_elem_of_fmap; eauto. }
      rewrite Hk in H'. apply list_elem_of_fmap in H' as (c' & [= ->] & H'). exact H'.
  - unfold query_document, query_document_body.
    rewrite Hdb. cbn [bind]. rewrite Hdocs. cbn [bind].
    destruct docs as [|d docs]; [destruct Hne; reflexivity|].
    rewrite Hllm. cbn [bind]. rewrite Hinv. cbn [bind try_except].
    unfold generated_result. fold (citations_generated (d :: docs)).
    unfold join_vals. rewrite Ek. reflexivity.
Qed.

End QueryPaths.

Lemma search_failure_reads_as_no_hit_witness :
  query_document env_closed fs_d1 (py "revenue?") (py "a.txt") (py "d1")
  = Return (mkQueryResult (py "No relevant information found in this document.")
              (py "N/A") conf_none).
Proof.
  apply (search_failure_reads_as_no_hit env_closed fs_d1 (py "revenue?") (py "a.txt")
           (py "d1") index_d1).
  - vm_compute. reflexivity.
  - right. exists (py "index closed"). reflexivity.
Defined.

Lemma client_failure_is_not_covered_by_fallback_witness :
  query_document env_no_client fs_d1 (py "revenue?") (py "a.txt") (py "d1")
  = Return (mkQueryResult (py "Error processing query: " ++ py "no API key")
              (py "Error") conf_none).
Proof.
  apply (client_failure_is_not_covered_by_fallback env_no_client fs_d1 (py "revenue?")
           (py "a.txt") (py "d1") index_d1 index_d1).
  - vm_compute. reflexivity.
  - vm_compute. reflexivity.
  - discriminate.
  - reflexivity.
Defined.

Lemma generated_answer_cites_each_location_once_witness :
  exists cits kept,
    map (fun d => metadata d !! "citation") index_d1 = map (fun c => Some (VStr c)) cits
    /\ map VStr kept = dedup_first (map VStr cits)
    /\ NoDup kept
    /\ (forall c, c ∈ kept <-> c ∈ cits)
    /\ query_document env_two fs_d1 (py "revenue?") (py "a.txt") (py "d1")
       = Return (mkQueryResult (py "Revenue grew while costs stayed flat.")
                   (join (py "; ") kept) conf_generated).
Proof.
  apply (generated_answer_cites_each_location_once env_two fs_d1 (py "revenue?")
           (py "a.txt") (py "d1") index_d1 index_d1 (py "Revenue grew while costs stayed flat.")).
  - vm_compute. reflexivity.
  - vm_compute. reflexivity.
  - discriminate.
  - intros d Hd. exact Hd.
  - reflexivity.
  - reflexivity.
Defined.

(* ===================================================================== *)
(** * The citation field of a query record                                *)
(* ===================================================================== *)





Section DistinctCitations.

Context (env : Env) (fs : FS).



End DistinctCitations.

Section CitationField.

Context (env : Env) (fs : FS).




End CitationField.


(* ===================================================================== *)
(** * Further properties of the theme synthesis engine                   *)
(* ===================================================================== *)

Section ThemeRuns.

Context (env : Env).

Lemma make_theme_made_from i d theme :
  make_theme i d = Return theme -> made_from i d theme.
Proof.
  unfold make_theme.
  destruct (getitem (metadata d) "doc_id") as [doc_id|] eqn:E1; [|discriminate].
  destruct (getitem (metadata d) "citation") as [cit|] eqn:E2; [|discriminate].
  cbn [bind]. intros [= <-]. apply getitem_Return in E1, E2.
  split_and!; [reflexivity..|]. exists doc_id, cit, [], []. auto.
Qed.

Lemma expand_step_made_from i d theme similar_doc theme' :
  made_from i d theme -> expand_step theme similar_doc = Return theme' -> made_from i d theme'.
Proof.
  intros (Hn & Hd & id & c & ds & cs & H1 & H2 & H3 & H4). unfold expand_step.
  destruct (getitem _ "doc_id") as [sid|]; [|discriminate].
  destruct (getitem _ "citation") as [sc|]; [|discriminate]. cbn [bind].
  case_bool_decide; intros [= <-].
  - split_and!; [exact Hn|exact Hd|]. exists id, c, ds, cs. auto.
  - split_and!; [exact Hn|exact Hd|].
    exists id, c, (ds ++ [sid]), (cs ++ [sc]). cbn [supporting_documents citations].
    rewrite H3, H4. auto.
Qed.

Lemma expand_loop_made_from i d similar theme theme' :
  made_from i d theme -> expand_loop theme similar = Return theme' -> made_from i d theme'.
Proof.
  revert theme; induction similar as [|s similar IH]; intros theme Hm; cbn [expand_loop].
  - intros [= <-]. exact Hm.
  - destruct (expand_step theme s) as [t1|] eqn:E; [|discriminate]. cbn [bind].
    apply IH. eapply expand_step_made_from; eassumption.
Qed.

Lemma make_themes_made_from k top themes :
  make_themes k top = Return themes ->
  length themes = length top
  /\ forall i d theme, top !! i = Some d -> themes !! i = Some theme -> made_from (k + i) d theme.
Proof.
  revert k themes; induction top as [|d0 top IH]; intros k themes; cbn [make_themes].
  - intros [= <-]. split; [reflexivity|]. intros i d theme H. discriminate.
  - destruct (make_theme k d0) as [t|] eqn:E; [|discriminate]. cbn [bind].
    destruct (make_themes (k + 1) top) as [ts|] eqn:E'; [|discriminate]. cbn [bind].
    intros [= <-]. destruct (IH _ _ E') as [Hlen Hall].
    split; [simpl; rewrite Hlen; reflexivity|].
    intros [|i] d theme; cbn [lookup list_lookup].
    + intros [= <-] [= <-]. rewrite Nat.add_0_r. apply make_theme_made_from. exact E.
    + intros Hd Ht. replace (k + S i) with (k + 1 + i) by lia. eapply Hall; eassumption.
Qed.

Lemma expand_themes_made_from db (P : nat -> Theme -> Prop) themes themes' :
  (forall i theme similar theme',
     P i theme -> expand_loop theme similar = Return theme' -> P i theme') ->
  expand_themes env db themes = Return themes' ->
  length themes' = length themes
  /\ forall k, (forall i theme, themes !! i = Some theme -> P (k + i) theme) ->
       forall i theme, themes' !! i = Some theme -> P (k + i) theme.
Proof.
  intros HP. revert themes'; induction themes as [|t themes IH]; intros themes';
    cbn [expand_themes].
  - intros [= <-]. split; [reflexivity|]. intros k _ i theme H. discriminate.
  - destruct (query_vector_db env db (description t) 10) as [similar|]; [|discriminate].
    cbn [bind].
    destruct (expand_loop t (tail similar)) as [t'|] eqn:El; [|discriminate]. cbn [bind].
    destruct (expand_themes env db themes) as [ts|] eqn:Et; [|discriminate]. cbn [bind].
    intros [= <-]. destruct (IH _ eq_refl) as [Hlen Hall].
    split; [simpl; rewrite Hlen; reflexivity|].
    intros k Hk [|i] theme; cbn [lookup list_lookup].
    + intros [= <-]. eapply HP; [|exact El]. apply (Hk 0). reflexivity.
    + intros Ht. replace (k + S i) with (k + 1 + i) by lia. apply (Hall (k + 1)); [|exact Ht].
      intros j th Hj. replace (k + 1 + j) with (k + S j) by lia. apply Hk. exact Hj.
Qed.

Lemma build_themes_made_from db query top_n themes :
  build_themes env db query top_n = Return themes ->
  exists top_results,
    query_vector_db env db query top_n = Return top_results
    /\ length themes = length top_results
    /\ forall i d theme,
         top_results !! i = Some d -> themes !! i = Some theme -> made_from i d theme.
Proof.
  unfold build_themes.
  destruct (query_vector_db env db query top_n) as [top|] eqn:Et; [|discriminate].
  cbn [bind].
  destruct (make_themes 0 top) as [ts|] eqn:Em; [|discriminate]. cbn [bind].
  intros He. exists top. split; [reflexivity|].
  destruct (make_themes_made_from _ _ _ Em) as [Hlen Hall].
  destruct (expand_themes_made_from db
              (fun i theme => exists d, top !! i = Some d /\ made_from i d theme) ts themes)
    as [Hlen' Hall'].
  - intros i theme similar theme' (d & Hd & Hm) Hl. exists d. split; [exact Hd|].
    eapply expand_loop_made_from; eassumption.
  - exact He.
  - split; [congruence|]. intros i d theme Hd Ht.
    destruct (Hall' 0) with (i := i) (theme := theme) as (d' & Hd' & Hm).
    + intros j th Hj. cbn [Nat.add].
      destruct (lookup_lt_is_Some_2 top j) as [dj Hdj].
      { rewrite <- Hlen. eapply lookup_lt_Some. exact Hj. }
      exists dj. split; [exact Hdj|]. apply (Hall j dj th Hdj Hj).
    + exact Ht.
    + cbn [Nat.add] in Hd'. rewrite Hd in Hd'. injection Hd' as <-. exact Hm.
Qed.

(** X15.  With two or more per-document results, the themes returned are the
    chunks the shared index gives for the query, one theme per chunk in rank
    order.  Expansion never changes what a theme was made from: theme number
    [i] still has the label ["Theme <i+1>: ..."] and the text of the chunk
    at rank [i], and that chunk's own document id and citation stay first in
    its lists, before anything expansion appended. *)
Theorem themes_follow_retrieval_ranks (fs : FS) (query : str)
    (document_results : list doc_result) (top_n : nat) (result : theme_result) :
  2 <= length document_results ->
  identify_themes env fs query document_results top_n = Return result
  \/ identify_themes_modern env fs query document_results top_n = Return result ->
  exists db top_results,
    create_multi_document_vector_db env fs (map dr_doc_id document_results) = Return db
    /\ query_vector_db env db query top_n = Return top_results
    /\ length (themes result) = length top_results
    /\ forall i d theme,
         top_results !! i = Some d -> themes result !! i = Some theme -> made_from i d theme.
Proof.
  intros Hlen Hrun.
  destruct document_results as [|r1 [|r2 rest]]; [simpl in Hlen; lia..|].
  assert (H : exists db,
             create_multi_document_vector_db env fs (map dr_doc_id (r1 :: r2 :: rest))
             = Return db
             /\ match db with
                | None => themes result = []
                | Some _ => build_themes env db query top_n = Return (themes result)
                end).
  { destruct Hrun as [Hrun|Hrun]; unfold identify_themes, identify_themes_modern in Hrun;
      cbv zeta in Hrun;
      destruct (create_multi_document_vector_db env fs (map dr_doc_id (r1 :: r2 :: rest)))
        as [[index|]|] eqn:Edb; cbn [bind] in Hrun; try discriminate.
    - exists (Some index). split; [reflexivity|].
      destruct (build_themes env (Some index) query top_n) as [ts|]; [|discriminate].
      cbn [bind] in Hrun. destruct (ChatOpenAI env); [|discriminate]. cbn [bind] in Hrun.
      destruct (format_themes 0 ts []); [|discriminate]. cbn [bind] in Hrun.
      injection Hrun as <-. reflexivity.
    - exists None. split; [reflexivity|]. injection Hrun as <-. reflexivity.
    - exists (Some index). split; [reflexivity|].
      destruct (build_themes env (Some index) query top_n) as [ts|]; [|discriminate].
      cbn [bind] in Hrun.
      destruct (format_themes 0 ts []); [|discriminate]. cbn [bind] in Hrun.
      injection Hrun as <-. reflexivity.
    - exists None. split; [reflexivity|]. injection Hrun as <-. reflexivity. }
  destruct H as (db & Edb & Hb). exists db.
  destruct db as [index|].
  - destruct (build_themes_made_from _ _ _ _ Hb) as (top & Et & Hl & Hall).
    exists top. auto.
  - exists []. rewrite Hb. split_and!; [exact Edb|reflexivity|reflexivity|].
    intros i d theme H. discriminate.
Qed.

End ThemeRuns.

Lemma themes_follow_retrieval_ranks_witness :
  exists db top_results,
    create_multi_document_vector_db env_two fs_two (map dr_doc_id results_two) = Return db
    /\ query_vector_db env_two db (py "revenue?") 5 = Return top_results
    /\ length (themes result_two) = length top_results
    /\ forall i d theme,
         top_results !! i = Some d -> themes result_two !! i = Some theme -> made_from i d theme.
Proof.
  apply (themes_follow_retrieval_ranks env_two fs_two (py "revenue?") results_two 5 result_two).
  - simpl. lia.
  - left. vm_compute. reflexivity.
Defined.

Section ThemeSafety.

Context (env : Env).

Lemma query_vector_db_within index query k docs :
  search_within env index ->
  query_vector_db env (Some index) query k = Return docs -> docs ⊆ index.
Proof.
  intros Hw. unfold query_vector_db.
  destruct (similarity_search env index query k) as [found|e] eqn:E; cbn [try_except].
  - intros [= <-]. eapply Hw. exact E.
  - intros [= <-]. intros x Hx. inversion Hx.
Qed.

(** A chunk with both keys has a source pair whose citation is a string. *)
Lemma owned_cited_source d :
  owned d -> cited d ->
  exists doc_id c, metadata d !! "doc_id" = Some doc_id
                   /\ metadata d !! "citation" = Some (VStr c).
Proof. intros [doc_id H1] [c H2]. eauto. Qed.

Lemma make_theme_returns i d :
  owned d -> cited d ->
  exists theme, make_theme i d = Return theme /\ Forall is_str (citations theme).
Proof.
  intros Ho Hc. destruct (owned_cited_source d Ho Hc) as (doc_id & c & H1 & H2).
  unfold make_theme, getitem. rewrite H1, H2. cbn [bind].
  eexists. split; [reflexivity|]. repeat constructor.
Qed.

Lemma make_themes_returns i top :
  Forall owned top -> Forall cited top ->
  exists themes, make_themes i top = Return themes
                 /\ Forall (fun theme => Forall is_str (citations theme)) themes.
Proof.
  intros Ho Hc. revert i; induction top as [|d top IH]; intros i; cbn [make_themes].
  - exists []. split; [reflexivity|constructor].
  - apply Forall_cons in Ho as [Ho Ho'], Hc as [Hc Hc'].
    destruct (make_theme_returns i d Ho Hc) as (t & -> & Ht).
    destruct (IH Ho' Hc' (i + 1)) as (ts & -> & Hts). cbn [bind].
    exists (t :: ts). split; [reflexivity|constructor; assumption].
Qed.

Lemma expand_loop_returns theme similar :
  Forall owned similar -> Forall cited similar ->
  Forall is_str (citations theme) ->
  exists theme', expand_loop theme similar = Return theme'
                 /\ Forall is_str (citations theme').
Proof.
  intros Ho Hc. revert theme; induction similar as [|d similar IH]; intros theme Hs;
    cbn [expand_loop].
  - exists theme. split; [reflexivity|exact Hs].
  - apply Forall_cons in Ho as [Ho Ho'], Hc as [Hc Hc'].
    destruct (owned_cited_source d Ho Hc) as (doc_id & c & H1 & H2).
    unfold expand_step, getitem. rewrite H1, H2. cbn [bind].
    case_bool_decide; cbn [bind]; apply IH; try assumption.
    cbn [citations]. apply Forall_app. split; [exact Hs|repeat constructor].
Qed.

Lemma expand_themes_returns index themes :
  search_within env index -> Forall owned index -> Forall cited index ->
  Forall (fun theme => Forall is_str (citations theme)) themes ->
  exists themes', expand_themes env (Some index) themes = Return themes'
                  /\ Forall (fun theme => Forall is_str (citations theme)) themes'.
Proof.
  intros Hw Ho Hc. induction 1 as [|t themes Ht _ (ts & IH & Hts)]; cbn [expand_themes].
  - exists []. split; [reflexivity|constructor].
  - destruct (query_vector_db_returns env (Some index) (description t) 10) as [similar Es].
    rewrite Es. cbn [bind].
    assert (Hsub : tail similar ⊆ index).
    { pose proof (query_vector_db_within _ _ _ _ Hw Es) as Hs.
      intros x Hx. apply Hs. destruct similar; [exact Hx|right; exact Hx]. }
    destruct (expand_loop_returns t (tail similar)) as (t' & -> & Ht').
    + rewrite Forall_forall in Ho. apply Forall_forall. intros x Hx. apply Ho, Hsub, Hx.
    + rewrite Forall_forall in Hc. apply Forall_forall. intros x Hx. apply Hc, Hsub, Hx.
    + exact Ht.
    + cbn [bind]. rewrite IH. cbn [bind]. exists (t' :: ts).
      split; [reflexivity|constructor; assumption].
Qed.

Lemma format_themes_returns i themes themes_text :
  Forall (fun theme => Forall is_str (citations theme)) themes ->
  exists text, format_themes i themes themes_text = Return text.
Proof.
  intros H. revert i themes_text; induction H as [|t themes Ht _ IH]; intros i themes_text;
    cbn [format_themes].
  - eauto.
  - destruct (join_vals_Return (py ", ") _ Ht) as (strs & -> & _). cbn [bind]. apply IH.
Qed.

Lemma build_themes_returns index query top_n :
  search_within env index -> Forall owned index -> Forall cited index ->
  exists themes, build_themes env (Some index) query top_n = Return themes
                 /\ Forall (fun theme => Forall is_str (citations theme)) themes.
Proof.
  intros Hw Ho Hc. unfold build_themes.
  destruct (query_vector_db_returns env (Some index) query top_n) as [top Et].
  rewrite Et. cbn [bind].
  pose proof (query_vector_db_within _ _ _ _ Hw Et) as Hsub.
  destruct (make_themes_returns 0 top) as (ts & -> & Hts).
  - rewrite Forall_forall in Ho. apply Forall_forall. intros x Hx. apply Ho, Hsub, Hx.
  - rewrite Forall_forall in Hc. apply Forall_forall. intros x Hx. apply Hc, Hsub, Hx.
  - cbn [bind]. apply expand_themes_returns; assumption.
Qed.

(** X16.  [identify_themes] has no handler of its own, yet it returns a
    result whenever every chunk of the shared index names its document, the
    index search answers with chunks of the index, and the chat client can
    be built: no key is missing and every citation is a string, whatever the
    synthesis call does.  The variant on a constructed processor returns
    under the first two conditions. *)
Theorem identify_themes_returns_on_sound_index (fs : FS) (query : str)
    (document_results : list doc_result) (top_n : nat) :
  (forall index,
     create_multi_document_vector_db env fs (map dr_doc_id document_results)
     = Return (Some index) ->
     Forall owned index /\ search_within env index) ->
  (ChatOpenAI env = Return tt ->
   exists result, identify_themes env fs query document_results top_n = Return result)
  /\ exists result, identify_themes_modern env fs query document_results top_n = Return result.
Proof.
  intros Hsound. unfold identify_themes, identify_themes_modern.
  destruct document_results as [|r1 [|r2 rest]]; [eauto..|]. cbv zeta.
  destruct (create_multi_document_vector_db_returns env fs (map dr_doc_id (r1 :: r2 :: rest)))
    as [[index|] Edb]; rewrite Edb; cbn [bind]; [|eauto].
  destruct (Hsound index Edb) as [Ho Hw].
  pose proof (shared_index_cited env fs _ _ Edb) as Hc.
  destruct (build_themes_returns index query top_n Hw Ho Hc) as (ts & -> & Hts).
  cbn [bind]. destruct (format_themes_returns 0 ts [] Hts) as [text ->]. cbn [bind].
  split; [|eauto]. intros ->. cbn [bind]. eauto.
Qed.

(** X17.  Building the chat client is not guarded in [identify_themes]: when
    themes were built from two or more results and the client cannot be
    built, the exception leaves the function, where only a failure of the
    synthesis call itself is replaced by the fixed summary. *)
Theorem theme_client_failure_propagates (fs : FS) (query : str)
    (document_results : list doc_result) (top_n : nat)
    (index : list Document) (themes : list Theme) (e : str) :
  2 <= length document_results ->
  create_multi_document_vector_db env fs (map dr_doc_id document_results)
  = Return (Some index) ->
  build_themes env (Some index) query top_n = Return themes ->
  ChatOpenAI env = Raise e ->
  identify_themes env fs query document_results top_n = Raise e.
Proof.
  intros Hlen Hdb Hb Hllm. unfold identify_themes.
  destruct document_results as [|r1 [|r2 rest]]; [simpl in Hlen; lia..|]. cbv zeta.
  rewrite Hdb. cbn [bind]. rewrite Hb. cbn [bind]. rewrite Hllm. reflexivity.
Qed.

(** X18.  When the synthesis call raises, the themes are returned all the
    same and the answer is the fixed summary, which counts the themes and
    the per-document results that were passed in. *)
Theorem synthesis_failure_gives_summary (fs : FS) (query : str)
    (document_results : list doc_result) (top_n : nat)
    (index : list Document) (result : theme_result) :
  2 <= length document_results ->
  create_multi_document_vector_db env fs (map dr_doc_id document_results)
  = Return (Some index) ->
  (forall themes_text, exists e, synthesis_invoke env query themes_text = Raise e) ->
  identify_themes env fs query document_results top_n = Return result ->
  build_themes env (Some index) query top_n = Return (themes result)
  /\ synthesized_answer result
     = py "Analysis of " ++ str_of_nat (length (themes result))
         ++ py " themes found across " ++ str_of_nat (length document_results)
         ++ py " documents for query: '" ++ query ++ py "'".
Proof.
  intros Hlen Hdb Hsyn. unfold identify_themes.
  destruct document_results as [|r1 [|r2 rest]]; [simpl in Hlen; lia..|]. cbv zeta.
  rewrite Hdb. cbn [bind].
  destruct (build_themes env (Some index) query top_n) as [ts|]; [|discriminate]. cbn [bind].
  destruct (ChatOpenAI env); [|discriminate]. cbn [bind].
  destruct (format_themes 0 ts []) as [text|]; [|discriminate]. cbn [bind].
  destruct (Hsyn text) as [e ->]. intros [= <-]. split; [reflexivity|].
  cbn [synthesized_answer themes]. unfold synthesis_fallback. rewrite length_map. reflexivity.
Qed.

(** X19.  The variants of theme synthesis build the same themes: when the
    chat client and the processor can be built, [identify_themes],
    [identify_themes_modern] and the wrapper that constructs a processor
    return the same theme list or raise the same exception; they can differ
    in the synthesized answer only. *)
Theorem theme_variants_build_the_same_themes (new_processor : outcome unit) (fs : FS)
    (query : str) (document_results : list doc_result) (top_n : nat) :
  ChatOpenAI env = Return tt ->
  new_processor = Return tt ->
  themes_of (identify_themes env fs query document_results top_n)
  = themes_of (identify_themes_modern env fs query document_results top_n)
  /\ identify_themes_with_modern_processor env new_processor fs query document_results top_n
     = identify_themes_modern env fs query document_results top_n.
Proof.
  intros Hllm ->. split; [|reflexivity].
  unfold identify_themes, identify_themes_modern, themes_of.
  destruct document_results as [|r1 [|r2 rest]]; [reflexivity..|]. cbv zeta.
  destruct (create_multi_document_vector_db env fs _) as [[index|]|]; cbn [bind];
    [|reflexivity..].
  destruct (build_themes env (Some index) query top_n) as [ts|]; [|reflexivity]. cbn [bind].
  rewrite Hllm. cbn [bind].
  destruct (format_themes 0 ts []) as [text|]; reflexivity.
Qed.

End ThemeSafety.

Lemma identify_themes_returns_on_sound_index_witness :
  exists result,
    identify_themes_modern env_two fs_two (py "revenue?") results_two 5 = Return result.
Proof.
  destruct (identify_themes_returns_on_sound_index env_two fs_two (py "revenue?")
              results_two 5) as [_ H].
  - intros index Hi. vm_compute in Hi. injection Hi as <-. split.
    + repeat constructor; eexists; vm_compute; reflexivity.
    + intros query k docs Hs. injection Hs as <-. intros d Hd. exact Hd.
  - exact H.
Defined.

Lemma theme_client_failure_propagates_witness :
  identify_themes env_no_client fs_two (py "revenue?") results_two 5
  = Raise (py "no API key").
Proof.
  apply (theme_client_failure_propagates env_no_client fs_two (py "revenue?") results_two 5
           index_two (themes result_two)).
  - simpl. lia.
  - vm_compute. reflexivity.
  - vm_compute. reflexivity.
  - reflexivity.
Defined.

Lemma synthesis_failure_gives_summary_witness :
  synthesized_answer result_two_down
  = py "Analysis of " ++ str_of_nat (length (themes result_two_down))
      ++ py " themes found across " ++ str_of_nat (length results_two)
      ++ py " documents for query: '" ++ py "revenue?" ++ py "'".
Proof.
  destruct (synthesis_failure_gives_summary (env_down search_everything) fs_two
              (py "revenue?") results_two 5 index_two result_two_down) as [_ H].
  - simpl. lia.
  - vm_compute. reflexivity.
  - intros themes_text. exists (py "timeout"). reflexivity.
  - vm_compute. reflexivity.
  - exact H.
Defined.

Lemma theme_variants_build_the_same_themes_witness :
  themes_of (identify_themes env_two fs_two (py "revenue?") results_two 5)
  = themes_of (identify_themes_modern env_two fs_two (py "revenue?") results_two 5).
Proof.
  destruct (theme_variants_build_the_same_themes env_two (Return tt) fs_two
              (py "revenue?") results_two 5) as [H _].
  - reflexivity.
  - reflexivity.
  - exact H.
Defined.

(* ===================================================================== *)
(** * Properties of the query variant without a chain                    *)
(* ===================================================================== *)

#[global] Arguments simple_context_of : simpl never.
#[global] Arguments prompt_text_of : simpl never.
#[global] Arguments simple_fallback_result : simpl never.

Section SimpleVariant.

Context (env : Env) (chat : Chat) (fs : FS).

Lemma simple_fallback_result_facts docs context r :
  simple_fallback_result docs context = Return r ->
  confidence r = conf_simple_fallback
  /\ answer r = py "Found relevant information in the document: "
                  ++ take 300 context ++ py "..."
  /\ exists r', fallback_result docs = Return r' /\ citation r' = citation r.
Proof.
  unfold simple_fallback_result, fallback_result.
  destruct (join_vals _ _) as [text|]; cbn [bind]; [|discriminate].
  intros [= <-]. split_and!; [reflexivity..|]. eexists. split; reflexivity.
Qed.

Lemma simple_fallback_result_Raise docs context e :
  simple_fallback_result docs context = Raise e -> fallback_result docs = Raise e.
Proof.
  unfold simple_fallback_result, fallback_result.
  destruct (join_vals _ _) as [text|]; cbn [bind]; [discriminate|]. auto.
Qed.

(** X20.  [query_document_simple] returns a record whatever the
    collaborators do.  Its confidence is 0, 0.5 or 0.95.  It is 0.95 only
    when chunks were retrieved, the client was built and the model answered
    the prompt, and the answer is then the model's.  It is 0.5 only when
    chunks were retrieved, the client was built and the call to the model
    raised, and the answer is then an excerpt of at most 300 characters of
    the context that was built for the prompt, headed as a finding, 347
    characters at most in all.  A record of confidence 0 has the citation
    ["Error"] or ["N/A"]. *)
Theorem query_document_simple_always_returns (query content_path doc_id : str) :
  exists r,
    query_document_simple env chat fs query content_path doc_id = Return r
    /\ (confidence r = conf_none \/ confidence r = conf_simple_fallback
        \/ confidence r = conf_generated)
    /\ (confidence r = conf_generated ->
        exists index docs,
          create_document_vector_db env fs doc_id = Return (Some index)
          /\ query_vector_db env (Some index) query 3 = Return docs
          /\ docs <> []
          /\ new_llm chat = Return tt
          /\ llm_invoke chat (prompt_text_of query (simple_context_of docs)) = Return (answer r))
    /\ (confidence r = conf_simple_fallback ->
        length (answer r) <= 347
        /\ exists index docs e,
             create_document_vector_db env fs doc_id = Return (Some index)
             /\ query_vector_db env (Some index) query 3 = Return docs
             /\ docs <> []
             /\ new_llm chat = Return tt
             /\ llm_invoke chat (prompt_text_of query (simple_context_of docs)) = Raise e
             /\ answer r = py "Found relevant information in the document: "
                  ++ take 300 (simple_context_of docs) ++ py "...")
    /\ (confidence r = conf_none ->
        citation r = py "Error" \/ citation r = py "N/A").
Proof.
  unfold query_document_simple, query_document_simple_body.
  destruct (create_document_vector_db_returns env fs doc_id) as [[index|] Hdb];
    rewrite Hdb; cbn [bind try_except].
  2:{ eexists. split; [reflexivity|]. cbn [confidence citation].
      split_and!; [auto|discriminate..|auto]. }
  destruct (query_vector_db_returns env (Some index) query 3) as [[|d docs] Hdocs];
    rewrite Hdocs; cbn [bind try_except].
  { eexists. split; [reflexivity|]. cbn [confidence citation].
    split_and!; [auto|discriminate..|auto]. }
  destruct (new_llm chat) as [[]|e0] eqn:Hllm; cbn [bind try_except].
  2:{ eexists. split; [reflexivity|]. cbn [confidence citation].
      split_and!; [auto|discriminate..|auto]. }
  cbv zeta.
  assert (Hfb : forall r,
            simple_fallback_result (d :: docs) (simple_context_of (d :: docs)) = Return r ->
            confidence r = conf_simple_fallback
            /\ length (answer r) <= 347
            /\ answer r = py "Found relevant information in the document: "
                 ++ take 300 (simple_context_of (d :: docs)) ++ py "...").
  { intros r Hr. destruct (simple_fallback_result_facts _ _ _ Hr) as (Hc & Ha & _).
    split_and!; [exact Hc| |exact Ha].
    rewrite Ha, !length_app, length_take.
    vm_compute (length (py "...")).
    vm_compute (length (py "Found relevant information in the document: ")). lia. }
  destruct (llm_invoke chat (prompt_text_of query (simple_context_of (d :: docs))))
    as [response|e1] eqn:Hinv; cbn [bind try_except].
  - destruct (generated_result (d :: docs) response) as [r|e2] eqn:Hgen; cbn [try_except].
    + destruct (generated_result_confidence _ _ _ Hgen) as [Hc Ha].
      exists r. split; [reflexivity|]. rewrite Hc.
      split_and!; [auto| |discriminate|discriminate].
      intros _. exists index, (d :: docs). rewrite Ha. split_and!; auto; discriminate.
    + destruct (simple_fallback_result (d :: docs) (simple_context_of (d :: docs)))
        as [r|e3] eqn:Hr; cbn [try_except].
      * destruct (generated_result_Raise _ _ _ Hgen) as [e' He'].
        destruct (simple_fallback_result_facts _ _ _ Hr) as (_ & _ & r' & Hr' & _).
        rewrite Hr' in He'. discriminate.
      * eexists. split; [reflexivity|]. cbn [confidence citation].
        split_and!; [auto|discriminate..|auto].
  - destruct (simple_fallback_result (d :: docs) (simple_context_of (d :: docs)))
      as [r|e3] eqn:Hr; cbn [try_except].
    + destruct (Hfb r eq_refl) as (Hc & Hl & Ha).
      exists r. split; [reflexivity|]. rewrite Hc.
      split_and!; [auto|discriminate| |discriminate].
      intros _. split; [exact Hl|]. exists index, (d :: docs), e1.
      split_and!; auto; discriminate.
    + eexists. split; [reflexivity|]. cbn [confidence citation].
      split_and!; [auto|discriminate..|auto].
Qed.

End SimpleVariant.

Section VariantsAgree.

Context (env : Env) (chat : Chat) (fs : FS).

(** X21.  The two query functions treat citations alike.  Whenever they
    return records of the same kind for a query (both a generated answer,
    both an excerpt, or both a record of confidence 0), the citation fields
    are equal; the excerpts differ in source and length, and the confidences
    of the excerpts are 0.7 and 0.5. *)
Theorem query_variants_cite_alike (query content_path doc_id : str) (r1 r2 : query_result) :
  query_document env fs query content_path doc_id = Return r1 ->
  query_document_simple env chat fs query content_path doc_id = Return r2 ->
  (confidence r1 = conf_generated <-> confidence r2 = conf_generated) ->
  (confidence r1 = conf_fallback <-> confidence r2 = conf_simple_fallback) ->
  citation r1 = citation r2.
Proof.
  unfold query_document, query_document_body, query_document_simple,
    query_document_simple_body.
  destruct (create_document_vector_db env fs doc_id) as [[index|]|e]; cbn [bind try_except].
  2,3: intros [= <-] [= <-] _ _; reflexivity.
  destruct (query_vector_db env (Some index) query 3) as [[|d docs]|e]; cbn [bind try_except].
  1,3: intros [= <-] [= <-] _ _; reflexivity.
  cbv zeta.
  set (docs' := d :: docs).
  assert (Hgen : forall a b ra rb,
            generated_result docs' a = Return ra -> generated_result docs' b = Return rb ->
            citation ra = citation rb).
  { intros a b ra rb. unfold generated_result.
    destruct (join_vals _ _); cbn [bind]; [|discriminate].
    intros [= <-] [= <-]. reflexivity. }
  assert (Hfb : forall ra rb,
            fallback_result docs' = Return ra ->
            simple_fallback_result docs' (simple_context_of docs') = Return rb ->
            citation ra = citation rb).
  { intros ra rb Ha Hb. destruct (simple_fallback_result_facts _ _ _ Hb) as (_ & _ & r' & Hr' & <-).
    congruence. }
  assert (Hkind : forall a ra, generated_result docs' a = Return ra ->
                               confidence ra = conf_generated).
  { intros a ra H. apply (generated_result_confidence _ _ _ H). }
  assert (Hkind1 : forall ra, fallback_result docs' = Return ra ->
                              confidence ra = conf_fallback).
  { intros ra H. apply (fallback_result_confidence _ _ H). }
  assert (Hkind2 : forall rb,
            simple_fallback_result docs' (simple_context_of docs') = Return rb ->
            confidence rb = conf_simple_fallback).
  { intros rb H. apply (simple_fallback_result_facts _ _ _ H). }
  (* the first function *)
  assert (H1 : forall r,
            try_except
              (_ <- ChatOpenAI env;;
               try_except
                 (response <- chain_invoke env query (context_of docs');;
                  generated_result docs' response)
                 (fun _ => fallback_result docs'))
              (fun e => Return (mkQueryResult (py "Error processing query: " ++ e)
                                  (py "Error") conf_none)) = Return r ->
            (exists a, generated_result docs' a = Return r)
            \/ fallback_result docs' = Return r
            \/ (confidence r = conf_none /\ citation r = py "Error")).
  { intros r. destruct (ChatOpenAI env) as [[]|e0]; cbn [bind try_except].
    2:{ intros [= <-]. right. right. split; reflexivity. }
    destruct (chain_invoke env query (context_of docs')) as [a|e1]; cbn [bind try_except].
    - destruct (generated_result docs' a) as [ra|e2] eqn:E; cbn [try_except].
      + intros [= <-]. left. eauto.
      + destruct (fallback_result docs') as [rb|e3]; cbn [try_except].
        * intros [= <-]. right. left. reflexivity.
        * intros [= <-]. right. right. split; reflexivity.
    - destruct (fallback_result docs') as [rb|e3]; cbn [try_except].
      + intros [= <-]. right. left. reflexivity.
      + intros [= <-]. right. right. split; reflexivity. }
  assert (H2 : forall r,
            try_except
              (_ <- new_llm chat;;
               try_except
                 (answer <- llm_invoke chat (prompt_text_of query (simple_context_of docs'));;
                  generated_result docs' answer)
                 (fun _ => simple_fallback_result docs' (simple_context_of docs')))
              (fun e => Return (mkQueryResult (py "Error processing query: " ++ e)
                                  (py "Error") conf_none)) = Return r ->
            (exists a, generated_result docs' a = Return r)
            \/ simple_fallback_result docs' (simple_context_of docs') = Return r
            \/ (confidence r = conf_none /\ citation r = py "Error")).
  { intros r. destruct (new_llm chat) as [[]|e0]; cbn [bind try_except].
    2:{ intros [= <-]. right. right. split; reflexivity. }
    destruct (llm_invoke chat _) as [a|e1]; cbn [bind try_except].
    - destruct (generated_result docs' a) as [ra|e2] eqn:E; cbn [try_except].
      + intros [= <-]. left. eauto.
      + destruct (simple_fallback_result docs' _) as [rb|e3]; cbn [try_except].
        * intros [= <-]. right. left. reflexivity.
        * intros [= <-]. right. right. split; reflexivity.
    - destruct (simple_fallback_result docs' _) as [rb|e3]; cbn [try_except].
      + intros [= <-]. right. left. reflexivity.
      + intros [= <-]. right. right. split; reflexivity. }
  intros Hr1 Hr2 Hg Hf.
  apply H1 in Hr1. apply H2 in Hr2.
  destruct Hr1 as [[a Ha]|[Ha|[Ha Hc1]]], Hr2 as [[b Hb]|[Hb|[Hb Hc2]]].
  - eapply Hgen; eassumption.
  - apply Hkind in Ha. apply Hkind2 in Hb. apply Hg in Ha. rewrite Hb in Ha. discriminate.
  - apply Hkind in Ha. apply Hg in Ha. rewrite Hb in Ha. discriminate.
  - apply Hkind1 in Ha. apply Hkind in Hb. apply Hg in Hb. rewrite Ha in Hb. discriminate.
  - apply Hfb; assumption.
  - apply Hkind1 in Ha. apply Hf in Ha. rewrite Hb in Ha. discriminate.
  - apply Hkind in Hb. apply Hg in Hb. rewrite Ha in Hb. discriminate.
  - apply Hkind2 in Hb. apply Hf in Hb. rewrite Ha in Hb. discriminate.
  - congruence.
Qed.

End VariantsAgree.

Lemma query_variants_cite_alike_witness :
  citation (record_of (query_document env_two fs_d1 (py "revenue?") (py "a.txt") (py "d1")))
  = citation (record_of (query_document_simple env_two chat_up fs_d1 (py "revenue?")
                           (py "a.txt") (py "d1"))).
Proof.
  apply (query_variants_cite_alike env_two chat_up fs_d1 (py "revenue?") (py "a.txt")
           (py "d1")).
  - vm_compute. reflexivity.
  - vm_compute. reflexivity.
  - split; intros _; vm_compute; reflexivity.
  - split; intros H; vm_compute in H; discriminate.
Defined.

(* ===================================================================== *)
(** * Properties of the application                                      *)
(* ===================================================================== *)

Section UploadFilter.

Lemma take_while_all (p : ascii -> bool) s t :
  Forall (fun c => p c = true) s -> take_while p (s ++ t) = s ++ take_while p t.
Proof. induction 1 as [|c s Hc _ IH]; [reflexivity|]. simpl. rewrite Hc, IH. reflexivity. Qed.

Lemma drop_while_all (p : ascii -> bool) s t :
  Forall (fun c => p c = true) s -> drop_while p (s ++ t) = drop_while p t.
Proof. induction 1 as [|c s Hc _ IH]; [reflexivity|]. simpl. rewrite Hc, IH. reflexivity. Qed.

Lemma absent_test (x : ascii) s :
  x ∉ s -> Forall (fun c => negb (Ascii.eqb c x) = true) (rev s).
Proof.
  intros H. apply Forall_forall. intros c Hc.
  destruct (Ascii.eqb_spec c x) as [->|]; [|reflexivity].
  destruct H. apply list_elem_of_In, in_rev, list_elem_of_In. exact Hc.
Qed.

(** The reversed base name of a path that ends in ["_" ++ name], for a
    [name] without a slash. *)
Lemma basename_stored pre name :
  "/"%char ∉ name ->
  exists kept,
    rev (basename (pre ++ "_"%char :: name)) = rev name ++ "_"%char :: kept.
Proof.
  intros Hs. unfold basename. rewrite rev_involutive, rev_app_distr. cbn [rev].
  rewrite <- !app_assoc. cbn [app].
  rewrite take_while_all by (apply absent_test; exact Hs).
  cbn [take_while]. change (negb (Ascii.eqb "_" "/")) with true. cbn iota.
  eexists. reflexivity.
Qed.

Lemma stored_path_shape doc_id name :
  exists pre, stored_path doc_id name = pre ++ "_"%char :: name.
Proof.
  unfold stored_path, path_join.
  destruct (doc_id ++ py "_" ++ name) as [|c b] eqn:E.
  - destruct doc_id; discriminate.
  - rewrite <- E. destruct (Ascii.eqb c "/").
    + exists doc_id. reflexivity.
    + exists (UPLOAD_FOLDER ++ py "/" ++ doc_id). rewrite <- !app_assoc. reflexivity.
Qed.

(** The extension of a stored path is the part of the name from its last
    dot on. *)
Lemma splitext_stored_dot pre before ext :
  "/"%char ∉ before ++ "."%char :: ext -> "."%char ∉ ext ->
  splitext_ext (pre ++ "_"%char :: before ++ "."%char :: ext) = "."%char :: ext.
Proof.
  intros Hs Hd. unfold splitext_ext.
  destruct (basename_stored pre _ Hs) as [kept ->].
  rewrite rev_app_distr. cbn [rev]. rewrite <- !app_assoc. cbn [app].
  rewrite take_while_all, drop_while_all by (apply absent_test; exact Hd).
  cbn [take_while drop_while]. change (negb (Ascii.eqb "." ".")) with false. cbn iota.
  rewrite forallb_app. cbn [forallb]. change (Ascii.eqb "_" ".") with false.
  rewrite andb_false_r, app_nil_r, rev_involutive. reflexivity.
Qed.

(** Without a dot in the name, the extension of the stored path is empty or
    holds the underscore that was put before the name. *)
Lemma splitext_stored_no_dot pre name :
  "/"%char ∉ name -> "."%char ∉ name ->
  splitext_ext (pre ++ "_"%char :: name) = []
  \/ "_"%char ∈ splitext_ext (pre ++ "_"%char :: name).
Proof.
  intros Hs Hd. unfold splitext_ext.
  destruct (basename_stored pre _ Hs) as [kept ->].
  rewrite take_while_all, drop_while_all by (apply absent_test; exact Hd).
  cbn [take_while drop_while]. change (negb (Ascii.eqb "_" ".")) with true. cbn iota.
  destruct (drop_while _ kept) as [|dot before]; [left; reflexivity|].
  destruct (forallb _ before); [left; reflexivity|]. right.
  rewrite rev_app_distr. cbn [rev]. rewrite !elem_of_app, elem_of_cons.
  right. left. right. left. reflexivity.
Qed.

Lemma rsplit_dot_last before ext :
  "."%char ∉ ext -> rsplit_dot (before ++ "."%char :: ext) = [before; ext].
Proof.
  intros Hd. unfold rsplit_dot. rewrite rev_app_distr. cbn [rev].
  rewrite <- !app_assoc. cbn [app].
  rewrite take_while_all, drop_while_all by (apply absent_test; exact Hd).
  cbn [take_while drop_while]. change (negb (Ascii.eqb "." ".")) with false. cbn iota.
  rewrite app_nil_r, !rev_involutive. reflexivity.
Qed.

Lemma lower_keeps_underscore s : "_"%char ∈ s -> "_"%char ∈ lower s.
Proof.
  intros H. unfold lower. change (map lower_char s) with (lower_char <$> s).
  apply list_elem_of_fmap. exists "_"%char. split; [reflexivity|exact H].
Qed.

Lemma loadable_no_underscore file_ext : loadable file_ext -> "_"%char ∉ file_ext.
Proof.
  intros [->|H]; [apply absent_by_test; reflexivity|].
  unfold image_exts in H. rewrite !elem_of_cons, elem_of_nil in H.
  destruct H as [->|[->|[->|[->|[->|[]]]]]];
    apply absent_by_test; reflexivity.
Qed.

Lemma loadable_allowed ext :
  loadable ("."%char :: ext) <-> ext ∈ ALLOWED_EXTENSIONS.
Proof.
  unfold loadable, image_exts, ALLOWED_EXTENSIONS.
  rewrite !elem_of_cons, !elem_of_nil. unfold py. cbn [list_ascii_of_string].
  split.
  - intros [[= ->]|[[= ->]|[[= ->]|[[= ->]|[[= ->]|[[= ->]|[]]]]]]]; tauto.
  - intros [->|[->|[->|[->|[->|[->|[]]]]]]]; tauto.
Qed.

(** The loader dispatch reads the stored name as the filter would. *)
Lemma stored_name_loadable doc_id name :
  plain_name name ->
  allowed_file name = true
  <-> loadable (lower (splitext_ext (stored_path doc_id name))).
Proof.
  intros Hs. destruct (stored_path_shape doc_id name) as [pre ->].
  unfold allowed_file. case_bool_decide as Hdot; cbn [andb].
  - destruct (list_elem_of_split_r _ _ Hdot) as (before & ext & -> & Hd).
    rewrite rsplit_dot_last by exact Hd. cbn [lookup list_lookup].
    rewrite splitext_stored_dot by assumption.
    change (lower ("."%char :: ext)) with ("."%char :: lower ext).
    rewrite loadable_allowed. apply bool_decide_eq_true.
  - split; [discriminate|]. intros Hl. exfalso.
    destruct (splitext_stored_no_dot pre name Hs Hdot) as [E|Hu].
    + rewrite E in Hl. destruct Hl as [Hl|Hl]; [discriminate|].
      unfold image_exts in Hl. rewrite !elem_of_cons, elem_of_nil in Hl.
      destruct Hl as [Hl|[Hl|[Hl|[Hl|[Hl|[]]]]]]; discriminate.
    + apply (loadable_no_underscore _ Hl). apply lower_keeps_underscore. exact Hu.
Qed.

(** X22.  [upload_files] tests the name that was sent, stores the file
    under the name [secure_filename] makes of it, and [process_document]
    chooses its loader by the stored path.  For an upload whose stored name
    has no slash, [process_document] has a loader for the stored path
    exactly when [allowed_file] accepts the stored name.  So the filter and
    the loaders agree on an upload whose name [secure_filename] leaves as
    it is; and an upload the filter let through whose stored name the
    filter would refuse can only end in the "Unsupported file type" error
    record, with nothing written. *)
Theorem loaders_follow_the_stored_name (secure_filename : str -> str) (file : upload) :
  plain_name (secure_filename (up_filename file)) ->
  let item := item_of secure_filename file in
  (allowed_file (secure_filename (up_filename file)) = true
   <-> loadable (lower (splitext_ext (di_file_path item))))
  /\ (secure_filename (up_filename file) = up_filename file ->
      (allowed_file (up_filename file) = true
       <-> loadable (lower (splitext_ext (di_file_path item)))))
  /\ (allowed_file (secure_filename (up_filename file)) = false ->
      forall env fs,
        process_document env (di_file_path item) (di_doc_id item) fs
        = (fs, ProcError (di_doc_id item)
                 (py "Unsupported file type: "
                    ++ lower (splitext_ext (di_file_path item))))).
Proof.
  intros Hs. cbv zeta. unfold item_of. cbn [di_file_path di_doc_id].
  pose proof (stored_name_loadable (up_uuid file) _ Hs) as Hiff.
  split_and!.
  - exact Hiff.
  - intros E. rewrite E in Hiff. rewrite E. exact Hiff.
  - intros Hno env fs.
    assert (Hnl : ~ loadable (lower (splitext_ext
                     (stored_path (up_uuid file) (secure_filename (up_filename file)))))).
    { intros Hl. apply Hiff in Hl. congruence. }
    apply process_document_unsupported; intros H; apply Hnl; [left|right]; exact H.
Qed.

End UploadFilter.

Lemma loaders_follow_the_stored_name_witness :
  (allowed_file (up_filename upload_report) = true
   /\ loadable (lower (splitext_ext (di_file_path (item_of (fun name => name) upload_report)))))
  /\ (allowed_file (up_filename upload_dots) = true
      /\ process_document env_two (di_file_path (item_of strip_dots upload_dots))
           (py "u3") empty_fs
         = (empty_fs,
            ProcError (py "u3")
              (py "Unsupported file type: "
                 ++ lower (splitext_ext (di_file_path (item_of strip_dots upload_dots)))))).
Proof.
  split.
  - destruct (loaders_follow_the_stored_name (fun name => name) upload_report) as (_ & H & _).
    + apply absent_by_test. reflexivity.
    + split; [reflexivity|]. apply H; reflexivity.
  - destruct (loaders_follow_the_stored_name strip_dots upload_dots) as (_ & _ & H).
    + apply absent_by_test. reflexivity.
    + split; [reflexivity|]. apply (H eq_refl env_two empty_fs).
Defined.

#[global] Arguments process_document : simpl never.

Section Worker.

Context (env : Env).

Lemma od_get_set_eq {V} (d : list (str * V)) k v : od_get (od_set d k v) k = Some v.
Proof.
  induction d as [|[k' v'] d IH]; cbn [od_set od_get].
  - rewrite bool_decide_eq_true_2 by reflexivity. reflexivity.
  - case_bool_decide as E; cbn [od_get].
    + rewrite bool_decide_eq_true_2 by reflexivity. reflexivity.
    + rewrite bool_decide_eq_false_2 by exact E. exact IH.
Qed.

Lemma od_get_set_ne {V} (d : list (str * V)) k k' v :
  k' <> k -> od_get (od_set d k v) k' = od_get d k'.
Proof.
  intros Hne. induction d as [|[k0 v0] d IH]; cbn [od_set od_get].
  - rewrite bool_decide_eq_false_2 by congruence. reflexivity.
  - case_bool_decide as E; cbn [od_get].
    + subst k0. rewrite !bool_decide_eq_false_2 by congruence. reflexivity.
    + rewrite IH. reflexivity.
Qed.

Lemma handle_item_unfold now item st fs :
  handle_item env now item st fs
  = match process_document env (di_file_path item) (di_doc_id item) fs with
    | (fs', ProcSuccess _ chunks file_type ocr_used) =>
        (mkApp (od_set (od_set (doc_status st) (di_doc_id item) (py "processing"))
                  (di_doc_id item) (py "completed"))
               (<[di_doc_id item :=
                    mkDocMeta (di_original_filename item) (di_file_path item) now
                      chunks file_type ocr_used]> (doc_metadata st))
               (doc_queue st), fs')
    | (fs', ProcError _ error_msg) =>
        (mkApp (od_set (od_set (doc_status st) (di_doc_id item) (py "processing"))
                  (di_doc_id item) (py "error: " ++ error_msg))
               (doc_metadata st) (doc_queue st), fs')
    end.
Proof.
  unfold handle_item. cbv zeta.
  destruct (process_document env (di_file_path item) (di_doc_id item) fs) as [fs' [? ? ? ?|? ?]];
    reflexivity.
Qed.

Lemma process_document_success_artifacts file_path doc_id fs fs' d n ft ocr :
  process_document env file_path doc_id fs = (fs', ProcSuccess d n ft ocr) ->
  Forall is_Some (artifacts fs' doc_id)
  /\ exists split_docs,
       extract env file_path (lower (splitext_ext file_path)) = Return (split_docs, ocr)
       /\ n = length split_docs
       /\ files fs' !! content_path_of doc_id
          = Some (FText (chunk_loop file_path doc_id 0 split_docs [] []).2).
Proof.
  rewrite process_document_unfold.
  destruct (extract env file_path _) as [[split_docs ocr']|e]; [|intros [=]].
  cbn [fst snd]. rewrite persist_unfold. cbv zeta.
  destruct (artifact_paths_distinct doc_id) as (D1 & D2 & D3).
  repeat case_bool_decide; cbn [to_result]; intros [= <- <- <- <- <-].
  assert (Hc : forall a b (m : gmap (list ascii) file) x,
             (<[metadata_path_of doc_id := a]>
                (<[chunks_path_of doc_id := b]> (<[content_path_of doc_id := x]> m)))
             !! content_path_of doc_id = Some x).
  { intros a b m x.
    rewrite lookup_insert_ne by (intros E; apply D2; symmetry; exact E).
    rewrite lookup_insert_ne by (intros E; apply D1; symmetry; exact E).
    apply lookup_insert_eq. }
  split.
  - unfold artifacts. cbn [files]. repeat constructor.
    + rewrite Hc. eauto.
    + rewrite lookup_insert_ne by (intros E; apply D3; symmetry; exact E).
      rewrite lookup_insert_eq. eauto.
    + rewrite lookup_insert_eq. eauto.
  - exists split_docs. split_and!; [reflexivity..|]. cbn [files]. apply Hc.
Qed.

(** X23.  After the worker has handled an item, the document is never left
    ["queued"] or ["processing"].  Its status is ["completed"] exactly when
    [process_document] returned the success record; the metadata entry then
    holds the chunk count, file type and OCR flag of that record, and the
    three artifacts are in the store.  Otherwise the status is ["error: "]
    followed by the message of the error record, and the metadata is left as
    it was.  The status view reports just that.  The entries of other
    documents and the queue are not touched, and the store is the one
    [process_document] left. *)
Theorem handled_document_gets_final_status (now : str) (item : doc_info)
    (st : app_state) (fs : FS) :
  let doc_id := di_doc_id item in
  let st' := (handle_item env now item st fs).1 in
  let fs' := (handle_item env now item st fs).2 in
  fs' = (process_document env (di_file_path item) doc_id fs).1
  /\ match (process_document env (di_file_path item) doc_id fs).2 with
     | ProcSuccess _ chunks file_type ocr_used =>
         od_get (doc_status st') doc_id = Some (py "completed")
         /\ doc_metadata st' !! doc_id
            = Some (mkDocMeta (di_original_filename item) (di_file_path item) now
                      chunks file_type ocr_used)
         /\ Forall is_Some (artifacts fs' doc_id)
         /\ check_status st' doc_id
            = JsonStatus (py "completed")
                (Some (mkDocMeta (di_original_filename item) (di_file_path item) now
                         chunks file_type ocr_used))
     | ProcError _ error_msg =>
         od_get (doc_status st') doc_id = Some (py "error: " ++ error_msg)
         /\ doc_metadata st' !! doc_id = doc_metadata st !! doc_id
         /\ check_status st' doc_id
            = JsonStatus (py "error: " ++ error_msg) (doc_metadata st !! doc_id)
     end
  /\ handled st' doc_id
  /\ (forall other,
        other <> doc_id ->
        od_get (doc_status st') other = od_get (doc_status st) other
        /\ doc_metadata st' !! other = doc_metadata st !! other)
  /\ doc_queue st' = doc_queue st.
Proof.
  cbv zeta. rewrite handle_item_unfold.
  destruct (process_document env (di_file_path item) (di_doc_id item) fs)
    as [fs' [d n ft ocr|d e]] eqn:E; cbn [fst snd doc_status doc_metadata doc_queue].
  - split; [reflexivity|]. split; [|split; [|split; [|reflexivity]]].
    + split; [apply od_get_set_eq|]. split; [apply lookup_insert_eq|].
      split; [apply (process_document_success_artifacts _ _ _ _ _ _ _ _ E)|].
      unfold check_status. cbn [doc_status doc_metadata].
      rewrite od_get_set_eq, lookup_insert_eq. reflexivity.
    + eexists. split; [apply od_get_set_eq|]. left. reflexivity.
    + intros other Hne. rewrite !od_get_set_ne by exact Hne.
      rewrite lookup_insert_ne by congruence. split; reflexivity.
  - split; [reflexivity|]. split; [|split; [|split; [|reflexivity]]].
    + split; [apply od_get_set_eq|]. split; [reflexivity|].
      unfold check_status. cbn [doc_status doc_metadata].
      rewrite od_get_set_eq. reflexivity.
    + eexists. split; [apply od_get_set_eq|]. right. eauto.
    + intros other Hne. rewrite !od_get_set_ne by exact Hne. split; reflexivity.
Qed.

Lemma handle_item_handled now item st fs doc_id :
  handled st doc_id \/ doc_id = di_doc_id item ->
  handled (handle_item env now item st fs).1 doc_id.
Proof.
  intros H. rewrite handle_item_unfold.
  destruct (process_document env (di_file_path item) (di_doc_id item) fs)
    as [fs' [d n ft ocr|d e]]; cbn [fst doc_status].
  all: destruct (decide (doc_id = di_doc_id item)) as [->|Hne];
    [eexists; split; [apply od_get_set_eq|]; first [left; reflexivity|right; eauto]|].
  all: destruct H as [(status & Hs & Hf)|H]; [|contradiction].
  all: exists status; cbn [doc_status]; rewrite !od_get_set_ne by exact Hne; auto.
Qed.

Lemma handle_item_queue now item st fs :
  doc_queue (handle_item env now item st fs).1 = doc_queue st.
Proof.
  rewrite handle_item_unfold.
  destruct (process_document env (di_file_path item) (di_doc_id item) fs)
    as [fs' [d n ft ocr|d e]]; reflexivity.
Qed.

Lemma handle_all_handled clock n items st fs doc_id :
  handled st doc_id \/ doc_id ∈ map di_doc_id items ->
  handled (handle_all env clock n items st fs).1 doc_id.
Proof.
  revert n st fs; induction items as [|item items IH]; intros n st fs H; cbn [handle_all].
  - destruct H as [H|H]; [exact H|inversion H].
  - apply IH. cbn [map] in H. rewrite elem_of_cons in H.
    destruct H as [H|[H|H]]; [| |right; exact H]; left; apply handle_item_handled; auto.
Qed.

Lemma handle_all_queue clock n items st fs :
  doc_queue (handle_all env clock n items st fs).1 = doc_queue st.
Proof.
  revert n st fs; induction items as [|item items IH]; intros n st fs; cbn [handle_all].
  - reflexivity.
  - rewrite IH. apply handle_item_queue.
Qed.

(** Handling does not look at the queue. *)
Lemma handle_item_set_queue now item q st fs :
  handle_item env now item (set_queue q st) fs
  = (set_queue q (handle_item env now item st fs).1, (handle_item env now item st fs).2).
Proof.
  rewrite !handle_item_unfold.
  destruct (process_document env (di_file_path item) (di_doc_id item) fs)
    as [fs' [d n ft ocr|d e]]; reflexivity.
Qed.

Lemma handle_all_set_queue clock n items q st fs :
  handle_all env clock n items (set_queue q st) fs
  = (set_queue q (handle_all env clock n items st fs).1,
     (handle_all env clock n items st fs).2).
Proof.
  revert n st fs; induction items as [|item items IH]; intros n st fs; cbn [handle_all].
  - reflexivity.
  - rewrite handle_item_set_queue. cbn [fst snd]. apply IH.
Qed.

(** The loop takes the items that stand before anything else in the queue
    one per turn, in order. *)
Lemma process_queue_items clock n items tail turns st fs :
  doc_queue st = map Some items ++ tail ->
  process_queue env clock n (length items + turns) st fs
  = process_queue env clock (n + length items) turns
      (set_queue tail (handle_all env clock n items st fs).1)
      (handle_all env clock n items st fs).2.
Proof.
  revert n st fs; induction items as [|item items IH]; intros n st fs Hq.
  - cbn [length handle_all fst snd Nat.add]. rewrite Nat.add_0_r.
    destruct st as [s m q]. cbn [doc_queue map app] in Hq. subst q. reflexivity.
  - cbn [map app] in Hq. cbn [length Nat.add process_queue]. unfold worker_turn.
    rewrite Hq. rewrite handle_item_set_queue.
    destruct (handle_item env (clock n) item st fs) as [st1 fs1] eqn:E1.
    cbn [fst snd].
    rewrite IH by reflexivity.
    cbn [handle_all]. rewrite E1. cbn [fst snd].
    rewrite handle_all_set_queue. cbn [fst snd].
    replace (S n + length items) with (n + S (length items)) by lia.
    destruct (handle_all env clock (S n) items st1 fs1) as [st2 fs2]. reflexivity.
Qed.

(** X24.  The worker takes the queue in order.  When the queue holds the
    items [items] and nothing else, as many turns as there are items empty
    it, further turns change nothing, and every document that was queued has
    a final status.  When a shutdown signal stands behind the items, the
    loop ends after handling them, and what was queued behind the signal is
    left in the queue untouched. *)
Theorem worker_takes_the_queue_in_order (clock : nat -> str) (n : nat)
    (items : list doc_info) (st : app_state) (fs : FS) :
  let done := handle_all env clock n items st fs in
  (doc_queue st = map Some items ->
   forall more,
     process_queue env clock n (length items + more) st fs
     = (set_queue [] done.1, done.2, true))
  /\ (forall rest more,
        doc_queue st = map Some items ++ None :: rest ->
        process_queue env clock n (length items + S more) st fs
        = (set_queue rest done.1, done.2, false))
  /\ Forall (handled done.1) (map di_doc_id items).
Proof.
  cbv zeta. split_and!.
  - intros Hq more. rewrite (process_queue_items clock n items [] more st fs)
      by (rewrite app_nil_r; exact Hq).
    generalize (n + length items). induction more as [|more IH]; intros k; [reflexivity|].
    cbn [process_queue]. unfold worker_turn. cbn [set_queue doc_queue]. apply IH.
  - intros rest more Hq.
    rewrite (process_queue_items clock n items (None :: rest) (S more) st fs) by exact Hq.
    cbn [process_queue]. unfold worker_turn. cbn [set_queue doc_queue doc_status doc_metadata].
    reflexivity.
  - apply Forall_forall. intros doc_id Hd. apply handle_all_handled. right. exact Hd.
Qed.

End Worker.

Section Views.

Context (env : Env).

(** X25.  The document page shows the text of a document only once the
    worker has completed it.  After the worker handled an item with success,
    the page has the status ["completed"], the metadata entry, and the
    content file as it was written, read with universal newlines; after a
    failure the page has the error status and no content, even when the
    content file had been written before the failure. *)
Theorem document_page_follows_the_worker (now : str) (item : doc_info)
    (st : app_state) (fs : FS) :
  let doc_id := di_doc_id item in
  let st' := (handle_item env now item st fs).1 in
  let fs' := (handle_item env now item st fs).2 in
  match (process_document env (di_file_path item) doc_id fs).2 with
  | ProcSuccess _ chunks file_type ocr_used =>
      exists split_docs,
        extract env (di_file_path item) (lower (splitext_ext (di_file_path item)))
        = Return (split_docs, ocr_used)
        /\ chunks = length split_docs
        /\ view_document env fs' st' doc_id
           = Return (DocumentPage doc_id (py "completed")
                       (Some (mkDocMeta (di_original_filename item) (di_file_path item) now
                                chunks file_type ocr_used))
                       (universal_newlines
                          (chunk_loop (di_file_path item) doc_id 0 split_docs [] []).2))
  | ProcError _ error_msg =>
      view_document env fs' st' doc_id
      = Return (DocumentPage doc_id (py "error: " ++ error_msg)
                  (doc_metadata st !! doc_id) [])
  end.
Proof.
  cbv zeta. rewrite handle_item_unfold.
  destruct (process_document env (di_file_path item) (di_doc_id item) fs)
    as [fs' [d n ft ocr|d e]] eqn:E; cbn [fst snd].
  - destruct (process_document_success_artifacts env _ _ _ _ _ _ _ _ E)
      as (_ & split_docs & Hex & Hn & Hc).
    exists split_docs. split_and!; [exact Hex|exact Hn|].
    unfold view_document. cbn [doc_status doc_metadata].
    rewrite od_get_set_eq, bool_decide_eq_true_2 by reflexivity. cbv zeta.
    change (path_join PROCESSED_FOLDER (di_doc_id item ++ py "_content.txt"))
      with (content_path_of (di_doc_id item)).
    unfold path_exists, read_text. rewrite Hc.
    rewrite bool_decide_eq_true_2 by eauto. cbn [bind].
    rewrite lookup_insert_eq. reflexivity.
  - unfold view_document. cbn [doc_status doc_metadata]. rewrite od_get_set_eq.
    rewrite bool_decide_eq_false_2; [reflexivity|].
    unfold py. cbn [list_ascii_of_string app]. discriminate.
Qed.

Lemma query_document_returns fs query content_path doc_id :
  exists r, query_document env fs query content_path doc_id = Return r.
Proof.
  unfold query_document.
  destruct (query_document_body env fs query content_path doc_id); cbn [try_except]; eauto.
Qed.

Lemma query_loop_results fs st query_text doc_ids acc :
  exists results,
    query_loop env fs st query_text doc_ids acc = Return (acc ++ results)
    /\ map dr_doc_id results = filter (completed st) doc_ids
    /\ Forall (answers env fs st query_text) results.
Proof.
  revert acc; induction doc_ids as [|doc_id rest IH]; intros acc; cbn [query_loop].
  - exists []. rewrite app_nil_r. split_and!; [reflexivity|reflexivity|constructor].
  - rewrite filter_cons. unfold completed at 2. case_bool_decide as Hc.
    + rewrite decide_True by exact Hc.
      destruct (query_document_returns fs query_text
                  (path_join PROCESSED_FOLDER (doc_id ++ py "_content.txt")) doc_id)
        as [qr Hq].
      rewrite Hq. cbn [bind].
      destruct (IH (acc ++ [mkDocResult doc_id (shown_filename st doc_id)
                              (answer qr) (citation qr)])) as (results & -> & Hm & Ha).
      eexists (_ :: results). rewrite <- app_assoc. cbn [app].
      split_and!; [reflexivity|cbn [map dr_doc_id]; rewrite Hm; reflexivity|].
      constructor; [|exact Ha]. exists qr. eexists. cbn [dr_doc_id dr_answer dr_citation dr_filename].
      split_and!; [exact Hq|reflexivity..].
    + rewrite decide_False by exact Hc. apply IH.
Qed.

(** X26.  The per-document results of a query are those of the selected
    documents whose status is ["completed"], one for each selection of such
    a document, in the order of selection; every other selected document is
    passed over.  Each result carries the answer and the citation
    [query_document] returns for its document, be it an error record, and
    the loop itself never raises. *)
Theorem results_cover_completed_selection (fs : FS) (st : app_state)
    (query_text : str) (doc_ids : list str) :
  exists results,
    query_loop env fs st query_text doc_ids [] = Return results
    /\ map dr_doc_id results = filter (completed st) doc_ids
    /\ Forall (answers env fs st query_text) results.
Proof. apply (query_loop_results fs st query_text doc_ids []). Qed.

(** X27.  The shared index is built from every selected document, completed
    or not, but themes are sought among the completed ones only.  So when
    the index can be built and no selected document is completed (as for
    every selection after a restart, which empties the status table and
    leaves the store), the page shows no result, no theme and the answer "No
    documents were processed for this query."; and when exactly one is
    completed, the one theme is the "Single Document Analysis" of that
    document's answer. *)
Theorem few_completed_documents_skip_the_index (fs : FS) (st : app_state)
    (query_text : str) (doc_ids : list str) (index : list Document) :
  query_text <> [] ->
  create_multi_document_vector_db env fs doc_ids = Return (Some index) ->
  (filter (completed st) doc_ids = [] ->
   query_documents_post env fs st (Some query_text) doc_ids
   = Return (QueryResultsPage query_text [] []
               (py "No documents were processed for this query.")))
  /\ (forall doc_id,
        filter (completed st) doc_ids = [doc_id] ->
        exists r,
          answers env fs st query_text r
          /\ dr_doc_id r = doc_id
          /\ query_documents_post env fs st (Some query_text) doc_ids
             = Return (QueryResultsPage query_text [r]
                         [mkTheme (py "Single Document Analysis") (dr_answer r)
                            [VStr doc_id] [VStr (dr_citation r)]]
                         (dr_answer r))).
Proof.
  intros Hq Hdb.
  assert (Hpost : forall results,
            query_loop env fs st query_text doc_ids [] = Return results ->
            query_documents_post env fs st (Some query_text) doc_ids
            = (theme_results <- identify_themes env fs query_text results 5;;
               Return (QueryResultsPage query_text results
                         (themes theme_results) (synthesized_answer theme_results)))).
  { intros results Hl. unfold query_documents_post.
    destruct query_text as [|c q]; [destruct Hq; reflexivity|].
    destruct doc_ids as [|doc_id rest].
    - rewrite create_multi_document_vector_db_unfold in Hdb. discriminate.
    - rewrite Hdb. cbn [bind]. rewrite Hl. reflexivity. }
  destruct (query_loop_results fs st query_text doc_ids []) as (results & Hl & Hm & Ha).
  cbn [app] in Hl. rewrite (Hpost _ Hl). split.
  - intros Hnone. rewrite Hnone in Hm. destruct results; [|discriminate]. reflexivity.
  - intros doc_id Hone. rewrite Hone in Hm.
    destruct results as [|r [|r' results]]; try discriminate.
    injection Hm as Hm. apply Forall_cons in Ha as [Ha _].
    exists r. split_and!; [exact Ha|exact Hm|]. rewrite <- Hm. reflexivity.
Qed.

End Views.

Lemma few_completed_documents_skip_the_index_witness :
  query_documents_post env_two fs_two app_start (Some (py "revenue?")) [py "d1"; py "d2"]
  = Return (QueryResultsPage (py "revenue?") [] []
              (py "No documents were processed for this query.")).
Proof.
  destruct (few_completed_documents_skip_the_index env_two fs_two app_start
              (py "revenue?") [py "d1"; py "d2"] index_two) as [H _].
  - discriminate.
  - vm_compute. reflexivity.
  - apply H. reflexivity.
Defined.

Section Uploads.

Context (secure_filename : str -> str).

Lemma upload_loop_returns uploads acc st fs st' fs' results :
  upload_loop secure_filename uploads acc st fs = (st', fs', Return results) ->
  results = acc ++ map entry_of uploads
  /\ doc_queue st'
     = doc_queue st ++ map (fun file => Some (item_of secure_filename file))
                         (filter accepted uploads)
  /\ doc_metadata st' = doc_metadata st
  /\ (forall doc_id,
        od_get (doc_status st') doc_id
        = if bool_decide (doc_id ∈ map up_uuid (filter accepted uploads))
          then Some (py "queued") else od_get (doc_status st) doc_id).
Proof.
  revert acc st fs; induction uploads as [|file rest IH]; intros acc st fs; cbn [upload_loop].
  - intros [= <- <- <-]. rewrite !app_nil_r. split_and!; [reflexivity..|].
    intros doc_id. rewrite bool_decide_eq_false_2 by (cbn; apply not_elem_of_nil). reflexivity.
  - rewrite filter_cons. cbn [map].
    change (negb (bool_decide (up_filename file = [])) && allowed_file (up_filename file))
      with (accepted file).
    assert (He : entry_of file
                 = if accepted file then Queued (up_uuid file) (up_filename file)
                   else Refused (if bool_decide (up_filename file = []) then py "Unknown"
                                 else up_filename file)) by reflexivity.
    rewrite He. clear He.
    destruct (accepted file) eqn:Ea; cbv zeta.
    + rewrite decide_True by exact I.
      unfold write_file. case_bool_decide as Hw; [intros [=]|].
      intros H. apply IH in H as (Hr & Hq & Hm & Hs).
      cbn [set_queue set_status doc_queue doc_metadata doc_status] in Hq, Hm, Hs.
      split_and!.
      * rewrite Hr, <- app_assoc. reflexivity.
      * rewrite Hq, <- app_assoc. reflexivity.
      * exact Hm.
      * intros doc_id. rewrite Hs. cbn [map]. rewrite (bool_decide_ext _ _ (elem_of_cons _ _ _)).
        case_bool_decide as H1.
        -- rewrite bool_decide_eq_true_2 by (right; exact H1). reflexivity.
        -- destruct (decide (doc_id = up_uuid file)) as [->|Hne].
           ++ rewrite bool_decide_eq_true_2 by (left; reflexivity). apply od_get_set_eq.
           ++ rewrite bool_decide_eq_false_2 by tauto. apply od_get_set_ne. exact Hne.
    + rewrite decide_False by (intros []). intros H. apply IH in H as (Hr & Hq & Hm & Hs).
      split_and!; [|exact Hq|exact Hm|exact Hs].
      rewrite Hr, <- app_assoc. reflexivity.
Qed.

Lemma queued_entries uploads :
  length (filter is_queued (map entry_of uploads)) = length (filter accepted uploads).
Proof.
  induction uploads as [|file rest IH]; [reflexivity|].
  cbn [map]. rewrite !filter_cons.
  assert (He : is_queued (entry_of file) = accepted file).
  { unfold entry_of. destruct (accepted file); reflexivity. }
  rewrite He. destruct (accepted file).
  - rewrite !decide_True by exact I. cbn [length]. rewrite IH. reflexivity.
  - rewrite !decide_False by (intros []). exact IH.
Qed.

(** X28.  An upload that is answered with the list of results has queued the
    accepted files and nothing else.  A file is accepted when its name is
    not empty and has an allowed extension; the results list the files in
    the order of the request, each accepted one with the identifier drawn
    for it; the message counts the accepted files; the queue has grown by
    one item per accepted file, in order, behind what it held; the status of
    each is ["queued"], and no other status and no metadata has changed. *)
Theorem upload_queues_the_accepted_files (uploads : list upload)
    (st : app_state) (fs : FS) (st' : app_state) (fs' : FS)
    (message : str) (results : list upload_entry) :
  upload_files secure_filename (Some uploads) st fs
  = (st', fs', Return (JsonUploaded message results)) ->
  results = map entry_of uploads
  /\ message = py "Queued " ++ str_of_nat (length (filter accepted uploads))
                 ++ py " documents for processing"
  /\ doc_queue st'
     = doc_queue st ++ map (fun file => Some (item_of secure_filename file))
                         (filter accepted uploads)
  /\ doc_metadata st' = doc_metadata st
  /\ (forall doc_id,
        od_get (doc_status st') doc_id
        = if bool_decide (doc_id ∈ map up_uuid (filter accepted uploads))
          then Some (py "queued") else od_get (doc_status st) doc_id).
Proof.
  unfold upload_files. destruct uploads as [|first rest]; [intros [=]|].
  case_bool_decide as Hn; [intros [=]|].
  destruct (upload_loop secure_filename (first :: rest) [] st fs) as [[st1 fs1] [res|e]] eqn:E;
    [|intros [=]].
  intros [= <- <- <- <-].
  apply upload_loop_returns in E as (Hr & Hq & Hm & Hs). cbn [app] in Hr.
  split_and!; [exact Hr| |exact Hq|exact Hm|exact Hs].
  rewrite Hr, queued_entries. reflexivity.
Qed.

End Uploads.

Lemma upload_queues_the_accepted_files_witness :
  upload_reply.2 = map entry_of uploads_two
  /\ doc_queue upload_run.1.1
     = doc_queue app_start
       ++ map (fun file => Some (item_of (fun name => name) file))
              (filter accepted uploads_two).
Proof.
  destruct (upload_queues_the_accepted_files (fun name => name) uploads_two app_start
              empty_fs upload_run.1.1 upload_run.1.2 upload_reply.1 upload_reply.2)
    as (Hr & _ & Hq & _).
  - vm_compute. reflexivity.
  - split; [exact Hr|exact Hq].
Defined.
